(** * xinfer: a shallow embedding of the wrapper glue and the listing code

    The development follows the four source files of the package:
    [core.py] (factory and listing), [timm/timm_model.py],
    [transformers/auto.py] and [transformers/moondream.py].

    Python values that the code inspects dynamically ([isinstance], [len])
    are kept as a small universe [pyval]; exceptions are an inductive type
    and every call that may raise returns a [result]. Everything that the
    package delegates to torch, timm, transformers, PIL and requests is an
    oracle of a [World] record: the wrappers are functions of the world they
    run in, and each interaction is recorded in a chronological trace. *)

From Stdlib Require Import ZArith QArith String Ascii List Bool Lia.
From stdpp Require Import base gmap strings list.

Import ListNotations.
Local Open Scope Z_scope.

(** ** Python strings

    A [str] is modelled by [string], one character per code point below 256;
    the operations are the ones the source calls. Strings with other
    characters are lists of code points, further down. *)

Module Str.

(** [c.lower()] on one character below 256: the capital letters [A]..[Z]
    and, above 127, the capital letters of Latin-1 are replaced by the
    character 32 places further on. *)
Definition lower_char (c : ascii) : ascii :=
  let n := nat_of_ascii c in
  if ((65 <=? n) && (n <=? 90) || (192 <=? n) && (n <=? 214)
      || (216 <=? n) && (n <=? 222))%nat
  then ascii_of_nat (n + 32) else c.

(** [s.lower()] for a string of such characters, where it works
    character by character. *)
Fixpoint lower (s : string) : string :=
  match s with
  | EmptyString => EmptyString
  | String c s' => String (lower_char c) (lower s')
  end.

(** [s.startswith(p)] *)
Definition startswith (s p : string) : bool := String.prefix p s.

(** [a in b] for two strings: [a] occurs in [b] as a contiguous block. *)
Fixpoint contains (a b : string) : bool :=
  String.prefix a b ||
  match b with
  | EmptyString => false
  | String _ b' => contains a b'
  end.

(** Characters that [str.isspace] accepts, below code point 256. *)
Definition is_space (c : ascii) : bool :=
  let n := nat_of_ascii c in
  ((9 <=? n) && (n <=? 13) || (28 <=? n) && (n <=? 32)
   || (n =? 133) || (n =? 160))%nat.

Definition newline : ascii := ascii_of_nat 10.

(** [s.replace(c, empty)] for a one-character pattern [c]. *)
Fixpoint remove_char (c : ascii) (s : string) : string :=
  match s with
  | EmptyString => EmptyString
  | String d s' =>
      if Ascii.eqb d c then remove_char c s' else String d (remove_char c s')
  end.

Fixpoint lstrip (s : string) : string :=
  match s with
  | EmptyString => EmptyString
  | String c s' => if is_space c then lstrip s' else s
  end.

Fixpoint rstrip (s : string) : string :=
  match s with
  | EmptyString => EmptyString
  | String c s' =>
      match rstrip s' with
      | EmptyString => if is_space c then EmptyString else String c EmptyString
      | r => String c r
      end
  end.

(** [s.strip()] *)
Definition strip (s : string) : string := rstrip (lstrip s).

(** Membership of a character, first and last character. *)
Fixpoint has_char (c : ascii) (s : string) : bool :=
  match s with
  | EmptyString => false
  | String d s' => Ascii.eqb d c || has_char c s'
  end.

Definition first_char (s : string) : option ascii :=
  match s with
  | EmptyString => None
  | String c _ => Some c
  end.

Fixpoint last_char (s : string) : option ascii :=
  match s with
  | EmptyString => None
  | String c EmptyString => Some c
  | String _ s' => last_char s'
  end.

End Str.

(** ** Python strings of any characters

    [string] cannot hold a character from code point 256 on. Where such
    characters matter a [str] is the list of its code points. *)

Module Unicode.

Definition str : Type := list Z.

(** The code points of a string of the narrow kind. *)
Definition of_string (s : string) : str :=
  map (fun c => Z.of_nat (nat_of_ascii c)) (list_ascii_of_string s).

Fixpoint prefix (a b : str) : bool :=
  match a, b with
  | [], _ => true
  | _ :: _, [] => false
  | c :: a', d :: b' => (c =? d) && prefix a' b'
  end.

(** [a in b] *)
Fixpoint contains (a b : str) : bool :=
  prefix a b ||
  match b with
  | [] => false
  | _ :: b' => contains a b'
  end.

Fixpoint eqb (a b : str) : bool :=
  match a, b with
  | [], [] => true
  | c :: a', d :: b' => (c =? d) && eqb a' b'
  | _, _ => false
  end.

End Unicode.

(** ** Exceptions, results and the effect monad *)

Inductive exn : Type :=
| ValueError (msg : string)
| LookupError (key : string)
| FileNotFoundError (path : string)
| RequestException (msg : string)
| IndexError (msg : string)
| TypeError (msg : string)
| RuntimeError (msg : string)
| LibraryError (msg : string).

Definition is_value_error (e : exn) : bool :=
  match e with ValueError _ => true | _ => false end.

Definition is_lookup_error (e : exn) : bool :=
  match e with LookupError _ => true | _ => false end.

Inductive result (A : Type) : Type :=
| Ok (a : A)
| Raise (e : exn).
Arguments Ok {A} a.
Arguments Raise {A} e.

Definition raises_value_error {A} (r : result A) : bool :=
  match r with Raise e => is_value_error e | Ok _ => false end.

(** A computation reads and updates a state [S] and returns or raises. *)
Definition M (S A : Type) : Type := S -> result A * S.

Definition ret {S A} (a : A) : M S A := fun s => (Ok a, s).

Definition raise {S A} (e : exn) : M S A := fun s => (Raise e, s).

Definition bind {S A B} (m : M S A) (k : A -> M S B) : M S B :=
  fun s =>
    match m s with
    | (Ok a, s') => k a s'
    | (Raise e, s') => (Raise e, s')
    end.

Definition lift_result {S A} (r : result A) : M S A := fun s => (r, s).

Declare Scope py_scope.
Delimit Scope py_scope with py.
Notation "x <- m ;; k" := (bind m (fun x => k))
  (at level 100, m at next level, right associativity) : py_scope.
Notation "m ;;; k" := (bind m (fun _ => k))
  (at level 100, right associativity) : py_scope.
Local Open Scope py_scope.

(** [for x in xs: out.append(f(x))], stopping at the first exception. *)
Fixpoint for_each {S A B} (f : A -> M S B) (xs : list A) : M S (list B) :=
  match xs with
  | [] => ret []
  | x :: xs' => y <- f x ;; ys <- for_each f xs' ;; ret (y :: ys)
  end.

(** ** Python values the wrappers inspect at run time *)

Inductive pyval : Type :=
| PyNone
| PyStr (s : string)
| PyInt (n : Z)
| PyFloat (q : Q)
| PyList (items : list pyval).

(** The keyword arguments that a call leaves for [**kwargs], handed
    through to the libraries; the named parameters of a constructor
    (device, dtype, revision) are not among them. *)
Definition kwargs : Type := list (string * pyval).

(** [isinstance(v, list)] and the normalisation [v = [v]] that follows it. *)
Definition as_list (v : pyval) : list pyval :=
  match v with
  | PyList items => items
  | _ => [v]
  end.

(** [len(v)]: elements of a list, characters of a string. *)
Definition py_len (v : pyval) : result Z :=
  match v with
  | PyList items => Ok (Z.of_nat (length items))
  | PyStr s => Ok (Z.of_nat (String.length s))
  | _ => Raise (TypeError "object has no len()")
  end.

(** [xs[i]] on a list, for a non-negative index. *)
Definition py_index {A} (xs : list A) (i : nat) : result A :=
  match nth_error xs i with
  | Some x => Ok x
  | None => Raise (IndexError "list index out of range")
  end.

(** ** Values produced by the libraries *)

Inductive torch_dtype : Type := torch_float32 | torch_float16 | torch_bfloat16.

Definition dtype_repr (d : torch_dtype) : string :=
  match d with
  | torch_float32 => "torch.float32"
  | torch_float16 => "torch.float16"
  | torch_bfloat16 => "torch.bfloat16"
  end.

(** A picture as PIL hands it out, and the same picture after
    [convert("RGB")]. *)
Inductive image : Type :=
| Picture (data : string)
| ConvertRGB (im : image).

Definition response : Type := string.   (* the body requests received *)
Definition nn_module : Type := nat.     (* a loaded network *)
Definition processor : Type := nat.     (* a processor or tokenizer *)
Definition sample : Type := list Q.     (* one transformed picture *)
Definition tokens : Type := list Z.     (* one generated sequence *)
Definition features : Type := list (list Z).

(** A batch tensor: its rows, and where [.to(device, dtype)] put it. *)
Record tensor : Type := {
  rows : list sample;
  t_device : string;
  t_dtype : option torch_dtype
}.

(** ** Interactions with the outside *)

Inductive event : Type :=
| LogInfo (msg : string)
| LogInfoValue (msg : string) (v : pyval)
| LogInferenceTime (ms : Q)
| CudaIsAvailable
| PerfCounter
| RequestsGet (url : string) (stream : bool)
| ImageOpen (path : string)
| ImageOpenResponse (body : response)
| TimmCreateModel (model_id : string)
| ProcessorFromPretrained (model_id : string)
| Vision2SeqFromPretrained (model_id : string)
| CausalLMFromPretrained (model_id : string)
| TokenizerFromPretrained (model_id : string)
| ModuleTo
| TorchCompile
| TimmTransform
| TimmForward
| ProcessorCall
| Generate
| BatchDecode
| EncodeImage
| AnswerQuestion
| BatchAnswer.

(** The calls that load a model, and the calls that run one. *)
Definition is_load (e : event) : bool :=
  match e with
  | TimmCreateModel _ | ProcessorFromPretrained _ | Vision2SeqFromPretrained _
  | CausalLMFromPretrained _ | TokenizerFromPretrained _
  | ModuleTo | TorchCompile => true
  | _ => false
  end.

Definition is_compute (e : event) : bool :=
  match e with
  | TimmTransform | TimmForward | ProcessorCall | Generate | BatchDecode
  | EncodeImage | AnswerQuestion | BatchAnswer => true
  | _ => false
  end.

(** Everything the package delegates. Each oracle answers as the library
    would on the given arguments, by a value or by an exception:
    [requests_get url stream] is [requests.get], [image_open] and
    [image_open_response] are [Image.open] on a path and on a response,
    [timm_transform] is the transform resolved for the model, and
    [timm_forward], [processor_call], [generate], [encode_image],
    [answer_question] and [batch_answer] run under the device and dtype
    they are given. [IMAGENET2012_CLASSES] is the table of the module
    [imagenet1k_classes], which is not among the sources: its entries are
    a parameter of the world. [perf_counter n] is the n-th reading of the
    clock. [cumulative_time evs completed total] is the cumulative time
    that the statistics of an instance hold after a block run under
    [track_inference_time], when they held [total] before, the block was
    left after the events [evs], and [completed] tells whether it was left
    normally or by an exception. *)
Record World : Type := {
  cuda_is_available : bool;
  perf_counter : nat -> Q;
  requests_get : string -> bool -> result response;
  image_open : string -> result image;
  image_open_response : response -> result image;
  IMAGENET2012_CLASSES : list (string * string);
  timm_create_model : string -> kwargs -> result nn_module;
  module_to : nn_module -> string -> torch_dtype -> result nn_module;
  torch_compile : nn_module -> result nn_module;
  timm_transform : nn_module -> image -> result sample;
  timm_forward : nn_module -> string -> torch_dtype -> tensor -> result (list (list Q));
  softmax : list Q -> list Q;
  processor_from_pretrained : string -> kwargs -> result processor;
  vision2seq_from_pretrained : string -> kwargs -> result nn_module;
  processor_call :
    processor -> list image -> list pyval -> string -> torch_dtype -> result features;
  generate :
    nn_module -> string -> torch_dtype -> features -> kwargs -> result (list tokens);
  batch_decode : processor -> list tokens -> result (list string);
  causal_lm_from_pretrained : string -> string -> result nn_module;
  tokenizer_from_pretrained : string -> result processor;
  encode_image : nn_module -> list image -> result features;
  answer_question :
    nn_module -> pyval -> features -> processor -> kwargs -> result string;
  batch_answer :
    nn_module -> list image -> list pyval -> processor -> kwargs -> result (list string);
  cumulative_time : list event -> bool -> Q -> Q
}.

(** The running process: what has happened so far, and how often the
    clock was read. *)
Record machine : Type := {
  trace : list event;
  ticks : nat
}.

Definition boot : machine := {| trace := []; ticks := 0 |}.

Definition emit (e : event) : M machine unit :=
  fun s => (Ok tt, {| trace := trace s ++ [e]; ticks := ticks s |}).

(** A call into a library: recorded, then answered by the oracle. *)
Definition extern {A} (e : event) (r : result A) : M machine A :=
  emit e ;;; lift_result r.

(** [logger.info(msg)] *)
Definition logger_info (msg : string) : M machine unit := emit (LogInfo msg).

(** [time.perf_counter()] *)
Definition time_perf_counter (W : World) : M machine Q :=
  fun s =>
    (Ok (perf_counter W (ticks s)),
     {| trace := trace s ++ [PerfCounter]; ticks := S (ticks s) |}).

(** ** The dtype table shared by the three constructors *)

Definition dtype_map : gmap string torch_dtype :=
  <["float32" := torch_float32]>
    (<["float16" := torch_float16]>
       (<["bfloat16" := torch_bfloat16]> ∅)).

Definition dtype_error : exn :=
  ValueError "dtype must be one of 'float32', 'float16', or 'bfloat16'".

(** [if dtype not in dtype_map: raise ValueError(...)], then
    [dtype_map[dtype]]. *)
Definition check_dtype {S} (dtype : string) : M S torch_dtype :=
  match dtype_map !! dtype with
  | None => raise dtype_error
  | Some d => ret d
  end.

(** ** Resolving one image argument *)

Definition is_url (s : string) : bool :=
  Str.startswith s "http://" || Str.startswith s "https://".

Definition not_a_string : exn :=
  ValueError "Input must be a string (local path or URL)".

Definition local_file_not_found (path : string) : exn :=
  ValueError ("Local file not found: " +:+ path).

(** [try: body except FileNotFoundError: handler] *)
Definition except_FileNotFoundError {S A} (body handler : M S A) : M S A :=
  fun s =>
    match body s with
    | (Raise (FileNotFoundError _), s') => handler s'
    | r => r
    end.

(** ** Tensor primitives of torch used by the classifier wrapper *)

(** [torch.stack(ts)]: one row per element; an empty list is refused. *)
Definition torch_stack {A} (ts : list A) : result (list A) :=
  match ts with
  | [] => Raise (RuntimeError "stack expects a non-empty TensorList")
  | _ => Ok ts
  end.

(** [t * 100] on one row. *)
Definition times100 (row : list Q) : list Q := map (Qmult (Qmake 100 1)) row.

(** Insertion of a (value, index) pair into a list kept in descending
    order of value. Which of two equal values [torch.topk] returns first
    is the library's business; here the smaller index comes first, and
    nothing that is proved about the wrapper depends on that order. *)
Fixpoint insert_desc (x : Q * nat) (l : list (Q * nat)) : list (Q * nat) :=
  match l with
  | [] => [x]
  | y :: l' =>
      if Qle_bool (fst y) (fst x) then x :: l else y :: insert_desc x l'
  end.

Definition sort_desc (l : list (Q * nat)) : list (Q * nat) :=
  fold_right insert_desc [] l.

(** [torch.topk(row, k)] along the last dimension: the [k] largest values
    with their positions; [k] outside [0..len] is refused. *)
Definition topk_row (k : Z) (row : list Q) : result (list (Q * nat)) :=
  if (k <? 0) || (Z.of_nat (length row) <? k)
  then Raise (RuntimeError "selected index k out of range")
  else Ok (firstn (Z.to_nat k) (sort_desc (combine row (seq 0 (length row))))).

Fixpoint map_result {A B} (f : A -> result B) (xs : list A) : result (list B) :=
  match xs with
  | [] => Ok []
  | x :: xs' =>
      match f x with
      | Raise e => Raise e
      | Ok y =>
          match map_result f xs' with
          | Raise e => Raise e
          | Ok ys => Ok (y :: ys)
          end
      end
  end.

(** [torch.topk(t, k=k)] on a matrix: values and indices, row by row. *)
Definition torch_topk (t : list (list Q)) (k : Z)
  : result (list (list Q) * list (list nat)) :=
  match map_result (topk_row k) t with
  | Raise e => Raise e
  | Ok picked => Ok (map (map fst) picked, map (map snd) picked)
  end.

(** [zip(a, b, c)] *)
Fixpoint zip3 {A B C} (a : list A) (b : list B) (c : list C) : list (A * B * C) :=
  match a, b, c with
  | x :: a', y :: b', z :: c' => (x, y, z) :: zip3 a' b' c'
  | _, _, _ => []
  end.

(** ** The base class

    Modelled from the spec: the module defining [BaseModel] and its
    statistics object is not among the sources. Section 3 of the
    specification gives a wrapper instance a device/dtype configuration and
    running statistics made of an inference count and a cumulative time;
    [update_inference_count(n)] adds [n] to the count and the context
    manager [track_inference_time()] is what keeps the cumulative time.
    How much a block adds to it, and whether a block that raises adds
    anything, is said neither there nor in the sources: the time that the
    statistics hold after a block is an oracle of the world. *)

Record ModelStats : Type := {
  num_inferences : Z;
  total_inference_time : Q
}.

Record BaseModel : Type := {
  model_id : string;
  device : string;
  dtype : torch_dtype;
  stats : ModelStats
}.

(** Modelled from the spec: [BaseModel.__init__(model_id, device, dtype)]
    stores the configuration and starts the statistics at zero. *)
Definition BaseModel_init (id dev : string) (dt : torch_dtype) : BaseModel :=
  {| model_id := id; device := dev; dtype := dt;
     stats := {| num_inferences := 0; total_inference_time := Qmake 0 1 |} |}.

(** A classification result: the dictionary with its keys in insertion
    order. *)
Definition pydict : Type := list (string * pyval).

Definition keys (d : pydict) : list string := map fst d.

(** ** timm/timm_model.py *)

Module TimmModel.

Record obj : Type := {
  base : BaseModel;
  model : nn_module
}.

(** [timm.create_model(..., pretrained=True, **kwargs).to(device, dtype)],
    then [torch.compile]; the final [eval()] only switches the mode of the
    module that is kept. *)
Definition load_model (W : World) (b : BaseModel) (kw : kwargs)
  : M machine nn_module :=
  logger_info ("Loading model: " +:+ model_id b) ;;;
  created <- extern (TimmCreateModel (model_id b))
                    (timm_create_model W (model_id b) kw) ;;
  placed <- extern ModuleTo (module_to W created (device b) (dtype b)) ;;
  extern TorchCompile (torch_compile W placed).

Definition __init__ (W : World) (model_id device dtype : string) (kw : kwargs)
  : M machine obj :=
  logger_info ("Model: " +:+ model_id) ;;;
  logger_info ("Device: " +:+ device) ;;;
  logger_info ("Dtype: " +:+ dtype) ;;;
  dt <- check_dtype dtype ;;
  let b := BaseModel_init model_id device dt in
  m <- load_model W b kw ;;
  ret {| base := b; model := m |}.

(** The body of the loop over [images]. *)
Definition open_image (W : World) (image_path : pyval) : M machine image :=
  match image_path with
  | PyStr path =>
      if is_url path then
        resp <- extern (RequestsGet path false) (requests_get W path false) ;;
        extern (ImageOpenResponse resp) (image_open_response W resp)
      else
        extern (ImageOpen path) (image_open W path)
  | _ => raise not_a_string
  end.

Definition preprocess (W : World) (self : obj) (images : pyval)
  : M machine tensor :=
  let images := as_list images in
  processed_images <- for_each (open_image W) images ;;
  transformed <- for_each
    (fun img => extern TimmTransform (timm_transform W (model self) img))
    processed_images ;;
  stacked <- lift_result (torch_stack transformed) ;;
  ret {| rows := stacked;
         t_device := device (base self);
         t_dtype := Some (dtype (base self)) |}.

(** [self.model(img)] under [inference_mode] and [autocast]. *)
Definition forward (W : World) (self : obj) (t : tensor)
  : M machine (list (list Q)) :=
  extern TimmForward
    (timm_forward W (model self) (device (base self)) (dtype (base self)) t).

Definition im_classes (W : World) : list string :=
  map snd (IMAGENET2012_CLASSES W).

(** The dictionary built for one class. *)
Definition entry (class_name : string) (class_idx : nat) (prob : Q) : pydict :=
  [("class", PyStr class_name);
   ("id", PyInt (Z.of_nat class_idx));
   ("confidence", PyFloat prob)].

Definition infer (W : World) (self : obj) (image : pyval) (top_k : Z)
  : M machine (list pydict) :=
  emit (LogInfoValue "Running inference on " image) ;;;
  img <- preprocess W self image ;;
  output <- forward W self img ;;
  topk <- lift_result
    (torch_topk (map (fun r => times100 (softmax W r)) output) top_k) ;;
  let '(topk_probabilities, topk_class_indices) := topk in
  idxs0 <- lift_result (py_index topk_class_indices 0) ;;
  class_names <- lift_result (map_result (py_index (im_classes W)) idxs0) ;;
  probs0 <- lift_result (py_index topk_probabilities 0) ;;
  ret (map (fun '(n, i, p) => entry n i p) (zip3 class_names idxs0 probs0)).

Definition infer_batch (W : World) (self : obj) (images : pyval) (top_k : Z)
  : M machine (list (list pydict)) :=
  images <- preprocess W self images ;;
  output <- forward W self images ;;
  topk <- lift_result
    (torch_topk (map (fun r => times100 (softmax W r)) output) top_k) ;;
  let '(topk_probabilities, topk_class_indices) := topk in
  for_each
    (fun i =>
       idxs <- lift_result (py_index topk_class_indices i) ;;
       class_names <- lift_result (map_result (py_index (im_classes W)) idxs) ;;
       probs <- lift_result (py_index topk_probabilities i) ;;
       ret (map (fun '(n, i, p) => entry n i p) (zip3 class_names idxs probs)))
    (seq 0 (length (rows images))).

End TimmModel.

(** The image loop shared, line for line, by the two transformers
    wrappers: a URL is fetched, a local path is opened, and only a missing
    local file is turned into a [ValueError]. *)
Definition open_image_rgb (W : World) (image_path : pyval) : M machine image :=
  match image_path with
  | PyStr path =>
      if is_url path then
        resp <- extern (RequestsGet path true) (requests_get W path true) ;;
        im <- extern (ImageOpenResponse resp) (image_open_response W resp) ;;
        ret (ConvertRGB im)
      else
        except_FileNotFoundError
          (im <- extern (ImageOpen path) (image_open W path) ;;
           ret (ConvertRGB im))
          (raise (local_file_not_found path))
  | _ => raise not_a_string
  end.

(** ** transformers/auto.py *)

Module Vision2SeqModel.

Record obj : Type := {
  base : BaseModel;
  processor_ : processor;
  model : nn_module
}.

(** The instance together with the process it lives in. *)
Record state : Type := {
  self : obj;
  sys : machine
}.

Definition lift_sys {A} (m : M machine A) : M state A :=
  fun s =>
    let '(r, sys') := m (sys s) in
    (r, {| self := self s; sys := sys' |}).

Definition get_self : M state obj := fun s => (Ok (self s), s).

Definition set_stats (f : ModelStats -> ModelStats) : M state unit :=
  fun s =>
    let o := self s in
    let b := base o in
    (Ok tt,
     {| self := {| base := {| model_id := model_id b; device := device b;
                              dtype := dtype b; stats := f (stats b) |};
                   processor_ := processor_ o;
                   model := model o |};
        sys := sys s |}).

(** Modelled from the spec: [self.stats.update_inference_count(n)]. *)
Definition update_inference_count (n : Z) : M state unit :=
  set_stats (fun st =>
    {| num_inferences := num_inferences st + n;
       total_inference_time := total_inference_time st |}).

(** Modelled from the spec: [with self.stats.track_inference_time(): body].
    The body runs, what it returns or raises is what the block returns or
    raises, and on the way out the cumulative time of the statistics is
    replaced by the one the world gives; the count is not touched. *)
Definition track_inference_time {A} (W : World) (body : M state A) : M state A :=
  fun s =>
    let '(r, s') := body s in
    let completed := match r with Ok _ => true | Raise _ => false end in
    let '(_, s'') :=
      set_stats (fun st =>
        {| num_inferences := num_inferences st;
           total_inference_time :=
             cumulative_time W (trace (sys s')) completed
               (total_inference_time st) |}) s' in
    (r, s'').

Definition load_model (W : World) (b : BaseModel) (kw : kwargs)
  : M machine (processor * nn_module) :=
  proc <- extern (ProcessorFromPretrained (model_id b))
                 (processor_from_pretrained W (model_id b) kw) ;;
  loaded <- extern (Vision2SeqFromPretrained (model_id b))
                   (vision2seq_from_pretrained W (model_id b) kw) ;;
  placed <- extern ModuleTo (module_to W loaded (device b) (dtype b)) ;;
  compiled <- extern TorchCompile (torch_compile W placed) ;;
  ret (proc, compiled).

Definition __init__ (W : World) (model_id device dtype : string) (kw : kwargs)
  : M machine obj :=
  logger_info ("Model: " +:+ model_id) ;;;
  logger_info ("Device: " +:+ device) ;;;
  logger_info ("Dtype: " +:+ dtype) ;;;
  dt <- check_dtype dtype ;;
  let b := BaseModel_init model_id device dt in
  pm <- load_model W b kw ;;
  ret {| base := b; processor_ := fst pm; model := snd pm |}.

Definition length_mismatch : exn :=
  ValueError "The number of images and prompts must be the same".

Definition preprocess (W : World) (self : obj) (images prompts : pyval)
  : M machine features :=
  let images := as_list images in
  let prompts := as_list prompts in
  if negb (length images =? length prompts)%nat then raise length_mismatch
  else
    processed_images <- for_each (open_image_rgb W) images ;;
    extern ProcessorCall
      (processor_call W (processor_ self) processed_images prompts
         (device (base self)) (dtype (base self))).

Definition predict (W : World) (self : obj) (preprocessed_input : features)
    (generate_kwargs : kwargs) : M machine (list tokens) :=
  extern Generate
    (generate W (model self) (device (base self)) (dtype (base self))
       preprocessed_input generate_kwargs).

(** [output.replace(newline, empty).strip()] *)
Definition clean (output : string) : string :=
  Str.strip (Str.remove_char Str.newline output).

Definition postprocess (W : World) (self : obj) (predictions : list tokens)
  : M machine (list string) :=
  outputs <- extern BatchDecode (batch_decode W (processor_ self) predictions) ;;
  ret (map clean outputs).

Definition infer (W : World) (image prompt : pyval) (generate_kwargs : kwargs)
  : M state string :=
  result <- track_inference_time W
    (self <- get_self ;;
     preprocessed_input <- lift_sys (preprocess W self image prompt) ;;
     prediction <- lift_sys (predict W self preprocessed_input generate_kwargs) ;;
     decoded <- lift_sys (postprocess W self prediction) ;;
     lift_result (py_index decoded 0)) ;;
  update_inference_count 1 ;;;
  ret result.

Definition infer_batch (W : World) (images prompts : pyval)
    (generate_kwargs : kwargs) : M state (list string) :=
  results <- track_inference_time W
    (self <- get_self ;;
     preprocessed_input <- lift_sys (preprocess W self images prompts) ;;
     predictions <- lift_sys (predict W self preprocessed_input generate_kwargs) ;;
     lift_sys (postprocess W self predictions)) ;;
  n <- lift_result (py_len images) ;;
  update_inference_count n ;;;
  ret results.

End Vision2SeqModel.

(** ** transformers/moondream.py *)

Module Moondream.

Record obj : Type := {
  base : BaseModel;
  revision : string;
  model : nn_module;
  tokenizer : processor
}.

Definition load_model (W : World) (b : BaseModel) (revision : string)
  : M machine (nn_module * processor) :=
  loaded <- extern (CausalLMFromPretrained (model_id b))
                   (causal_lm_from_pretrained W (model_id b) revision) ;;
  placed <- extern ModuleTo (module_to W loaded (device b) (dtype b)) ;;
  compiled <- extern TorchCompile (torch_compile W placed) ;;
  tok <- extern (TokenizerFromPretrained (model_id b))
                (tokenizer_from_pretrained W (model_id b)) ;;
  ret (compiled, tok).

(** [device == "auto" and torch.cuda.is_available()]: the right operand
    is only evaluated when the left one holds. *)
Definition pick_device (W : World) (device : string) : M machine string :=
  if String.eqb device "auto" then
    available <- extern CudaIsAvailable (Ok (cuda_is_available W)) ;;
    ret (if available then "cuda" else "cpu")
  else ret "cpu".

Definition __init__ (W : World) (model_id revision device dtype : string)
    (kw : kwargs) : M machine obj :=
  device <- pick_device W device ;;
  logger_info ("Model: " +:+ model_id) ;;;
  logger_info ("Revision: " +:+ revision) ;;;
  logger_info ("Device: " +:+ device) ;;;
  logger_info ("Dtype: " +:+ dtype) ;;;
  dt <- check_dtype dtype ;;
  let b := BaseModel_init model_id device dt in
  mt <- load_model W b revision ;;
  ret {| base := b; revision := revision; model := fst mt; tokenizer := snd mt |}.

Definition preprocess (W : World) (images : pyval) : M machine (list image) :=
  let images := as_list images in
  for_each (open_image_rgb W) images.

(** The three log lines written when [verbose] is set. *)
Definition report (self : obj) (verbose : bool) (start_time end_time : Q)
  : M machine unit :=
  if verbose then
    emit (LogInferenceTime (Qmult (Qminus end_time start_time) (Qmake 1000 1))) ;;;
    logger_info ("Device: " +:+ device (base self)) ;;;
    logger_info ("Dtype: " +:+ dtype_repr (dtype (base self)))
  else ret tt.

Definition infer (W : World) (self : obj) (image prompt : pyval)
    (verbose : bool) (generate_kwargs : kwargs) : M machine string :=
  start_time <- time_perf_counter W ;;
  image <- preprocess W image ;;
  encoded_image <- extern EncodeImage (encode_image W (model self) image) ;;
  output <- extern AnswerQuestion
    (answer_question W (model self) prompt encoded_image (tokenizer self)
       generate_kwargs) ;;
  end_time <- time_perf_counter W ;;
  report self verbose start_time end_time ;;;
  ret output.

(** [[prompt for prompt in prompts]] *)
Definition iterate (v : pyval) : result (list pyval) :=
  match v with
  | PyList items => Ok items
  | PyStr s => Ok (map (fun c => PyStr (String c EmptyString)) (list_ascii_of_string s))
  | _ => Raise (TypeError "object is not iterable")
  end.

Definition infer_batch (W : World) (self : obj) (images prompts : pyval)
    (verbose : bool) (generate_kwargs : kwargs) : M machine (list string) :=
  start_time <- time_perf_counter W ;;
  images <- preprocess W images ;;
  prompts <- lift_result (iterate prompts) ;;
  outputs <- extern BatchAnswer
    (batch_answer W (model self) images prompts (tokenizer self) generate_kwargs) ;;
  end_time <- time_perf_counter W ;;
  report self verbose start_time end_time ;;;
  ret outputs.

End Moondream.

(** ** The registry

    Modelled from the spec: the module [model_registry] is not among the
    sources. Section 3 of the specification gives an entry an id, an
    implementation tag and an input/output category; section 4.1 says that
    [get_model(id, **kwargs)] fails with a lookup error when the id is
    absent and otherwise constructs the wrapper, and that [list_models()]
    yields the registered entries in registration order. *)

Record ModelInputOutput : Type := { value : string }.

Definition IMAGE_TO_TEXT : ModelInputOutput := {| value := "image-to-text" |}.
Definition IMAGE_TEXT_TO_TEXT : ModelInputOutput :=
  {| value := "image-text-to-text" |}.

Record ModelInfo : Type := {
  id : string;
  implementation : string;
  input_output : ModelInputOutput
}.

Inductive instance : Type :=
| TimmInstance (o : TimmModel.obj)
| Vision2SeqInstance (o : Vision2SeqModel.obj)
| MoondreamInstance (o : Moondream.obj).

(** A registered wrapper class, called with the id and the keyword
    arguments. *)
Definition constructor : Type := World -> string -> kwargs -> M machine instance.

Record ModelRegistry : Type := {
  models : gmap string (ModelInfo * constructor);
  registration_order : list string
}.

Module model_registry.

Definition get_model (W : World) (reg : ModelRegistry) (model_id : string)
    (kw : kwargs) : M machine instance :=
  let registered : option (ModelInfo * constructor) :=
    models reg !! model_id in
  match registered with
  | None => raise (LookupError model_id)
  | Some (_, cls) => cls W model_id kw
  end.

Definition list_models (reg : ModelRegistry) : list ModelInfo :=
  omap (fun k => fst <$> models reg !! k) (registration_order reg).

End model_registry.

(** ** core.py *)

(** [xs[:stop]] *)
Definition slice_to {A} (xs : list A) (stop : Z) : list A :=
  if stop <? 0 then firstn (Z.to_nat (Z.of_nat (length xs) + stop)) xs
  else firstn (Z.to_nat stop) xs.

Definition row : Type := string * string * string.

(** The table handed to [console.print]. *)
Record Table : Type := {
  title : string;
  columns : list (string * string);
  table_rows : list row
}.

Definition ellipsis_row : row := ("...", "...", "...").

Definition create_model (W : World) (reg : ModelRegistry) (model_id : string)
    (kw : kwargs) : M machine instance :=
  model_registry.get_model W reg model_id kw.

(** The condition of the loop in [list_models]. *)
Definition selected (wildcard : option string) (model_info : ModelInfo) : bool :=
  match wildcard with
  | None => true
  | Some w => Str.contains (Str.lower w) (Str.lower (id model_info))
  end.

Definition row_of (model_info : ModelInfo) : row :=
  (implementation model_info, id model_info, value (input_output model_info)).

Definition list_models (reg : ModelRegistry) (wildcard : option string)
    (limit : Z) : Table :=
  let rows := map row_of (List.filter (selected wildcard)
                                      (model_registry.list_models reg)) in
  let rows :=
    if Z.of_nat (length rows) >? limit
    then slice_to rows limit ++ [ellipsis_row] ++ [ellipsis_row]
    else rows in
  {| title := "Available Models";
     columns := [("Implementation", "cyan"); ("Model ID", "magenta");
                 ("Input --> Output", "green")];
     table_rows := rows |}.

(** The same function for ids and wildcards of any characters.
    [str.lower] is a built-in whose tables are not part of the package:
    it is the parameter [lower]. The entries are the ones that the
    registry lists. *)
Module Wide.

Record ModelInfo : Type := {
  id : Unicode.str;
  implementation : string;
  input_output : ModelInputOutput
}.

Definition row : Type := string * Unicode.str * string.

Definition ellipsis_row : row := ("...", Unicode.of_string "...", "...").

Definition selected (lower : Unicode.str -> Unicode.str)
    (wildcard : option Unicode.str) (model_info : ModelInfo) : bool :=
  match wildcard with
  | None => true
  | Some w => Unicode.contains (lower w) (lower (id model_info))
  end.

Definition row_of (model_info : ModelInfo) : row :=
  (implementation model_info, id model_info, value (input_output model_info)).

(** The rows of the table. *)
Definition list_models (lower : Unicode.str -> Unicode.str)
    (registered : list ModelInfo) (wildcard : option Unicode.str) (limit : Z)
  : list row :=
  let rows := map row_of (List.filter (selected lower wildcard) registered) in
  if Z.of_nat (length rows) >? limit
  then slice_to rows limit ++ [ellipsis_row] ++ [ellipsis_row]
  else rows.

End Wide.

(** An entry and a row of the narrow kind, among the wide ones. *)
Definition widen (model_info : ModelInfo) : Wide.ModelInfo :=
  {| Wide.id := Unicode.of_string (id model_info);
     Wide.implementation := implementation model_info;
     Wide.input_output := input_output model_info |}.

Definition widen_row (r : row) : Wide.row :=
  let '(implementation, id, value) := r in
  (implementation, Unicode.of_string id, value).

(** ** A small world to run the wrappers in

    One local picture and one reachable URL exist; the classifier knows
    three classes; every library call answers. *)

Definition demo_world : World := {|
  cuda_is_available := false;
  perf_counter := fun n => inject_Z (Z.of_nat n);
  requests_get := fun url _ =>
    if String.eqb url "http://example.com/cat.jpg" then Ok "cat-bytes"
    else Raise (RequestException "connection refused");
  image_open := fun path =>
    if String.eqb path "cat.jpg" then Ok (Picture "cat")
    else Raise (FileNotFoundError path);
  image_open_response := fun body => Ok (Picture body);
  IMAGENET2012_CLASSES :=
    [("n01440764", "tench"); ("n01443537", "goldfish");
     ("n01484850", "great white shark"); ("n01491361", "tiger shark");
     ("n01494475", "hammerhead"); ("n01496331", "electric ray")];
  timm_create_model := fun _ _ => Ok 1%nat;
  module_to := fun m _ _ => Ok m;
  torch_compile := fun m => Ok m;
  timm_transform := fun _ _ => Ok [Qmake 1 2];
  timm_forward := fun _ _ _ t =>
    Ok (map (fun _ => [Qmake 5 100; Qmake 60 100; Qmake 10 100; Qmake 2 100;
                       Qmake 20 100; Qmake 3 100]) (rows t));
  softmax := fun r => r;
  processor_from_pretrained := fun _ _ => Ok 2%nat;
  vision2seq_from_pretrained := fun _ _ => Ok 3%nat;
  processor_call := fun _ ims _ _ _ => Ok (map (fun _ => [0]) ims);
  generate := fun _ _ _ fs _ => Ok (map (fun _ => [1; 2]) fs);
  batch_decode := fun _ seqs =>
    Ok (map (fun _ => String Str.newline "  a cat " +:+ String Str.newline " ") seqs);
  causal_lm_from_pretrained := fun _ _ => Ok 4%nat;
  tokenizer_from_pretrained := fun _ => Ok 5%nat;
  encode_image := fun _ ims => Ok (map (fun _ => [0]) ims);
  answer_question := fun _ _ _ _ _ => Ok "a cat";
  batch_answer := fun _ ims _ _ _ => Ok (map (fun _ => "a cat") ims);
  cumulative_time := fun _ _ total => Qplus total (Qmake 3 100)
|}.

Definition demo_timm : TimmModel.obj :=
  {| TimmModel.base := BaseModel_init "resnet18" "cpu" torch_float32;
     TimmModel.model := 1%nat |}.

Definition demo_vision2seq : Vision2SeqModel.obj :=
  {| Vision2SeqModel.base := BaseModel_init "blip2" "cpu" torch_float32;
     Vision2SeqModel.processor_ := 2%nat;
     Vision2SeqModel.model := 3%nat |}.

Definition demo_moondream : Moondream.obj :=
  {| Moondream.base := BaseModel_init "vikhyatk/moondream2" "cpu" torch_float32;
     Moondream.revision := "2024-08-26";
     Moondream.model := 4%nat;
     Moondream.tokenizer := 5%nat |}.

(** The class registered by the decorator in [moondream.py], called
    with a model id and [**kwargs]: revision, device and dtype are at
    their defaults. *)
Definition moondream_class : constructor :=
  fun W model_id kw =>
    o <- Moondream.__init__ W model_id "2024-08-26" "auto" "float32" kw ;;
    ret (MoondreamInstance o).

Definition demo_registry : ModelRegistry := {|
  models :=
    <["vikhyatk/moondream2" :=
        ({| id := "vikhyatk/moondream2"; implementation := "transformers";
            input_output := IMAGE_TEXT_TO_TEXT |}, moondream_class)]> ∅;
  registration_order := ["vikhyatk/moondream2"]
|}.

(** ** What a run returns, apart from its trace

    The oracles do not depend on the trace, so the value or exception a
    run ends with can be read off the world alone. *)

Definition outcome {S A} (m : M S A) (s : S) : result A := fst (m s).

Definition after {S A} (m : M S A) (s : S) : S := snd (m s).

(** The events a run on the machine added. *)
Definition adds {A} (m : M machine A) (s : machine) (evs : list event) : Prop :=
  trace (after m s) = trace s ++ evs.

(** What [TimmModel.open_image] ends with. *)
Definition timm_picture (W : World) (image_path : pyval) : result image :=
  match image_path with
  | PyStr path =>
      if is_url path then
        match requests_get W path false with
        | Ok resp => image_open_response W resp
        | Raise e => Raise e
        end
      else image_open W path
  | _ => Raise not_a_string
  end.

(** What [open_image_rgb] ends with. *)
Definition rgb_picture (W : World) (image_path : pyval) : result image :=
  match image_path with
  | PyStr path =>
      if is_url path then
        match requests_get W path true with
        | Ok resp =>
            match image_open_response W resp with
            | Ok im => Ok (ConvertRGB im)
            | Raise e => Raise e
            end
        | Raise e => Raise e
        end
      else
        match image_open W path with
        | Ok im => Ok (ConvertRGB im)
        | Raise (FileNotFoundError _) => Raise (local_file_not_found path)
        | Raise e => Raise e
        end
  | _ => Raise not_a_string
  end.

Definition is_ok {A} (r : result A) : bool :=
  match r with Ok _ => true | Raise _ => false end.

(** No call that loads a model occurs among [evs]. *)
Definition no_load (evs : list event) : bool :=
  forallb (fun e => negb (is_load e)) evs.

(** No call that runs a model or a processor occurs among [evs]. *)
Definition no_compute (evs : list event) : bool :=
  forallb (fun e => negb (is_compute e)) evs.

(** The error names the three accepted dtype strings. *)
Definition lists_allowed_dtypes (e : exn) : bool :=
  match e with
  | ValueError msg =>
      Str.contains "'float32'" msg && Str.contains "'float16'" msg
      && Str.contains "'bfloat16'" msg
  | _ => false
  end.

(** The message of a value error mentions [path]. *)
Definition value_error_mentions (path : string) (e : exn) : bool :=
  match e with
  | ValueError msg => Str.contains path msg
  | _ => false
  end.

(** A string without a newline that neither starts nor ends with a
    whitespace character. *)
Definition tidy (s : string) : bool :=
  negb (Str.has_char Str.newline s)
  && match Str.first_char s with
     | Some c => negb (Str.is_space c)
     | None => true
     end
  && match Str.last_char s with
     | Some c => negb (Str.is_space c)
     | None => true
     end.

(** What the three steps preprocess, predict, postprocess of
    [Vision2SeqModel] end with. *)
Definition vision2seq_pipeline (W : World) (self : Vision2SeqModel.obj)
    (images prompts : pyval) (generate_kwargs : kwargs) : result (list string) :=
  if negb (length (as_list images) =? length (as_list prompts))%nat
  then Raise Vision2SeqModel.length_mismatch
  else
    match map_result (rgb_picture W) (as_list images) with
    | Raise e => Raise e
    | Ok processed_images =>
        match processor_call W (Vision2SeqModel.processor_ self) processed_images
                (as_list prompts)
                (device (Vision2SeqModel.base self))
                (dtype (Vision2SeqModel.base self)) with
        | Raise e => Raise e
        | Ok preprocessed_input =>
            match generate W (Vision2SeqModel.model self)
                    (device (Vision2SeqModel.base self))
                    (dtype (Vision2SeqModel.base self))
                    preprocessed_input generate_kwargs with
            | Raise e => Raise e
            | Ok predictions =>
                match batch_decode W (Vision2SeqModel.processor_ self) predictions with
                | Raise e => Raise e
                | Ok outputs => Ok (map Vision2SeqModel.clean outputs)
                end
            end
        end
    end.

(** The body of the [with] block of [Vision2SeqModel.infer_batch]; the
    block of [infer] is the same followed by the selection of element 0. *)
Definition vision2seq_steps (W : World) (images prompts : pyval) (kw : kwargs)
  : M Vision2SeqModel.state (list string) :=
  o <- Vision2SeqModel.get_self ;;
  preprocessed_input <-
    Vision2SeqModel.lift_sys (Vision2SeqModel.preprocess W o images prompts) ;;
  predictions <-
    Vision2SeqModel.lift_sys (Vision2SeqModel.predict W o preprocessed_input kw) ;;
  Vision2SeqModel.lift_sys (Vision2SeqModel.postprocess W o predictions).

(** The instance with its statistics replaced and nothing else touched. *)
Definition with_stats (o : Vision2SeqModel.obj) (st : ModelStats)
  : Vision2SeqModel.obj :=
  {| Vision2SeqModel.base :=
       {| model_id := model_id (Vision2SeqModel.base o);
          device := device (Vision2SeqModel.base o);
          dtype := dtype (Vision2SeqModel.base o);
          stats := st |};
     Vision2SeqModel.processor_ := Vision2SeqModel.processor_ o;
     Vision2SeqModel.model := Vision2SeqModel.model o |}.

Definition demo_state : Vision2SeqModel.state :=
  {| Vision2SeqModel.self := demo_vision2seq; Vision2SeqModel.sys := boot |}.

(** The two statistics of a [Vision2SeqModel] instance. *)
Definition count (s : Vision2SeqModel.state) : Z :=
  num_inferences (stats (Vision2SeqModel.base (Vision2SeqModel.self s))).

Definition spent (s : Vision2SeqModel.state) : Q :=
  total_inference_time (stats (Vision2SeqModel.base (Vision2SeqModel.self s))).

(** The capital letters among the characters below 256: [A] to [Z], and
    the accented capitals of Latin-1 except the multiplication sign. The
    small form of each lies 32 places further on. *)
Definition is_capital (c : ascii) : bool :=
  let n := nat_of_ascii c in
  ((65 <=? n) && (n <=? 90) || (192 <=? n) && (n <=? 222) && negb (n =? 215))%nat.

(** The same character, or the capital and the small form of one letter. *)
Definition same_letter (c d : ascii) : Prop :=
  c = d \/
  (is_capital c = true /\ nat_of_ascii d = (nat_of_ascii c + 32)%nat) \/
  (is_capital d = true /\ nat_of_ascii c = (nat_of_ascii d + 32)%nat).

(** Two strings that agree character by character up to case. *)
Fixpoint same_letters (a b : string) : Prop :=
  match a, b with
  | EmptyString, EmptyString => True
  | String c a', String d b' => same_letter c d /\ same_letters a' b'
  | _, _ => False
  end.

(** [w] occurs in [s] up to the case of letters: some block of [s] agrees
    with [w] character by character up to case. *)
Definition occurs_up_to_case (w s : string) : Prop :=
  exists before block rest,
    s = before +:+ block +:+ rest /\ same_letters block w.

(** [str.lower] at the two strings of capital Greek letters used in the
    example of the listing: the lower-case form of a capital sigma
    (931) alone is the small sigma (963), and that of capital alpha (913)
    followed by capital sigma is small alpha (945) followed by the final
    sigma (962) that ends a word. Other strings are not used and are
    returned as they are. *)
Definition lower_of_sigma (s : Unicode.str) : Unicode.str :=
  if Unicode.eqb s [931] then [963]
  else if Unicode.eqb s [913; 931] then [945; 962]
  else s.

Definition alpha_sigma : Wide.ModelInfo :=
  {| Wide.id := [913; 931]; Wide.implementation := "transformers";
     Wide.input_output := IMAGE_TO_TEXT |}.

(** The registered entries that the wildcard selects, in registration
    order. *)
Definition matches (reg : ModelRegistry) (wildcard : option string)
  : list ModelInfo :=
  List.filter (selected wildcard) (model_registry.list_models reg).

(** A second class, called the same way, and a registry with two
    entries, for examples. *)
Definition vision2seq_class : constructor :=
  fun W model_id kw =>
    o <- Vision2SeqModel.__init__ W model_id "cpu" "float32" kw ;;
    ret (Vision2SeqInstance o).

Definition two_models : ModelRegistry := {|
  models :=
    <["Salesforce/blip2-opt-2.7b" :=
        ({| id := "Salesforce/blip2-opt-2.7b"; implementation := "transformers";
            input_output := IMAGE_TEXT_TO_TEXT |}, vision2seq_class)]>
      (models demo_registry);
  registration_order := ["vikhyatk/moondream2"; "Salesforce/blip2-opt-2.7b"]
|}.

(** What [TimmModel.preprocess] ends with. *)
Definition timm_tensor (W : World) (self : TimmModel.obj) (images : pyval)
  : result tensor :=
  match map_result (timm_picture W) (as_list images) with
  | Raise e => Raise e
  | Ok processed_images =>
      match map_result (timm_transform W (TimmModel.model self)) processed_images with
      | Raise e => Raise e
      | Ok transformed =>
          match torch_stack transformed with
          | Raise e => Raise e
          | Ok stacked =>
              Ok {| rows := stacked;
                    t_device := device (TimmModel.base self);
                    t_dtype := Some (dtype (TimmModel.base self)) |}
          end
      end
  end.

(** The dictionaries built from the picks of one row. *)
Definition timm_entries (W : World) (picked : list (Q * nat)) : result (list pydict) :=
  match map_result (py_index (TimmModel.im_classes W)) (map snd picked) with
  | Raise e => Raise e
  | Ok class_names =>
      Ok (map (fun '(n, i, p) => TimmModel.entry n i p)
              (zip3 class_names (map snd picked) (map fst picked)))
  end.

(** The result for one row of scores: top-k of a hundred times its
    softmax, then the dictionaries. *)
Definition timm_report (W : World) (top_k : Z) (scores : list Q)
  : result (list pydict) :=
  match topk_row top_k (times100 (softmax W scores)) with
  | Raise e => Raise e
  | Ok picked => timm_entries W picked
  end.

(** [top_k] is a valid number of picks for the row, and every class index
    of the row has a name. *)
Definition in_range (W : World) (top_k : Z) (scores : list Q) : Prop :=
  0 <= top_k <= Z.of_nat (length (softmax W scores)) /\
  (length (softmax W scores) <= length (TimmModel.im_classes W))%nat.

(** [d] describes class [i]: its name, its index, and a hundred times its
    softmax probability. *)
Definition describes (W : World) (scores : list Q) (d : pydict) : Prop :=
  keys d = ["class"; "id"; "confidence"] /\
  exists i name p,
    nth_error (TimmModel.im_classes W) i = Some name /\
    nth_error (softmax W scores) i = Some p /\
    d = [("class", PyStr name); ("id", PyInt (Z.of_nat i));
         ("confidence", PyFloat (Qmult (Qmake 100 1) p))].

(** [ds] is a list of exactly [top_k] such dictionaries. *)
Definition is_report (W : World) (top_k : Z) (scores : list Q) (ds : list pydict)
  : Prop :=
  Z.of_nat (length ds) = top_k /\ Forall (describes W scores) ds.

(** The libraries answer a classification call: the pictures open, are
    transformed and stacked into [t], the network returns [output] for
    [t], and every row of [output] is in range for [top_k]. *)
Definition timm_answers (W : World) (self : TimmModel.obj) (images : pyval)
    (top_k : Z) (t : tensor) (output : list (list Q)) : Prop :=
  timm_tensor W self images = Ok t /\
  timm_forward W (TimmModel.model self) (device (TimmModel.base self))
    (dtype (TimmModel.base self)) t = Ok output /\
  Forall (in_range W top_k) output.

(** The libraries answer a generation call: the counts agree, the pictures
    open, and processor, model and decoder return, the decoder with
    [outputs]. *)
Definition vision2seq_answers (W : World) (self : Vision2SeqModel.obj)
    (images prompts : list pyval) (kw : kwargs) (outputs : list string) : Prop :=
  length images = length prompts /\
  exists processed_images preprocessed_input predictions,
    map_result (rgb_picture W) images = Ok processed_images /\
    processor_call W (Vision2SeqModel.processor_ self) processed_images prompts
      (device (Vision2SeqModel.base self)) (dtype (Vision2SeqModel.base self))
      = Ok preprocessed_input /\
    generate W (Vision2SeqModel.model self)
      (device (Vision2SeqModel.base self)) (dtype (Vision2SeqModel.base self))
      preprocessed_input kw = Ok predictions /\
    batch_decode W (Vision2SeqModel.processor_ self) predictions = Ok outputs.

(** The libraries answer a batched question: the pictures open and
    [batch_answer] returns [outputs]. *)
Definition moondream_answers (W : World) (self : Moondream.obj)
    (images prompts : list pyval) (kw : kwargs) (outputs : list string) : Prop :=
  exists processed_images,
    map_result (rgb_picture W) images = Ok processed_images /\
    batch_answer W (Moondream.model self) processed_images prompts
      (Moondream.tokenizer self) kw = Ok outputs.

(** The default of the parameter [top_k]. *)
Definition default_top_k : Z := 5.

Definition demo_scores : list Q :=
  [Qmake 5 100; Qmake 60 100; Qmake 10 100; Qmake 2 100; Qmake 20 100;
   Qmake 3 100].

Definition demo_tensor (n : nat) : tensor :=
  {| rows := repeat [Qmake 1 2] n; t_device := "cpu";
     t_dtype := Some torch_float32 |}.

Definition two_pictures : list pyval :=
  [PyStr "cat.jpg"; PyStr "http://example.com/cat.jpg"].

(** The number of sequences that [generate] is asked to return for each
    input: the keyword [num_return_sequences], one when it is not given. *)
Fixpoint num_return_sequences (kw : kwargs) : nat :=
  match kw with
  | [] => 1%nat
  | (k, v) :: kw' =>
      if String.eqb k "num_return_sequences"
      then match v with PyInt n => Z.to_nat n | _ => 1%nat end
      else num_return_sequences kw'
  end.

(** The demo world with models that honour [num_return_sequences]:
    [generate] returns that many sequences, and [batch_answer] that many
    answers, for every input of the batch, one input after the other. *)
Definition world_of_many_sequences : World := {|
  cuda_is_available := cuda_is_available demo_world;
  perf_counter := perf_counter demo_world;
  requests_get := requests_get demo_world;
  image_open := image_open demo_world;
  image_open_response := image_open_response demo_world;
  IMAGENET2012_CLASSES := IMAGENET2012_CLASSES demo_world;
  timm_create_model := timm_create_model demo_world;
  module_to := module_to demo_world;
  torch_compile := torch_compile demo_world;
  timm_transform := timm_transform demo_world;
  timm_forward := timm_forward demo_world;
  softmax := softmax demo_world;
  processor_from_pretrained := processor_from_pretrained demo_world;
  vision2seq_from_pretrained := vision2seq_from_pretrained demo_world;
  processor_call := processor_call demo_world;
  generate := fun _ _ _ fs kw =>
    Ok (flat_map (fun _ => repeat [1; 2] (num_return_sequences kw)) fs);
  batch_decode := batch_decode demo_world;
  causal_lm_from_pretrained := causal_lm_from_pretrained demo_world;
  tokenizer_from_pretrained := tokenizer_from_pretrained demo_world;
  encode_image := encode_image demo_world;
  answer_question := answer_question demo_world;
  batch_answer := fun _ ims _ _ kw =>
    Ok (flat_map (fun _ => repeat "a cat" (num_return_sequences kw)) ims);
  cumulative_time := cumulative_time demo_world
|}.

(** What one round of the loop of [TimmModel.infer_batch] ends with. *)
Definition timm_row (W : World) (topk_probabilities : list (list Q))
    (topk_class_indices : list (list nat)) (i : nat) : result (list pydict) :=
  match py_index topk_class_indices i with
  | Raise e => Raise e
  | Ok idxs =>
      match map_result (py_index (TimmModel.im_classes W)) idxs with
      | Raise e => Raise e
      | Ok class_names =>
          match py_index topk_probabilities i with
          | Raise e => Raise e
          | Ok probs =>
              Ok (map (fun '(n, i, p) => TimmModel.entry n i p)
                      (zip3 class_names idxs probs))
          end
      end
  end.
(** ** Further notions used to describe the runs *)

(** Every event that a run on the machine adds satisfies [P]. *)
Definition adds_only {A} (P : event -> Prop) (m : M machine A) : Prop :=
  forall s, exists evs, trace (after m s) = trace s ++ evs /\ Forall P evs.

(** The same for a run on an instance of [Vision2SeqModel]. *)
Definition state_adds_only {A} (P : event -> Prop)
    (m : M Vision2SeqModel.state A) : Prop :=
  forall s, exists evs,
    trace (Vision2SeqModel.sys (after m s))
    = trace (Vision2SeqModel.sys s) ++ evs /\ Forall P evs.

(** Traffic caused by resolving the arguments [images]: a request goes
    to an argument that is a URL, a file is opened for an argument that is
    not, and responses are decoded. *)
Definition image_io (images : list pyval) (e : event) : Prop :=
  match e with
  | RequestsGet url _ => is_url url = true /\ In (PyStr url) images
  | ImageOpen path => is_url path = false /\ In (PyStr path) images
  | ImageOpenResponse _ => True
  | _ => False
  end.

Definition not_a_load (e : event) : Prop := is_load e = false.

Definition is_log (e : event) : bool :=
  match e with
  | LogInfo _ | LogInfoValue _ _ | LogInferenceTime _ => true
  | _ => false
  end.

(** [isinstance(v, list)] *)
Definition is_list (v : pyval) : bool :=
  match v with PyList _ => true | _ => false end.

(** The characters of a string that are not whitespace, in order. *)
Fixpoint visible (s : string) : string :=
  match s with
  | EmptyString => EmptyString
  | String c s' => if Str.is_space c then visible s' else String c (visible s')
  end.

(** The device [Moondream.__init__] settles on. *)
Definition moondream_device (W : World) (device : string) : string :=
  if String.eqb device "auto" && cuda_is_available W then "cuda" else "cpu".

(** Taking the oracles of a run apart, one at a time. *)
Ltac split_oracles :=
  repeat match goal with
         | |- context [match ?x with Ok _ => _ | Raise _ => _ end] =>
             destruct x eqn:?; simpl
         end.

(** [isinstance(v, str)] *)
Definition is_str (v : pyval) : bool :=
  match v with PyStr _ => true | _ => false end.

(** The demo world in which neither timm nor the hub knows the model
    asked for. *)
Definition world_without_models : World := {|
  cuda_is_available := cuda_is_available demo_world;
  perf_counter := perf_counter demo_world;
  requests_get := requests_get demo_world;
  image_open := image_open demo_world;
  image_open_response := image_open_response demo_world;
  IMAGENET2012_CLASSES := IMAGENET2012_CLASSES demo_world;
  timm_create_model := fun _ _ => Raise (RuntimeError "Unknown model");
  module_to := module_to demo_world;
  torch_compile := torch_compile demo_world;
  timm_transform := timm_transform demo_world;
  timm_forward := timm_forward demo_world;
  softmax := softmax demo_world;
  processor_from_pretrained := processor_from_pretrained demo_world;
  vision2seq_from_pretrained := vision2seq_from_pretrained demo_world;
  processor_call := processor_call demo_world;
  generate := generate demo_world;
  batch_decode := batch_decode demo_world;
  causal_lm_from_pretrained := fun _ _ => Raise (RuntimeError "Unknown model");
  tokenizer_from_pretrained := tokenizer_from_pretrained demo_world;
  encode_image := encode_image demo_world;
  answer_question := answer_question demo_world;
  batch_answer := batch_answer demo_world;
  cumulative_time := cumulative_time demo_world
|}.

(** The tensor and the picks of every row of scores that a classification
    call works from. *)
Definition timm_picked (W : World) (self : TimmModel.obj) (images : pyval)
    (top_k : Z) : result (tensor * list (list (Q * nat))) :=
  match timm_tensor W self images with
  | Raise e => Raise e
  | Ok t =>
      match timm_forward W (TimmModel.model self) (device (TimmModel.base self))
              (dtype (TimmModel.base self)) t with
      | Raise e => Raise e
      | Ok output =>
          match map_result
                  (fun scores => topk_row top_k (times100 (softmax W scores)))
                  output with
          | Raise e => Raise e
          | Ok picks => Ok (t, picks)
          end
      end
  end.

(** The demo world in which the captioning model runs out of memory on a
    batch. *)
Definition world_without_memory : World := {|
  cuda_is_available := cuda_is_available demo_world;
  perf_counter := perf_counter demo_world;
  requests_get := requests_get demo_world;
  image_open := image_open demo_world;
  image_open_response := image_open_response demo_world;
  IMAGENET2012_CLASSES := IMAGENET2012_CLASSES demo_world;
  timm_create_model := timm_create_model demo_world;
  module_to := module_to demo_world;
  torch_compile := torch_compile demo_world;
  timm_transform := timm_transform demo_world;
  timm_forward := timm_forward demo_world;
  softmax := softmax demo_world;
  processor_from_pretrained := processor_from_pretrained demo_world;
  vision2seq_from_pretrained := vision2seq_from_pretrained demo_world;
  processor_call := processor_call demo_world;
  generate := generate demo_world;
  batch_decode := batch_decode demo_world;
  causal_lm_from_pretrained := causal_lm_from_pretrained demo_world;
  tokenizer_from_pretrained := tokenizer_from_pretrained demo_world;
  encode_image := encode_image demo_world;
  answer_question := answer_question demo_world;
  batch_answer := fun _ _ _ _ _ => Raise (RuntimeError "out of memory");
  cumulative_time := cumulative_time demo_world
|}.

(** * Properties *)

(** ** The monad *)

Section Outcome.
Context {S A B : Type}.

Lemma outcome_bind (m : M S A) (k : A -> M S B) (s : S) :
  outcome (bind m k) s =
  match outcome m s with
  | Ok a => outcome (k a) (after m s)
  | Raise e => Raise e
  end.
Proof.
  unfold outcome, after, bind. destruct (m s) as [[a|e] s']; reflexivity.
Qed.

Lemma after_bind (m : M S A) (k : A -> M S B) (s : S) :
  after (bind m k) s =
  match outcome m s with
  | Ok a => after (k a) (after m s)
  | Raise e => after m s
  end.
Proof.
  unfold outcome, after, bind. destruct (m s) as [[a|e] s']; reflexivity.
Qed.

Lemma outcome_ret (a : A) (s : S) : outcome (ret a) s = Ok a.
Proof. reflexivity. Qed.

Lemma outcome_raise (e : exn) (s : S) : outcome (@raise S A e) s = Raise e.
Proof. reflexivity. Qed.

Lemma outcome_lift_result (r : result A) (s : S) :
  outcome (lift_result r) s = r.
Proof. reflexivity. Qed.

End Outcome.

(** A loop whose body ends as [g] says ends as [map_result g] says. *)
Lemma outcome_for_each {S A B} (f : A -> M S B) (g : A -> result B) :
  (forall x s, outcome (f x) s = g x) ->
  forall xs s, outcome (for_each f xs) s = map_result g xs.
Proof.
  intros Hf xs. induction xs as [|x xs IH]; intros s; simpl.
  - reflexivity.
  - rewrite outcome_bind, Hf. destruct (g x) as [y|e]; [|reflexivity].
    rewrite outcome_bind, IH.
    destruct (map_result g xs); reflexivity.
Qed.

Lemma outcome_extern {A} (e : event) (r : result A) (s : machine) :
  outcome (extern e r) s = r.
Proof. reflexivity. Qed.

Lemma outcome_open_image (W : World) (v : pyval) (s : machine) :
  outcome (TimmModel.open_image W v) s = timm_picture W v.
Proof.
  destruct v as [| path | | |]; try reflexivity.
  unfold TimmModel.open_image, timm_picture.
  destruct (is_url path); [|reflexivity].
  rewrite outcome_bind, outcome_extern.
  destruct (requests_get W path false); reflexivity.
Qed.

Lemma outcome_open_image_rgb (W : World) (v : pyval) (s : machine) :
  outcome (open_image_rgb W v) s = rgb_picture W v.
Proof.
  destruct v as [| path | | |]; try reflexivity.
  unfold open_image_rgb, rgb_picture.
  destruct (is_url path).
  - rewrite outcome_bind, outcome_extern.
    destruct (requests_get W path true) as [resp|e]; [|reflexivity].
    rewrite outcome_bind, outcome_extern.
    destruct (image_open_response W resp); reflexivity.
  - unfold outcome, except_FileNotFoundError, bind, extern, emit, lift_result.
    simpl. destruct (image_open W path) as [im|[]]; reflexivity.
Qed.

(** A failing element after a prefix that succeeds ends the whole map. *)
Lemma map_result_app_raise {A B} (g : A -> result B) pre x post e :
  forallb (fun v => is_ok (g v)) pre = true ->
  g x = Raise e ->
  map_result g (pre ++ x :: post) = Raise e.
Proof.
  intros Hpre Hx. induction pre as [|p pre IH]; simpl in *.
  - rewrite Hx. reflexivity.
  - apply andb_prop in Hpre as [Hp Hpre].
    destruct (g p); [|discriminate]. rewrite (IH Hpre). reflexivity.
Qed.

Lemma map_result_length {A B} (g : A -> result B) xs ys :
  map_result g xs = Ok ys -> length ys = length xs.
Proof.
  revert ys. induction xs as [|x xs IH]; intros ys H; simpl in H.
  - injection H as <-. reflexivity.
  - destruct (g x); [|discriminate].
    destruct (map_result g xs) as [ys'|]; [|discriminate].
    injection H as <-. simpl. f_equal. apply IH. reflexivity.
Qed.

(** ** Construction: the dtype check *)

Lemma dtype_map_unknown (dtype : string) :
  dtype <> "float32" -> dtype <> "float16" -> dtype <> "bfloat16" ->
  dtype_map !! dtype = None.
Proof.
  intros H32 H16 Hb16. unfold dtype_map.
  rewrite !lookup_insert_ne by congruence.
  apply lookup_empty.
Qed.

(** Exposing the steps of a constructor or a loader down to the trace. *)
Ltac unfold_run :=
  unfold outcome, adds, after,
    TimmModel.__init__, Vision2SeqModel.__init__, Moondream.__init__,
    TimmModel.load_model, Moondream.pick_device,
    check_dtype, extern, logger_info, emit, bind, raise, ret, lift_result.

(** Loading always begins with a call that counts as a load, so a trace
    without such a call is a run in which [load_model] was not entered. *)
Lemma timm_load_model_loads (W : World) (b : BaseModel) (kw : kwargs) (s : machine) :
  exists evs, adds (TimmModel.load_model W b kw) s evs /\ no_load evs = false.
Proof.
  unfold_run. simpl.
  destruct (timm_create_model W (model_id b) kw) as [m|e]; simpl.
  - destruct (module_to W m (device b) (dtype b)) as [m'|e]; simpl.
    + destruct (torch_compile W m') as [m''|e]; simpl;
        rewrite <- !app_assoc; eexists; split; reflexivity.
    + rewrite <- !app_assoc; eexists; split; reflexivity.
  - rewrite <- !app_assoc; eexists; split; reflexivity.
Qed.

(** C4. A dtype string other than float32, float16 and bfloat16 makes the
    constructor of each of the three wrappers raise the value error that
    lists the three accepted names, and the events of the failed
    construction contain no call that loads a model. *)
Theorem invalid_dtype_rejected_before_load
    (W : World) (model_id revision device dtype : string) (kw : kwargs)
    (s : machine) :
  dtype <> "float32" -> dtype <> "float16" -> dtype <> "bfloat16" ->
  lists_allowed_dtypes dtype_error = true /\
  (outcome (TimmModel.__init__ W model_id device dtype kw) s = Raise dtype_error /\
   exists evs, adds (TimmModel.__init__ W model_id device dtype kw) s evs
               /\ no_load evs = true) /\
  (outcome (Vision2SeqModel.__init__ W model_id device dtype kw) s
     = Raise dtype_error /\
   exists evs, adds (Vision2SeqModel.__init__ W model_id device dtype kw) s evs
               /\ no_load evs = true) /\
  (outcome (Moondream.__init__ W model_id revision device dtype kw) s
     = Raise dtype_error /\
   exists evs, adds (Moondream.__init__ W model_id revision device dtype kw) s evs
               /\ no_load evs = true).
Proof.
  intros H32 H16 Hb16.
  pose proof (dtype_map_unknown dtype H32 H16 Hb16) as Hmap.
  split; [reflexivity|].
  repeat split; unfold_run; rewrite Hmap;
    try (destruct (String.eqb device "auto")); try reflexivity;
    simpl; eexists; rewrite <- !app_assoc; split; reflexivity.
Qed.

Lemma invalid_dtype_rejected_before_load_witness :
  outcome (TimmModel.__init__ demo_world "resnet18" "cpu" "int8" []) boot
    = Raise dtype_error /\
  outcome (Vision2SeqModel.__init__ demo_world "resnet18" "cpu" "int8" []) boot
    = Raise dtype_error /\
  outcome (Moondream.__init__ demo_world "resnet18" "2024-08-26" "cpu" "int8" []) boot
    = Raise dtype_error.
Proof.
  destruct (invalid_dtype_rejected_before_load demo_world "resnet18"
              "2024-08-26" "cpu" "int8" [] boot)
    as (_ & [Ht _] & [Hv _] & [Hm _]); [discriminate..|].
  exact (conj Ht (conj Hv Hm)).
Defined.

(** ** Image and prompt counts *)

(** [Vision2SeqModel.preprocess] compares the two lengths before it
    touches anything: the run ends in the value error and adds no event. *)
Lemma vision2seq_preprocess_length_mismatch
    (W : World) (self : Vision2SeqModel.obj) (images prompts : pyval)
    (s : machine) :
  length (as_list images) <> length (as_list prompts) ->
  Vision2SeqModel.preprocess W self images prompts s
  = (Raise Vision2SeqModel.length_mismatch, s).
Proof.
  intros Hne. unfold Vision2SeqModel.preprocess.
  destruct (Nat.eqb_spec (length (as_list images)) (length (as_list prompts)))
    as [Heq|_]; [contradiction|].
  reflexivity.
Qed.

Lemma vision2seq_infer_batch_length_mismatch
    (W : World) (images prompts : pyval) (kw : kwargs)
    (s : Vision2SeqModel.state) :
  length (as_list images) <> length (as_list prompts) ->
  outcome (Vision2SeqModel.infer_batch W images prompts kw) s
    = Raise Vision2SeqModel.length_mismatch /\
  trace (Vision2SeqModel.sys (after (Vision2SeqModel.infer_batch W images prompts kw) s))
    = trace (Vision2SeqModel.sys s).
Proof.
  intros Hne.
  unfold outcome, after, Vision2SeqModel.infer_batch,
    Vision2SeqModel.track_inference_time, Vision2SeqModel.lift_sys,
    Vision2SeqModel.get_self, bind.
  simpl. rewrite vision2seq_preprocess_length_mismatch by exact Hne.
  split; reflexivity.
Qed.

(** C1, at the input where the source falls short. [Moondream.infer_batch]
    has no comparison of the two lengths: with one picture that opens and
    an empty prompt list the run reaches [batch_answer], hands it the
    mismatched lists, and ends with whatever the library answers. *)
Theorem moondream_infer_batch_mismatch_reaches_model
    (W : World) (self : Moondream.obj) (path : string) (im : image)
    (kw : kwargs) (s : machine) :
  is_url path = false ->
  image_open W path = Ok im ->
  length (as_list (PyList [PyStr path])) <> length (as_list (PyList [])) /\
  outcome (Moondream.infer_batch W self (PyList [PyStr path]) (PyList []) false kw) s
    = batch_answer W (Moondream.model self) [ConvertRGB im] []
        (Moondream.tokenizer self) kw /\
  exists evs,
    adds (Moondream.infer_batch W self (PyList [PyStr path]) (PyList []) false kw)
      s evs /\ no_compute evs = false.
Proof.
  intros Hurl Hopen. split; [simpl; lia|].
  unfold outcome, adds, after, Moondream.infer_batch, Moondream.preprocess,
    Moondream.report, time_perf_counter.
  simpl. unfold open_image_rgb. rewrite Hurl.
  unfold except_FileNotFoundError, extern, emit, bind, lift_result, ret.
  simpl. rewrite Hopen. simpl.
  destruct (batch_answer W (Moondream.model self) [ConvertRGB im] []
              (Moondream.tokenizer self) kw) as [outs|e]; simpl.
  - split; [reflexivity|]. eexists. rewrite <- !app_assoc. split; reflexivity.
  - split; [reflexivity|]. eexists. rewrite <- !app_assoc. split; reflexivity.
Qed.

Lemma moondream_infer_batch_mismatch_reaches_model_witness :
  outcome (Moondream.infer_batch demo_world demo_moondream
             (PyList [PyStr "cat.jpg"]) (PyList []) false []) boot
  = Ok ["a cat"].
Proof.
  destruct (moondream_infer_batch_mismatch_reaches_model demo_world
              demo_moondream "cat.jpg" (Picture "cat") [] boot)
    as (_ & Hout & _); [reflexivity..|].
  exact Hout.
Defined.

(** ** Image arguments that cannot be resolved *)

Lemma prefix_refl (p : string) : String.prefix p p = true.
Proof.
  induction p as [|c p IH]; simpl; [reflexivity|].
  destruct (ascii_dec c c); [exact IH|contradiction].
Qed.

Lemma contains_unfold (a b : string) :
  Str.contains a b =
  String.prefix a b ||
  match b with
  | EmptyString => false
  | String _ b' => Str.contains a b'
  end.
Proof. destruct b; reflexivity. Qed.

Lemma contains_refl (p : string) : Str.contains p p = true.
Proof. rewrite contains_unfold, prefix_refl. reflexivity. Qed.

Lemma contains_after (pre p : string) : Str.contains p (pre +:+ p) = true.
Proof.
  induction pre as [|c pre IH].
  - apply contains_refl.
  - change (String c pre +:+ p) with (String c (pre +:+ p)).
    rewrite contains_unfold, IH. apply orb_true_r.
Qed.

(** The two transformers wrappers turn a missing local file into the value
    error that carries the path. *)
Lemma rgb_picture_missing_file (W : World) (path missing : string) :
  is_url path = false ->
  image_open W path = Raise (FileNotFoundError missing) ->
  rgb_picture W (PyStr path) = Raise (local_file_not_found path) /\
  value_error_mentions path (local_file_not_found path) = true.
Proof.
  intros Hurl Hopen. unfold rgb_picture. rewrite Hurl, Hopen.
  split; [reflexivity|]. apply contains_after.
Qed.

Lemma vision2seq_preprocess_missing_file
    (W : World) (self : Vision2SeqModel.obj) (path missing : string)
    (prompt : pyval) (s : machine) :
  is_url path = false ->
  image_open W path = Raise (FileNotFoundError missing) ->
  length (as_list prompt) = 1%nat ->
  outcome (Vision2SeqModel.preprocess W self (PyStr path) prompt) s
  = Raise (local_file_not_found path).
Proof.
  intros Hurl Hopen Hlen. unfold Vision2SeqModel.preprocess.
  cbn [as_list]. rewrite Hlen. cbn [length Nat.eqb negb].
  rewrite outcome_bind.
  rewrite (outcome_for_each _ _ (outcome_open_image_rgb W)).
  cbn [map_result].
  destruct (rgb_picture_missing_file W path missing Hurl Hopen) as [-> _].
  reflexivity.
Qed.

Lemma moondream_preprocess_missing_file
    (W : World) (path missing : string) (s : machine) :
  is_url path = false ->
  image_open W path = Raise (FileNotFoundError missing) ->
  outcome (Moondream.preprocess W (PyStr path)) s
  = Raise (local_file_not_found path).
Proof.
  intros Hurl Hopen. unfold Moondream.preprocess.
  rewrite (outcome_for_each _ _ (outcome_open_image_rgb W)).
  cbn [as_list map_result].
  destruct (rgb_picture_missing_file W path missing Hurl Hopen) as [-> _].
  reflexivity.
Qed.

(** C2, at the input where the source falls short. [TimmModel.preprocess]
    opens a local path without a handler: for a path that names no file
    the run ends in the [FileNotFoundError] of the library, which is not a
    value error, right after the attempt to open the file. *)
Theorem timm_preprocess_missing_file_not_value_error
    (W : World) (self : TimmModel.obj) (path : string) (s : machine) :
  is_url path = false ->
  image_open W path = Raise (FileNotFoundError path) ->
  TimmModel.preprocess W self (PyStr path) s
  = (Raise (FileNotFoundError path),
     {| trace := trace s ++ [ImageOpen path]; ticks := ticks s |}) /\
  raises_value_error (outcome (TimmModel.preprocess W self (PyStr path)) s) = false.
Proof.
  intros Hurl Hopen.
  assert (TimmModel.preprocess W self (PyStr path) s
          = (Raise (FileNotFoundError path),
             {| trace := trace s ++ [ImageOpen path]; ticks := ticks s |})) as Hrun.
  { unfold TimmModel.preprocess, TimmModel.open_image. simpl. rewrite Hurl.
    unfold extern, emit, bind, lift_result. simpl. rewrite Hopen. reflexivity. }
  split; [exact Hrun|]. unfold outcome. rewrite Hrun. reflexivity.
Qed.

Lemma timm_preprocess_missing_file_not_value_error_witness :
  outcome (TimmModel.preprocess demo_world demo_timm (PyStr "missing.jpg")) boot
  = Raise (FileNotFoundError "missing.jpg").
Proof.
  destruct (timm_preprocess_missing_file_not_value_error demo_world demo_timm
              "missing.jpg" boot) as [Hrun _]; [reflexivity..|].
  unfold outcome. rewrite Hrun. reflexivity.
Defined.

(** C3 as stated fails: in the demo world the fetch of the URL below is
    refused, and [Vision2SeqModel.preprocess] ends in that very
    [RequestException], not in a value error. *)
Lemma network_error_is_not_translated :
  is_url "http://example.com/gone.jpg" = true /\
  requests_get demo_world "http://example.com/gone.jpg" true
    = Raise (RequestException "connection refused") /\
  outcome (Vision2SeqModel.preprocess demo_world demo_vision2seq
             (PyStr "http://example.com/gone.jpg") (PyStr "What is this?")) boot
    = Raise (RequestException "connection refused") /\
  raises_value_error
    (outcome (Vision2SeqModel.preprocess demo_world demo_vision2seq
                (PyStr "http://example.com/gone.jpg") (PyStr "What is this?")) boot)
    = false.
Proof. repeat split. Qed.

Lemma timm_picture_fetch_fails (W : World) (url : string) (e : exn) :
  is_url url = true -> requests_get W url false = Raise e ->
  timm_picture W (PyStr url) = Raise e.
Proof. intros Hurl Hget. unfold timm_picture. rewrite Hurl, Hget. reflexivity. Qed.

Lemma rgb_picture_fetch_fails (W : World) (url : string) (e : exn) :
  is_url url = true -> requests_get W url true = Raise e ->
  rgb_picture W (PyStr url) = Raise e.
Proof. intros Hurl Hget. unfold rgb_picture. rewrite Hurl, Hget. reflexivity. Qed.

(** C3, amended. When the fetch of a URL image fails with an exception
    [e], every image before it in the list having been resolved (and, for
    the wrapper that takes prompts, the two counts being equal),
    [preprocess] of each of the three wrappers ends in [e] itself: the
    exception of the network library propagates unchanged. *)
Theorem failed_fetch_propagates_unchanged
    (W : World) (timm : TimmModel.obj) (v2s : Vision2SeqModel.obj)
    (before later : list pyval) (url : string) (prompts : pyval) (e : exn)
    (s : machine) :
  is_url url = true ->
  (forall stream, requests_get W url stream = Raise e) ->
  forallb (fun v => is_ok (timm_picture W v)) before = true ->
  forallb (fun v => is_ok (rgb_picture W v)) before = true ->
  length (before ++ PyStr url :: later) = length (as_list prompts) ->
  outcome (TimmModel.preprocess W timm (PyList (before ++ PyStr url :: later))) s
    = Raise e /\
  outcome (Vision2SeqModel.preprocess W v2s
             (PyList (before ++ PyStr url :: later)) prompts) s = Raise e /\
  outcome (Moondream.preprocess W (PyList (before ++ PyStr url :: later))) s
    = Raise e.
Proof.
  intros Hurl Hget Htimm Hrgb Hlen.
  pose proof (map_result_app_raise (timm_picture W) before (PyStr url) later e
                Htimm (timm_picture_fetch_fails W url e Hurl (Hget false))) as Ht.
  pose proof (map_result_app_raise (rgb_picture W) before (PyStr url) later e
                Hrgb (rgb_picture_fetch_fails W url e Hurl (Hget true))) as Hr.
  repeat split.
  - unfold TimmModel.preprocess. cbn [as_list].
    rewrite outcome_bind, (outcome_for_each _ _ (outcome_open_image W)), Ht.
    reflexivity.
  - unfold Vision2SeqModel.preprocess. cbn [as_list].
    rewrite Hlen, Nat.eqb_refl. cbn [negb].
    rewrite outcome_bind, (outcome_for_each _ _ (outcome_open_image_rgb W)), Hr.
    reflexivity.
  - unfold Moondream.preprocess. cbn [as_list].
    rewrite (outcome_for_each _ _ (outcome_open_image_rgb W)), Hr.
    reflexivity.
Qed.

Lemma failed_fetch_propagates_unchanged_witness :
  outcome (TimmModel.preprocess demo_world demo_timm
             (PyList [PyStr "cat.jpg"; PyStr "https://example.com/gone.jpg"])) boot
    = Raise (RequestException "connection refused") /\
  outcome (Vision2SeqModel.preprocess demo_world demo_vision2seq
             (PyList [PyStr "cat.jpg"; PyStr "https://example.com/gone.jpg"])
             (PyList [PyStr "one"; PyStr "two"])) boot
    = Raise (RequestException "connection refused") /\
  outcome (Moondream.preprocess demo_world
             (PyList [PyStr "cat.jpg"; PyStr "https://example.com/gone.jpg"])) boot
    = Raise (RequestException "connection refused").
Proof.
  apply (failed_fetch_propagates_unchanged demo_world demo_timm demo_vision2seq
           [PyStr "cat.jpg"] [] "https://example.com/gone.jpg"
           (PyList [PyStr "one"; PyStr "two"])
           (RequestException "connection refused") boot);
    reflexivity.
Defined.

(** ** Decoded text *)

Section Strip.
Import Str.

Lemma has_char_remove_char (c : ascii) (s : string) :
  has_char c (remove_char c s) = false.
Proof.
  induction s as [|d s IH]; simpl; [reflexivity|].
  destruct (Ascii.eqb d c) eqn:E; [exact IH|].
  simpl. rewrite E, IH. reflexivity.
Qed.

Lemma has_char_lstrip (c : ascii) (s : string) :
  has_char c s = false -> has_char c (lstrip s) = false.
Proof.
  induction s as [|d s IH]; simpl; [reflexivity|].
  intros H. apply orb_false_elim in H as [Hd Hs].
  destruct (is_space d); [apply IH, Hs|].
  simpl. rewrite Hd, Hs. reflexivity.
Qed.

Lemma has_char_rstrip (c : ascii) (s : string) :
  has_char c s = false -> has_char c (rstrip s) = false.
Proof.
  induction s as [|d s IH]; simpl; [reflexivity|].
  intros H. apply orb_false_elim in H as [Hd Hs].
  specialize (IH Hs).
  destruct (rstrip s) as [|r0 r].
  - destruct (is_space d); simpl; [reflexivity|].
    rewrite Hd. reflexivity.
  - simpl in *. rewrite Hd. exact IH.
Qed.

Lemma first_char_lstrip (s : string) (c : ascii) :
  first_char (lstrip s) = Some c -> is_space c = false.
Proof.
  induction s as [|d s IH]; simpl; [discriminate|].
  destruct (is_space d) eqn:E; [exact IH|].
  simpl. intros [= <-]. exact E.
Qed.

Lemma first_char_rstrip (s : string) (c : ascii) :
  first_char (rstrip s) = Some c -> first_char s = Some c.
Proof.
  destruct s as [|d s]; simpl; [discriminate|].
  destruct (rstrip s); [destruct (is_space d)|]; simpl; congruence.
Qed.

Lemma last_char_rstrip (s : string) (c : ascii) :
  last_char (rstrip s) = Some c -> is_space c = false.
Proof.
  induction s as [|d s IH]; simpl; [discriminate|].
  destruct (rstrip s) as [|r0 r] eqn:E.
  - destruct (is_space d) eqn:Ed; simpl; [discriminate|].
    intros [= <-]. exact Ed.
  - intros H. apply IH. exact H.
Qed.

Lemma tidy_strip_remove_newline (output : string) :
  tidy (strip (remove_char newline output)) = true.
Proof.
  unfold tidy, strip.
  rewrite has_char_rstrip
    by (apply has_char_lstrip, has_char_remove_char).
  simpl.
  apply andb_true_intro. split.
  - destruct (first_char (rstrip (lstrip (remove_char newline output))))
      as [c|] eqn:E; [|reflexivity].
    apply first_char_rstrip, first_char_lstrip in E. rewrite E. reflexivity.
  - destruct (last_char (rstrip (lstrip (remove_char newline output))))
      as [c|] eqn:E; [|reflexivity].
    apply last_char_rstrip in E. rewrite E. reflexivity.
Qed.
End Strip.

Section Vision2SeqRuns.
Import Vision2SeqModel.
Variable W : World.

Lemma outcome_lift_sys {A} (m : M machine A) (s : state) :
  outcome (lift_sys m) s = outcome m (sys s).
Proof. unfold outcome, lift_sys. destruct (m (sys s)); reflexivity. Qed.

Lemma after_lift_sys {A} (m : M machine A) (s : state) :
  after (lift_sys m) s = {| self := self s; sys := after m (sys s) |}.
Proof. unfold after, lift_sys. destruct (m (sys s)); reflexivity. Qed.

Lemma self_after_lift_sys {A} (m : M machine A) (s : state) :
  self (after (lift_sys m) s) = self s.
Proof. rewrite after_lift_sys. reflexivity. Qed.

Lemma outcome_preprocess (o : obj) (images prompts : pyval) (s : machine) :
  outcome (preprocess W o images prompts) s =
  if negb (length (as_list images) =? length (as_list prompts))%nat
  then Raise length_mismatch
  else
    match map_result (rgb_picture W) (as_list images) with
    | Raise e => Raise e
    | Ok ims =>
        processor_call W (processor_ o) ims (as_list prompts)
          (device (base o)) (dtype (base o))
    end.
Proof.
  unfold preprocess.
  destruct (negb (length (as_list images) =? length (as_list prompts))%nat);
    [reflexivity|].
  rewrite outcome_bind, (outcome_for_each _ _ (outcome_open_image_rgb W)).
  destruct (map_result (rgb_picture W) (as_list images)); reflexivity.
Qed.

Lemma outcome_postprocess (o : obj) (predictions : list tokens) (s : machine) :
  outcome (postprocess W o predictions) s =
  match batch_decode W (processor_ o) predictions with
  | Raise e => Raise e
  | Ok outputs => Ok (map clean outputs)
  end.
Proof.
  unfold postprocess. rewrite outcome_bind, outcome_extern.
  destruct (batch_decode W (processor_ o) predictions); reflexivity.
Qed.

Lemma outcome_steps (images prompts : pyval) (kw : kwargs) (s : state) :
  outcome (vision2seq_steps W images prompts kw) s
  = vision2seq_pipeline W (self s) images prompts kw.
Proof.
  unfold vision2seq_steps, vision2seq_pipeline.
  rewrite outcome_bind. cbn [outcome get_self fst after snd].
  rewrite outcome_bind, outcome_lift_sys, outcome_preprocess.
  destruct (negb (length (as_list images) =? length (as_list prompts))%nat);
    [reflexivity|].
  destruct (map_result (rgb_picture W) (as_list images)) as [ims|e];
    [|reflexivity].
  destruct (processor_call W (processor_ (self s)) ims (as_list prompts)
              (device (base (self s))) (dtype (base (self s)))) as [feats|e];
    [|reflexivity].
  rewrite outcome_bind, outcome_lift_sys.
  unfold predict at 1. rewrite outcome_extern.
  destruct (generate W (model (self s)) (device (base (self s)))
              (dtype (base (self s))) feats kw) as [preds|e]; [|reflexivity].
  rewrite outcome_lift_sys, outcome_postprocess. reflexivity.
Qed.

Lemma self_after_steps (images prompts : pyval) (kw : kwargs) (s : state) :
  self (after (vision2seq_steps W images prompts kw) s) = self s.
Proof.
  unfold vision2seq_steps.
  rewrite after_bind. cbn [outcome get_self fst after snd].
  rewrite after_bind.
  destruct (outcome (lift_sys (preprocess W (self s) images prompts)) s);
    [|apply self_after_lift_sys].
  rewrite after_bind.
  destruct (outcome _ _); rewrite !self_after_lift_sys; reflexivity.
Qed.
End Vision2SeqRuns.

Section Vision2SeqCalls.
Import Vision2SeqModel.
Variable W : World.

Lemma outcome_track {A} (body : M state A) (s : state) :
  outcome (track_inference_time W body) s = outcome body s.
Proof.
  unfold outcome, track_inference_time. destruct (body s) as [r s'].
  reflexivity.
Qed.

Lemma sys_after_track {A} (body : M state A) (s : state) :
  sys (after (track_inference_time W body) s) = sys (after body s).
Proof.
  unfold after, track_inference_time. destruct (body s) as [r s'].
  reflexivity.
Qed.

(** Leaving the block, normally or not: the statistics keep their count
    and hold the cumulative time that the world gives. *)
Lemma self_after_track {A} (body : M state A) (s : state) :
  (forall s0, self (after body s0) = self s0) ->
  exists time,
    self (after (track_inference_time W body) s)
    = with_stats (self s)
        {| num_inferences := count s; total_inference_time := time |}.
Proof.
  intros Hframe. specialize (Hframe s).
  unfold after, track_inference_time in *. destruct (body s) as [r s'].
  cbn [snd] in Hframe. cbn [set_stats snd self].
  eexists. unfold with_stats, count. rewrite Hframe. reflexivity.
Qed.

Lemma outcome_infer_batch (images prompts : pyval) (kw : kwargs) (s : state) :
  outcome (infer_batch W images prompts kw) s =
  match vision2seq_pipeline W (self s) images prompts kw with
  | Raise e => Raise e
  | Ok results =>
      match py_len images with
      | Raise e => Raise e
      | Ok _ => Ok results
      end
  end.
Proof.
  unfold infer_batch.
  change (track_inference_time W _)
    with (track_inference_time W (vision2seq_steps W images prompts kw)).
  rewrite outcome_bind, outcome_track, outcome_steps.
  destruct (vision2seq_pipeline W (self s) images prompts kw); [|reflexivity].
  rewrite outcome_bind, outcome_lift_result.
  destruct (py_len images); reflexivity.
Qed.

(** The block of [infer] is the shared body followed by [[0]]. *)
Lemma infer_block (image prompt : pyval) (kw : kwargs) (s : state) :
  (o <- get_self ;;
   preprocessed_input <- lift_sys (preprocess W o image prompt) ;;
   prediction <- lift_sys (predict W o preprocessed_input kw) ;;
   decoded <- lift_sys (postprocess W o prediction) ;;
   lift_result (py_index decoded 0)) s
  = (decoded <- vision2seq_steps W image prompt kw ;;
     lift_result (py_index decoded 0)) s.
Proof.
  unfold vision2seq_steps, bind, get_self.
  repeat match goal with
         | |- context [match ?x with _ => _ end] => destruct x
         end; reflexivity.
Qed.

Lemma outcome_infer (image prompt : pyval) (kw : kwargs) (s : state) :
  outcome (infer W image prompt kw) s =
  match vision2seq_pipeline W (self s) image prompt kw with
  | Raise e => Raise e
  | Ok decoded => py_index decoded 0
  end.
Proof.
  unfold infer.
  rewrite outcome_bind, outcome_track.
  unfold outcome at 1. rewrite infer_block.
  fold (outcome (decoded <- vision2seq_steps W image prompt kw ;;
                 lift_result (py_index decoded 0)) s).
  rewrite outcome_bind, outcome_steps.
  destruct (vision2seq_pipeline W (self s) image prompt kw) as [decoded|e];
    [|reflexivity].
  rewrite outcome_lift_result.
  destruct (py_index decoded 0); reflexivity.
Qed.
End Vision2SeqCalls.

Lemma forallb_tidy_map_clean (outputs : list string) :
  forallb tidy (map Vision2SeqModel.clean outputs) = true.
Proof.
  induction outputs as [|o outputs IH]; simpl; [reflexivity|].
  unfold Vision2SeqModel.clean at 1.
  rewrite tidy_strip_remove_newline. exact IH.
Qed.

Lemma pipeline_tidy (W : World) (o : Vision2SeqModel.obj)
    (images prompts : pyval) (kw : kwargs) (results : list string) :
  vision2seq_pipeline W o images prompts kw = Ok results ->
  forallb tidy results = true.
Proof.
  unfold vision2seq_pipeline.
  repeat match goal with
         | |- context [match ?x with _ => _ end] => destruct x
         end; try discriminate.
  intros [= <-]. apply forallb_tidy_map_clean.
Qed.

Lemma py_index_In {A} (xs : list A) (i : nat) (x : A) :
  py_index xs i = Ok x -> In x xs.
Proof.
  unfold py_index. destruct (nth_error xs i) eqn:E; [|discriminate].
  intros [= <-]. eapply nth_error_In, E.
Qed.

(** C9. [postprocess] removes every newline from each decoded output and
    strips it, so each string it yields has no newline and neither starts
    nor ends with whitespace; the string returned by [infer] and the
    strings returned by [infer_batch] are such strings. *)
Theorem vision2seq_text_is_tidy
    (W : World) (o : Vision2SeqModel.obj) (predictions : list tokens)
    (image prompt images prompts : pyval) (kw : kwargs)
    (m : machine) (s : Vision2SeqModel.state) :
  (forall output, tidy (Vision2SeqModel.clean output) = true) /\
  (forall outs,
      outcome (Vision2SeqModel.postprocess W o predictions) m = Ok outs ->
      forallb tidy outs = true) /\
  (forall r,
      outcome (Vision2SeqModel.infer W image prompt kw) s = Ok r ->
      tidy r = true) /\
  (forall rs,
      outcome (Vision2SeqModel.infer_batch W images prompts kw) s = Ok rs ->
      forallb tidy rs = true).
Proof.
  split; [intros output; apply tidy_strip_remove_newline|].
  split; [|split].
  - intros outs. rewrite outcome_postprocess.
    destruct (batch_decode W (Vision2SeqModel.processor_ o) predictions);
      [|discriminate].
    intros [= <-]. apply forallb_tidy_map_clean.
  - intros r. rewrite outcome_infer.
    destruct (vision2seq_pipeline W (Vision2SeqModel.self s) image prompt kw)
      as [decoded|e] eqn:E; [|discriminate].
    intros Hr. apply py_index_In in Hr.
    apply pipeline_tidy in E.
    rewrite forallb_forall in E. apply E, Hr.
  - intros rs. rewrite outcome_infer_batch.
    destruct (vision2seq_pipeline W (Vision2SeqModel.self s) images prompts kw)
      as [results|e] eqn:E; [|discriminate].
    destruct (py_len images); [|discriminate].
    intros [= <-]. eapply pipeline_tidy, E.
Qed.

Lemma vision2seq_text_is_tidy_witness :
  outcome (Vision2SeqModel.infer demo_world (PyStr "cat.jpg")
             (PyStr "What is this?") []) demo_state = Ok "a cat" /\
  tidy "a cat" = true.
Proof.
  assert (outcome (Vision2SeqModel.infer demo_world (PyStr "cat.jpg")
                     (PyStr "What is this?") []) demo_state = Ok "a cat") as Hrun
    by reflexivity.
  split; [exact Hrun|].
  destruct (vision2seq_text_is_tidy demo_world demo_vision2seq []
              (PyStr "cat.jpg") (PyStr "What is this?") PyNone PyNone [] boot
              demo_state) as (_ & _ & Hinfer & _).
  exact (Hinfer "a cat" Hrun).
Defined.

(** ** Running statistics *)

Section Vision2SeqStats.
Import Vision2SeqModel.
Variable W : World.

Lemma after_infer_block (image prompt : pyval) (kw : kwargs) (s0 : state) :
  after (o <- get_self ;;
         preprocessed_input <- lift_sys (preprocess W o image prompt) ;;
         prediction <- lift_sys (predict W o preprocessed_input kw) ;;
         decoded <- lift_sys (postprocess W o prediction) ;;
         lift_result (py_index decoded 0)) s0
  = after (vision2seq_steps W image prompt kw) s0.
Proof.
  unfold after at 1. rewrite infer_block.
  fold (after (decoded <- vision2seq_steps W image prompt kw ;;
               lift_result (py_index decoded 0)) s0).
  rewrite after_bind.
  destruct (outcome (vision2seq_steps W image prompt kw) s0); reflexivity.
Qed.

Lemma self_after_infer (image prompt : pyval) (kw : kwargs) (s : state) (r : string) :
  outcome (infer W image prompt kw) s = Ok r ->
  exists time,
    self (after (infer W image prompt kw) s)
    = with_stats (self s)
        {| num_inferences := count s + 1; total_inference_time := time |}.
Proof.
  unfold infer. rewrite outcome_bind, after_bind.
  destruct (outcome (track_inference_time W _) s) as [a|e] eqn:E;
    [|discriminate].
  intros _.
  cbn [after bind update_inference_count set_stats ret snd self].
  match goal with
  | |- context [track_inference_time W ?body] =>
      destruct (self_after_track W body s) as (time & Htime)
  end.
  { intros s0. rewrite after_infer_block. apply self_after_steps. }
  exists time. rewrite Htime. reflexivity.
Qed.

Lemma self_after_infer_batch (images prompts : pyval) (kw : kwargs) (s : state)
    (rs : list string) :
  outcome (infer_batch W images prompts kw) s = Ok rs ->
  exists n time,
    py_len images = Ok n /\
    self (after (infer_batch W images prompts kw) s)
    = with_stats (self s)
        {| num_inferences := count s + n; total_inference_time := time |}.
Proof.
  unfold infer_batch. rewrite outcome_bind, after_bind.
  change (track_inference_time W _)
    with (track_inference_time W (vision2seq_steps W images prompts kw)).
  destruct (outcome (track_inference_time W _) s) as [a|e] eqn:E;
    [|discriminate].
  rewrite outcome_bind, outcome_lift_result.
  destruct (py_len images) as [n|e] eqn:Hlen; [|discriminate].
  intros _.
  destruct (self_after_track W (vision2seq_steps W images prompts kw) s
              (self_after_steps W images prompts kw)) as (time & Htime).
  exists n, time. split; [reflexivity|].
  rewrite after_bind, outcome_lift_result.
  cbn [after bind update_inference_count set_stats ret snd self lift_result].
  rewrite Htime. reflexivity.
Qed.
End Vision2SeqStats.

Lemma with_stats_frame (o : Vision2SeqModel.obj) (st : ModelStats) :
  model_id (Vision2SeqModel.base (with_stats o st))
    = model_id (Vision2SeqModel.base o) /\
  device (Vision2SeqModel.base (with_stats o st))
    = device (Vision2SeqModel.base o) /\
  dtype (Vision2SeqModel.base (with_stats o st))
    = dtype (Vision2SeqModel.base o) /\
  Vision2SeqModel.processor_ (with_stats o st) = Vision2SeqModel.processor_ o /\
  Vision2SeqModel.model (with_stats o st) = Vision2SeqModel.model o /\
  stats (Vision2SeqModel.base (with_stats o st)) = st.
Proof. repeat split. Qed.

(** C10 as stated fails: a successful [infer] in the demo world, where
    every tracked block adds to the cumulative time, leaves the count one
    higher and the cumulative time of the statistics changed as well. *)
Lemma infer_also_moves_the_cumulative_time :
  outcome (Vision2SeqModel.infer demo_world (PyStr "cat.jpg")
             (PyStr "What is this?") []) demo_state = Ok "a cat" /\
  count (after (Vision2SeqModel.infer demo_world (PyStr "cat.jpg")
                  (PyStr "What is this?") []) demo_state)
    = count demo_state + 1 /\
  Qeq_bool
    (spent (after (Vision2SeqModel.infer demo_world (PyStr "cat.jpg")
                     (PyStr "What is this?") []) demo_state))
    (spent demo_state) = false.
Proof. repeat split. Qed.

(** The count is advanced by [len] of the argument as it was passed: for a
    single path given as a string that is its number of characters. *)
Example infer_batch_counts_characters_of_a_bare_path :
  outcome (Vision2SeqModel.infer_batch demo_world (PyStr "cat.jpg")
             (PyStr "What is this?") []) demo_state = Ok ["a cat"] /\
  count (after (Vision2SeqModel.infer_batch demo_world (PyStr "cat.jpg")
                  (PyStr "What is this?") []) demo_state)
    = count demo_state + 7.
Proof. repeat split. Qed.

(** C10, amended. A successful [infer] leaves the inference count one
    higher, and a successful [infer_batch] on a list of images leaves it
    higher by the length of the list. Apart from the count, the only part
    of the instance that may differ afterwards is the cumulative time of
    its statistics: model id, device, dtype, processor and model are the
    ones the instance had. *)
Theorem inference_changes_only_the_statistics
    (W : World) (image prompt prompts : pyval) (images : list pyval)
    (kw : kwargs) (s : Vision2SeqModel.state) :
  (forall r,
      outcome (Vision2SeqModel.infer W image prompt kw) s = Ok r ->
      exists time,
        Vision2SeqModel.self (after (Vision2SeqModel.infer W image prompt kw) s)
        = with_stats (Vision2SeqModel.self s)
            {| num_inferences := count s + 1;
               total_inference_time := time |}) /\
  (forall rs,
      outcome (Vision2SeqModel.infer_batch W (PyList images) prompts kw) s = Ok rs ->
      exists time,
        Vision2SeqModel.self
          (after (Vision2SeqModel.infer_batch W (PyList images) prompts kw) s)
        = with_stats (Vision2SeqModel.self s)
            {| num_inferences := count s + Z.of_nat (length images);
               total_inference_time := time |}).
Proof.
  split.
  - intros r Hr. exact (self_after_infer W image prompt kw s r Hr).
  - intros rs Hrs.
    destruct (self_after_infer_batch W (PyList images) prompts kw s rs Hrs)
      as (n & time & Hn & Hself).
    injection Hn as <-. exists time. exact Hself.
Qed.

Lemma inference_changes_only_the_statistics_witness :
  exists time,
    Vision2SeqModel.self
      (after (Vision2SeqModel.infer_batch demo_world (PyList two_pictures)
                (PyList [PyStr "one"; PyStr "two"]) []) demo_state)
    = with_stats demo_vision2seq
        {| num_inferences := 2; total_inference_time := time |}.
Proof.
  destruct (inference_changes_only_the_statistics demo_world PyNone PyNone
              (PyList [PyStr "one"; PyStr "two"]) two_pictures []
              demo_state) as [_ Hbatch].
  exact (Hbatch ["a cat"; "a cat"] eq_refl).
Defined.

(** ** The factory *)

(** C7. [create_model] is [get_model] of the registry on the same id and
    keyword arguments, and for an id that the registry does not hold the
    call ends in a lookup error without any other effect. *)
Theorem create_model_passes_through (W : World) (reg : ModelRegistry) :
  (forall model_id kw,
      create_model W reg model_id kw
      = model_registry.get_model W reg model_id kw) /\
  (forall model_id kw s,
      models reg !! model_id = None ->
      create_model W reg model_id kw s = (Raise (LookupError model_id), s) /\
      is_lookup_error (LookupError model_id) = true).
Proof.
  split; [reflexivity|].
  intros model_id kw s Hnone.
  unfold create_model, model_registry.get_model. cbv zeta. rewrite Hnone.
  split; reflexivity.
Qed.

Lemma create_model_passes_through_witness :
  create_model demo_world demo_registry "no/such-model" [] boot
  = (Raise (LookupError "no/such-model"), boot).
Proof.
  destruct (create_model_passes_through demo_world demo_registry) as [_ H].
  destruct (H "no/such-model" [] boot) as [Hrun _]; [reflexivity|].
  exact Hrun.
Defined.

(** A registered id is handed to its class. *)
Lemma create_model_registered (W : World) (reg : ModelRegistry)
    (model_id : string) (info : ModelInfo) (cls : constructor) (kw : kwargs) :
  models reg !! model_id = Some (info, cls) ->
  create_model W reg model_id kw = cls W model_id kw.
Proof.
  intros H. unfold create_model, model_registry.get_model. cbv zeta.
  rewrite H. reflexivity.
Qed.

(** ** The listing *)

Lemma append_cons (c : ascii) (s t : string) :
  String c s +:+ t = String c (s +:+ t).
Proof. reflexivity. Qed.

Lemma append_nil (t : string) : EmptyString +:+ t = t.
Proof. reflexivity. Qed.

Lemma prefix_iff (a b : string) :
  String.prefix a b = true <-> exists rest, b = a +:+ rest.
Proof.
  revert b. induction a as [|c a IH]; intros b.
  - split; [intros _; exists b; reflexivity | intros _; destruct b; reflexivity].
  - destruct b as [|d b]; simpl.
    + split; [discriminate | intros [rest H]; discriminate].
    + destruct (ascii_dec c d) as [->|Hne].
      * rewrite IH. split; intros [rest H]; exists rest.
        -- rewrite append_cons, H. reflexivity.
        -- rewrite append_cons in H. congruence.
      * split; [discriminate|]. intros [rest H].
        rewrite append_cons in H. congruence.
Qed.

Lemma contains_iff (a b : string) :
  Str.contains a b = true <-> exists before rest, b = before +:+ a +:+ rest.
Proof.
  split.
  - induction b as [|d b IH]; rewrite contains_unfold, orb_true_iff.
    + intros [H|H]; [|discriminate].
      apply prefix_iff in H as [rest H]. exists EmptyString, rest. exact H.
    + intros [H|H].
      * apply prefix_iff in H as [rest H]. exists EmptyString, rest. exact H.
      * destruct (IH H) as (before & rest & ->).
        exists (String d before), rest. reflexivity.
  - intros (before & rest & ->).
    induction before as [|d before IH].
    + rewrite append_nil, contains_unfold.
      replace (String.prefix a (a +:+ rest)) with true; [reflexivity|].
      symmetry. apply prefix_iff. exists rest. reflexivity.
    + rewrite append_cons, contains_unfold, IH. apply orb_true_r.
Qed.

Lemma lower_app (s t : string) :
  Str.lower (s +:+ t) = Str.lower s +:+ Str.lower t.
Proof.
  induction s as [|c s IH]; [reflexivity|].
  rewrite append_cons. simpl. rewrite IH. reflexivity.
Qed.

(** A string whose lower-case form splits in two splits the same way. *)
Lemma lower_split (s x y : string) :
  Str.lower s = x +:+ y ->
  exists a b, s = a +:+ b /\ Str.lower a = x /\ Str.lower b = y.
Proof.
  revert s. induction x as [|c x IH]; intros s H.
  - exists EmptyString, s. repeat split. exact H.
  - destruct s as [|d s]; [discriminate|].
    rewrite append_cons in H. simpl in H. injection H as Hc Hs.
    destruct (IH s Hs) as (a & b & -> & Ha & Hb).
    exists (String d a), b. repeat split; [|exact Hb].
    simpl. rewrite Hc, Ha. reflexivity.
Qed.

Lemma nat_of_ascii_lt (c : ascii) : (nat_of_ascii c < 256)%nat.
Proof. apply nat_ascii_bounded. Qed.

Lemma nat_of_ascii_inj (c d : ascii) : nat_of_ascii c = nat_of_ascii d -> c = d.
Proof.
  intros H. rewrite <- (ascii_nat_embedding c), <- (ascii_nat_embedding d), H.
  reflexivity.
Qed.

(** The code of the lower-case form of a character. *)
Lemma nat_of_lower_char (c : ascii) :
  nat_of_ascii (Str.lower_char c)
  = if is_capital c then (nat_of_ascii c + 32)%nat else nat_of_ascii c.
Proof.
  pose proof (nat_of_ascii_lt c) as Hc.
  unfold Str.lower_char, is_capital.
  set (n := nat_of_ascii c) in *.
  destruct (Nat.leb_spec 65 n), (Nat.leb_spec n 90), (Nat.leb_spec 192 n),
    (Nat.leb_spec n 214), (Nat.leb_spec 216 n), (Nat.leb_spec n 222),
    (Nat.eqb_spec n 215);
    cbn [andb orb negb]; try lia;
    try reflexivity; apply nat_ascii_embedding; lia.
Qed.

(** Two characters have the same lower-case form exactly when they are
    the same letter up to case. *)
Lemma lower_char_same_letter (c d : ascii) :
  Str.lower_char c = Str.lower_char d <-> same_letter c d.
Proof.
  pose proof (nat_of_ascii_lt c) as Hc. pose proof (nat_of_ascii_lt d) as Hd.
  pose proof (nat_of_lower_char c) as Lc. pose proof (nat_of_lower_char d) as Ld.
  unfold same_letter. split.
  - intros H. rewrite H in Lc. rewrite Lc in Ld. clear H Lc.
    unfold is_capital in *.
    set (n := nat_of_ascii c) in *. set (m := nat_of_ascii d) in *.
    assert (n = m -> c = d) as Hinj by apply nat_of_ascii_inj.
    destruct (Nat.leb_spec 65 n), (Nat.leb_spec n 90), (Nat.leb_spec 192 n),
      (Nat.leb_spec n 222), (Nat.eqb_spec n 215),
      (Nat.leb_spec 65 m), (Nat.leb_spec m 90), (Nat.leb_spec 192 m),
      (Nat.leb_spec m 222), (Nat.eqb_spec m 215);
      cbn [andb orb negb] in *;
      first [ left; apply Hinj; lia
            | right; left; split; [reflexivity | lia]
            | right; right; split; [reflexivity | lia]
            | lia ].
  - intros [->|[[Hcap Hn]|[Hcap Hn]]]; [reflexivity| |];
      apply nat_of_ascii_inj; rewrite Lc, Ld, Hcap;
      unfold is_capital in *;
      set (n := nat_of_ascii c) in *; set (m := nat_of_ascii d) in *.
    + destruct (Nat.leb_spec 65 m), (Nat.leb_spec m 90), (Nat.leb_spec 192 m),
        (Nat.leb_spec m 222), (Nat.eqb_spec m 215),
        (Nat.leb_spec 65 n), (Nat.leb_spec n 90), (Nat.leb_spec 192 n),
        (Nat.leb_spec n 222), (Nat.eqb_spec n 215);
        cbn [andb orb negb] in *; try discriminate; lia.
    + destruct (Nat.leb_spec 65 n), (Nat.leb_spec n 90), (Nat.leb_spec 192 n),
        (Nat.leb_spec n 222), (Nat.eqb_spec n 215),
        (Nat.leb_spec 65 m), (Nat.leb_spec m 90), (Nat.leb_spec 192 m),
        (Nat.leb_spec m 222), (Nat.eqb_spec m 215);
        cbn [andb orb negb] in *; try discriminate; lia.
Qed.

Lemma lower_same_letters (a b : string) :
  Str.lower a = Str.lower b <-> same_letters a b.
Proof.
  revert b. induction a as [|c a IH]; intros [|d b]; simpl;
    try (split; [discriminate | contradiction]).
  - split; trivial.
  - rewrite <- IH, <- lower_char_same_letter. split.
    + intros [= Hc Ha]. split; assumption.
    + intros [-> ->]. reflexivity.
Qed.

(** The test of the loop, [wildcard.lower() in model_info.id.lower()], is
    occurrence up to case on strings of characters below 256. *)
Lemma selected_iff (w : string) (mi : ModelInfo) :
  selected (Some w) mi = true <-> occurs_up_to_case w (id mi).
Proof.
  unfold selected, occurs_up_to_case. rewrite contains_iff. split.
  - intros (x & z & H).
    apply lower_split in H as (before & tail & Hid & <- & Htail).
    apply lower_split in Htail as (block & rest & -> & Hblock & <-).
    exists before, block, rest. split; [exact Hid|].
    apply lower_same_letters, Hblock.
  - intros (before & block & rest & -> & Hblock).
    apply lower_same_letters in Hblock.
    exists (Str.lower before), (Str.lower rest).
    rewrite !lower_app, Hblock. reflexivity.
Qed.

Lemma matches_spec (reg : ModelRegistry) (w : string) (mi : ModelInfo) :
  In mi (matches reg (Some w)) <->
  In mi (model_registry.list_models reg) /\ occurs_up_to_case w (id mi).
Proof. unfold matches. rewrite filter_In, selected_iff. reflexivity. Qed.

(** *** The narrow listing inside the wide one *)

Lemma of_string_cons (c : ascii) (s : string) :
  Unicode.of_string (String c s)
  = Z.of_nat (nat_of_ascii c) :: Unicode.of_string s.
Proof. reflexivity. Qed.

Lemma unicode_prefix_of_string (a b : string) :
  Unicode.prefix (Unicode.of_string a) (Unicode.of_string b) = String.prefix a b.
Proof.
  revert b. induction a as [|c a IH]; intros b; [destruct b; reflexivity|].
  destruct b as [|d b]; [reflexivity|].
  rewrite !of_string_cons. cbn [Unicode.prefix String.prefix]. rewrite IH.
  destruct (ascii_dec c d) as [->|Hne].
  - rewrite Z.eqb_refl. reflexivity.
  - destruct (Z.eqb_spec (Z.of_nat (nat_of_ascii c)) (Z.of_nat (nat_of_ascii d)))
      as [Heq|_]; [|reflexivity].
    apply Nat2Z.inj, nat_of_ascii_inj in Heq. contradiction.
Qed.

Lemma unicode_contains_of_string (a b : string) :
  Unicode.contains (Unicode.of_string a) (Unicode.of_string b) = Str.contains a b.
Proof.
  induction b as [|d b IH].
  - cbn [Unicode.of_string list_ascii_of_string map Unicode.contains Str.contains].
    rewrite <- (unicode_prefix_of_string a EmptyString). reflexivity.
  - rewrite of_string_cons. cbn [Unicode.contains Str.contains].
    rewrite <- of_string_cons, unicode_prefix_of_string, IH. reflexivity.
Qed.

(** On ids and wildcards of characters below 256, where [str.lower] is
    the character-wise [Str.lower], the wide listing shows the rows of the
    narrow one. *)
Lemma wide_list_models_of_narrow (lower : Unicode.str -> Unicode.str)
    (reg : ModelRegistry) (wildcard : option string) (limit : Z) :
  (forall s, lower (Unicode.of_string s) = Unicode.of_string (Str.lower s)) ->
  Wide.list_models lower (map widen (model_registry.list_models reg))
    (option_map Unicode.of_string wildcard) limit
  = map widen_row (table_rows (list_models reg wildcard limit)).
Proof.
  intros Hlower. unfold Wide.list_models, list_models. cbn [table_rows].
  assert (forall l,
             map Wide.row_of (List.filter
                                (Wide.selected lower
                                   (option_map Unicode.of_string wildcard))
                                (map widen l))
             = map widen_row (map row_of (List.filter (selected wildcard) l)))
    as Hrows.
  { induction l as [|mi l IH]; [reflexivity|].
    cbn [map List.filter].
    assert (Wide.selected lower (option_map Unicode.of_string wildcard) (widen mi)
            = selected wildcard mi) as ->.
    { destruct wildcard as [w|]; [|reflexivity].
      cbn [option_map Wide.selected selected widen Wide.id].
      rewrite !Hlower. apply unicode_contains_of_string. }
    destruct (selected wildcard mi); [|exact IH].
    cbn [map]. rewrite IH. reflexivity. }
  rewrite Hrows, !length_map.
  destruct (Z.of_nat (length (List.filter (selected wildcard)
                                (model_registry.list_models reg))) >? limit);
    [|reflexivity].
  rewrite map_app. f_equal.
  unfold slice_to. rewrite !length_map.
  destruct (limit <? 0); apply firstn_map.
Qed.

Lemma slice_to_nonneg {A} (xs : list A) (stop : Z) :
  0 <= stop -> slice_to xs stop = firstn (Z.to_nat stop) xs.
Proof.
  intros H. unfold slice_to.
  destruct (Z.ltb_spec stop 0); [lia | reflexivity].
Qed.

(** C6 as stated fails twice. A registered id made of capital alpha and
    capital sigma contains the wildcard made of capital sigma, letter for
    letter, and is not shown: the lower-case form of the id ends in the
    final sigma, that of the wildcard is the ordinary small sigma. And
    with two matches and the limit -1 the table does not show "the first
    limit" of them: [rows[:-1]] is every match but the last. *)
Lemma list_models_misses_a_match_and_cuts_from_the_end :
  (Unicode.contains [931] (Wide.id alpha_sigma) = true /\
   lower_of_sigma [931] = [963] /\
   lower_of_sigma (Wide.id alpha_sigma) = [945; 962] /\
   Wide.list_models lower_of_sigma [alpha_sigma] (Some [931]) 20 = []) /\
  (map row_of (matches two_models (Some "o"))
   = [("transformers", "vikhyatk/moondream2", "image-text-to-text");
      ("transformers", "Salesforce/blip2-opt-2.7b", "image-text-to-text")] /\
   table_rows (list_models two_models (Some "o") (-1))
   = [("transformers", "vikhyatk/moondream2", "image-text-to-text");
      ellipsis_row; ellipsis_row]).
Proof. repeat split. Qed.

(** C6, amended. For a wildcard and ids of characters below 256, the
    rows of the table are built, in the order of the registry's listing,
    from exactly the registered entries whose id contains the wildcard up
    to the case of its letters. They are all shown when their number does
    not exceed the limit; when it exceeds a limit that is not negative,
    the table shows the first [limit] of them followed by exactly two
    ellipsis rows. *)
Theorem list_models_shows_the_matches
    (reg : ModelRegistry) (w : string) (limit : Z) :
  let found := map row_of (matches reg (Some w)) in
  let shown := table_rows (list_models reg (Some w) limit) in
  (forall mi,
      In mi (matches reg (Some w)) <->
      In mi (model_registry.list_models reg) /\ occurs_up_to_case w (id mi)) /\
  (Z.of_nat (length found) <= limit -> shown = found) /\
  (0 <= limit < Z.of_nat (length found) ->
   shown = firstn (Z.to_nat limit) found ++ [ellipsis_row; ellipsis_row] /\
   Z.of_nat (length shown) = limit + 2).
Proof.
  intros found shown.
  split; [intros mi; apply matches_spec|].
  split.
  - intros Hle. unfold shown, list_models. cbn [table_rows].
    fold (matches reg (Some w)). fold found.
    destruct (Z.gtb_spec (Z.of_nat (length found)) limit); [lia | reflexivity].
  - intros [H0 Hlt].
    assert (shown = firstn (Z.to_nat limit) found ++ [ellipsis_row; ellipsis_row])
      as Hshown.
    { unfold shown, list_models. cbn [table_rows].
      fold (matches reg (Some w)). fold found.
      destruct (Z.gtb_spec (Z.of_nat (length found)) limit); [|lia].
      rewrite slice_to_nonneg by exact H0. reflexivity. }
    split; [exact Hshown|].
    rewrite Hshown, length_app, firstn_length_le by lia. simpl. lia.
Qed.

Lemma list_models_shows_the_matches_witness :
  table_rows (list_models two_models (Some "O") 1)
  = [("transformers", "vikhyatk/moondream2", "image-text-to-text");
     ellipsis_row; ellipsis_row].
Proof.
  destruct (list_models_shows_the_matches two_models "O" 1)
    as (_ & _ & Hcut).
  destruct Hcut as [Hrows _]; [vm_compute; split; [discriminate | reflexivity]|].
  rewrite Hrows. reflexivity.
Defined.

Example list_models_filters_by_wildcard :
  table_rows (list_models two_models (Some "MOON") 20)
  = [("transformers", "vikhyatk/moondream2", "image-text-to-text")].
Proof. reflexivity. Qed.

(** ** Classification *)

Lemma map_result_map {A B C} (f : A -> B) (g : B -> result C) (xs : list A) :
  map_result g (map f xs) = map_result (fun x => g (f x)) xs.
Proof.
  induction xs as [|x xs IH]; simpl; [reflexivity|]. rewrite IH. reflexivity.
Qed.

Lemma map_result_ext {A B} (g h : A -> result B) (xs : list A) :
  (forall x, In x xs -> g x = h x) -> map_result g xs = map_result h xs.
Proof.
  induction xs as [|x xs IH]; intros H; simpl; [reflexivity|].
  rewrite (H x) by (left; reflexivity).
  rewrite IH by (intros y Hy; apply H; right; exact Hy). reflexivity.
Qed.

Lemma map_result_Forall2 {A B} (g : A -> result B) (xs : list A) (ys : list B) :
  map_result g xs = Ok ys <-> Forall2 (fun x y => g x = Ok y) xs ys.
Proof.
  revert ys. induction xs as [|x xs IH]; intros ys; simpl.
  - split; [intros [= <-]; constructor | intros H; inversion H; reflexivity].
  - split.
    + destruct (g x) as [y|] eqn:Ey; [|discriminate].
      destruct (map_result g xs) as [ys'|]; [|discriminate].
      intros [= <-]. constructor; [exact Ey | apply IH; reflexivity].
    + intros H. inversion H as [|? y ? ys' Hy Hrest]; subst.
      rewrite Hy. apply IH in Hrest. rewrite Hrest. reflexivity.
Qed.

(** A loop over [range(len(xs))] that reads [xs[i]] is a loop over [xs]. *)
Lemma map_result_range {A B} (g : nat -> result B) (h : A -> result B)
    (xs : list A) :
  (forall i x, nth_error xs i = Some x -> g i = h x) ->
  map_result g (seq 0 (length xs)) = map_result h xs.
Proof.
  revert g. induction xs as [|x xs IH]; intros g H; [reflexivity|].
  cbn [length seq]. rewrite <- seq_shift. cbn [map_result].
  rewrite (H 0%nat x eq_refl), map_result_map.
  rewrite (IH (fun i => g (S i))) by (intros i y Hy; apply (H (S i)); exact Hy).
  reflexivity.
Qed.

(** Two passes, one after the other, against one pass doing both. *)
Lemma map_result_two_passes {A B C} (f : A -> result B) (g : B -> result C)
    (xs : list A) (zs : list C) :
  map_result (fun x => match f x with Ok y => g y | Raise e => Raise e end) xs
    = Ok zs ->
  exists ys, map_result f xs = Ok ys /\ map_result g ys = Ok zs.
Proof.
  revert zs. induction xs as [|x xs IH]; intros zs; simpl.
  - intros [= <-]. exists []. split; reflexivity.
  - destruct (f x) as [y|]; [|discriminate].
    destruct (g y) as [z|] eqn:Ez; [|discriminate].
    destruct (map_result _ xs) as [zs'|]; [|discriminate].
    intros [= <-]. destruct (IH zs' eq_refl) as (ys & -> & Hg).
    exists (y :: ys). split; [reflexivity|]. simpl. rewrite Ez, Hg. reflexivity.
Qed.

Lemma map_result_firstn {A B} (f : A -> result B) (n : nat) (xs : list A)
    (ys : list B) :
  map_result f xs = Ok ys -> map_result f (firstn n xs) = Ok (firstn n ys).
Proof.
  revert xs ys. induction n as [|n IH]; intros xs ys; [reflexivity|].
  destruct xs as [|x xs]; simpl.
  - intros [= <-]. reflexivity.
  - destruct (f x) as [y|]; [|discriminate].
    destruct (map_result f xs) as [ys'|] eqn:E; [|discriminate].
    intros [= <-]. simpl. rewrite (IH xs ys' E). reflexivity.
Qed.

Lemma insert_desc_In (x y : Q * nat) (l : list (Q * nat)) :
  In y (insert_desc x l) -> y = x \/ In y l.
Proof.
  induction l as [|z l IH]; simpl.
  - intros [<-|[]]. left. reflexivity.
  - destruct (Qle_bool (fst z) (fst x)); simpl.
    + intros [<-|H]; [left; reflexivity | right; exact H].
    + intros [<-|H]; [right; left; reflexivity|].
      destruct (IH H) as [->|H']; [left; reflexivity | right; right; exact H'].
Qed.

Lemma length_insert_desc (x : Q * nat) (l : list (Q * nat)) :
  length (insert_desc x l) = S (length l).
Proof.
  induction l as [|z l IH]; simpl; [reflexivity|].
  destruct (Qle_bool (fst z) (fst x)); simpl; [reflexivity|].
  rewrite IH. reflexivity.
Qed.

Lemma sort_desc_In (y : Q * nat) (l : list (Q * nat)) :
  In y (sort_desc l) -> In y l.
Proof.
  induction l as [|x l IH]; simpl; [tauto|].
  intros H. apply insert_desc_In in H as [->|H]; [left; reflexivity|].
  right. apply IH, H.
Qed.

Lemma length_sort_desc (l : list (Q * nat)) : length (sort_desc l) = length l.
Proof.
  induction l as [|x l IH]; simpl; [reflexivity|].
  rewrite length_insert_desc, IH. reflexivity.
Qed.

Lemma In_combine_seq {A} (xs : list A) (start i : nat) (v : A) :
  In (v, i) (combine xs (seq start (length xs))) ->
  (start <= i)%nat /\ nth_error xs (i - start) = Some v.
Proof.
  revert start. induction xs as [|x xs IH]; intros start; simpl; [tauto|].
  intros [[= -> ->]|H].
  - split; [lia|]. rewrite Nat.sub_diag. reflexivity.
  - apply IH in H as [Hle Hnth]. split; [lia|].
    replace (i - start)%nat with (S (i - S start)) by lia. exact Hnth.
Qed.

Lemma In_firstn {A} (n : nat) (l : list A) (x : A) :
  In x (firstn n l) -> In x l.
Proof.
  intros H. rewrite <- (firstn_skipn n l). apply in_or_app. left. exact H.
Qed.

(** [topk_row] answers for every [k] from 0 to the length of the row, with
    exactly [k] picks, each a value of the row with its position. *)
Lemma topk_row_ok (k : Z) (xs : list Q) :
  0 <= k <= Z.of_nat (length xs) ->
  exists picked,
    topk_row k xs = Ok picked /\
    Z.of_nat (length picked) = k /\
    Forall (fun vi => nth_error xs (snd vi) = Some (fst vi)) picked.
Proof.
  intros [H0 Hk]. unfold topk_row.
  destruct (Z.ltb_spec k 0); [lia|].
  destruct (Z.ltb_spec (Z.of_nat (length xs)) k); [lia|].
  cbn [orb]. eexists. split; [reflexivity|]. split.
  - rewrite firstn_length_le; [lia|].
    rewrite length_sort_desc, length_combine, length_seq. lia.
  - apply List.Forall_forall. intros [v i] Hin.
    apply In_firstn, sort_desc_In, In_combine_seq in Hin as [_ Hnth].
    rewrite Nat.sub_0_r in Hnth. exact Hnth.
Qed.

Lemma timm_entries_ok (W : World) (scores : list Q) (picked : list (Q * nat)) :
  Forall (fun vi => nth_error (times100 (softmax W scores)) (snd vi)
                    = Some (fst vi)) picked ->
  (length (softmax W scores) <= length (TimmModel.im_classes W))%nat ->
  exists ds,
    timm_entries W picked = Ok ds /\
    length ds = length picked /\
    Forall (describes W scores) ds.
Proof.
  intros Hpicked Hnames. unfold timm_entries.
  induction Hpicked as [|[v i] picked Hvi _ IH].
  - exists []. repeat split. constructor.
  - destruct IH as (ds & Hds & Hlen & Hall).
    cbn [map snd fst map_result].
    cbn [snd fst] in Hvi. unfold times100 in Hvi.
    rewrite nth_error_map in Hvi.
    destruct (nth_error (softmax W scores) i) as [p|] eqn:Hp; [|discriminate].
    injection Hvi as <-.
    assert (i < length (TimmModel.im_classes W))%nat as Hi.
    { apply Nat.lt_le_trans with (length (softmax W scores)); [|exact Hnames].
      apply nth_error_Some. rewrite Hp. discriminate. }
    unfold py_index at 1.
    destruct (nth_error (TimmModel.im_classes W) i) as [name|] eqn:Hname;
      [|apply nth_error_None in Hname; lia].
    destruct (map_result (py_index (TimmModel.im_classes W)) (map snd picked))
      as [names|]; [|discriminate].
    injection Hds as <-.
    eexists. split; [reflexivity|]. cbn [zip3 map length].
    split; [rewrite Hlen; reflexivity|].
    constructor; [|exact Hall].
    split; [reflexivity|]. exists i, name, p. repeat split; assumption.
Qed.

(** One row in range gives a report of exactly [top_k] dictionaries. *)
Lemma timm_report_ok (W : World) (top_k : Z) (scores : list Q) :
  in_range W top_k scores ->
  exists ds, timm_report W top_k scores = Ok ds /\ is_report W top_k scores ds.
Proof.
  intros [Hk Hnames]. unfold timm_report.
  destruct (topk_row_ok top_k (times100 (softmax W scores)))
    as (picked & -> & Hlen & Hpicked).
  { unfold times100. rewrite length_map. exact Hk. }
  destruct (timm_entries_ok W scores picked Hpicked Hnames)
    as (ds & Hds & Hlen' & Hall).
  exists ds. split; [exact Hds|]. split; [|exact Hall].
  rewrite Hlen'. exact Hlen.
Qed.

Lemma timm_reports_ok (W : World) (top_k : Z) (output : list (list Q)) :
  Forall (in_range W top_k) output ->
  exists results,
    map_result (timm_report W top_k) output = Ok results /\
    Forall2 (is_report W top_k) output results.
Proof.
  induction 1 as [|scores output Hscores _ IH].
  - exists []. split; [reflexivity | constructor].
  - destruct IH as (results & Hres & Hall).
    destruct (timm_report_ok W top_k scores Hscores) as (ds & Hds & Hrep).
    exists (ds :: results). simpl. rewrite Hds, Hres.
    split; [reflexivity | constructor; assumption].
Qed.

Section TimmRuns.
Import TimmModel.
Variable W : World.
Variable self : obj.

Lemma outcome_timm_preprocess (images : pyval) (s : machine) :
  outcome (preprocess W self images) s = timm_tensor W self images.
Proof.
  unfold preprocess, timm_tensor.
  rewrite outcome_bind, (outcome_for_each _ _ (outcome_open_image W)).
  destruct (map_result (timm_picture W) (as_list images)) as [ims|e];
    [|reflexivity].
  rewrite outcome_bind.
  rewrite (outcome_for_each _ (timm_transform W (model self)))
    by (intros; apply outcome_extern).
  destruct (map_result (timm_transform W (model self)) ims) as [smps|e];
    [|reflexivity].
  rewrite outcome_bind, outcome_lift_result.
  destruct (torch_stack smps); reflexivity.
Qed.

(** The tensor has one row per picture, in the order of the pictures. *)
Lemma timm_tensor_rows (images : pyval) (t : tensor) :
  timm_tensor W self images = Ok t ->
  Forall2 (fun v smp => exists im, timm_picture W v = Ok im /\
                                   timm_transform W (model self) im = Ok smp)
          (as_list images) (rows t).
Proof.
  unfold timm_tensor.
  destruct (map_result (timm_picture W) (as_list images)) as [ims|] eqn:Hims;
    [|discriminate].
  destruct (map_result (timm_transform W (model self)) ims) as [smps|] eqn:Hsmps;
    [|discriminate].
  destruct smps as [|smp smps]; [discriminate|].
  cbn [torch_stack]. intros [= <-]. cbn [rows].
  apply map_result_Forall2 in Hims, Hsmps.
  revert Hsmps. generalize (smp :: smps). clear smp smps.
  induction Hims as [|v im vs ims Hv _ IH]; intros smps Hsmps;
    inversion Hsmps; subst; constructor.
  - exists im. split; assumption.
  - apply IH. assumption.
Qed.

Lemma timm_tensor_length (images : pyval) (t : tensor) :
  timm_tensor W self images = Ok t ->
  length (rows t) = length (as_list images).
Proof.
  intros H. apply timm_tensor_rows in H.
  symmetry. eapply Forall2_length, H.
Qed.

(** The loop of [infer_batch], round by round. *)
Lemma outcome_rows_loop (vals : list (list Q)) (idxs : list (list nat))
    (n : nat) (s : machine) :
  outcome
    (for_each
       (fun i =>
          idxs <- lift_result (py_index idxs i) ;;
          class_names <- lift_result (map_result (py_index (im_classes W)) idxs) ;;
          probs <- lift_result (py_index vals i) ;;
          ret (map (fun '(n, i, p) => entry n i p) (zip3 class_names idxs probs)))
       (seq 0 n)) s
  = map_result (timm_row W vals idxs) (seq 0 n).
Proof.
  apply outcome_for_each. intros i s0. unfold timm_row.
  rewrite outcome_bind, outcome_lift_result.
  destruct (py_index idxs i) as [ids|]; [|reflexivity].
  rewrite outcome_bind, outcome_lift_result.
  destruct (map_result (py_index (im_classes W)) ids); [|reflexivity].
  rewrite outcome_bind, outcome_lift_result.
  destruct (py_index vals i); reflexivity.
Qed.

(** The same loop when there is one pick list per round. *)
Lemma outcome_row_loop (picks : list (list (Q * nat))) (n : nat) (s : machine) :
  n = length picks ->
  outcome
    (for_each
       (fun i =>
          idxs <- lift_result (py_index (map (map snd) picks) i) ;;
          class_names <- lift_result (map_result (py_index (im_classes W)) idxs) ;;
          probs <- lift_result (py_index (map (map fst) picks) i) ;;
          ret (map (fun '(n, i, p) => entry n i p) (zip3 class_names idxs probs)))
       (seq 0 n)) s
  = map_result (timm_entries W) picks.
Proof.
  intros ->. rewrite outcome_rows_loop.
  apply map_result_range. intros i p Hp.
  unfold timm_row, py_index at 1 3. rewrite !nth_error_map, Hp. reflexivity.
Qed.

Lemma torch_topk_rows (top_k : Z) (output : list (list Q))
    (picks : list (list (Q * nat))) :
  map_result (fun scores => topk_row top_k (times100 (softmax W scores))) output
    = Ok picks ->
  torch_topk (map (fun r => times100 (softmax W r)) output) top_k
    = Ok (map (map fst) picks, map (map snd) picks).
Proof.
  intros H. unfold torch_topk. rewrite map_result_map, H. reflexivity.
Qed.

Lemma timm_infer_batch_ok (images : pyval) (top_k : Z) (t : tensor)
    (output : list (list Q)) (s : machine) :
  timm_answers W self images top_k t output ->
  length output = length (rows t) ->
  exists results,
    outcome (infer_batch W self images top_k) s = Ok results /\
    map_result (timm_report W top_k) output = Ok results /\
    Forall2 (is_report W top_k) output results.
Proof.
  intros (Ht & Hfwd & Hrange) Hrows.
  destruct (timm_reports_ok W top_k output Hrange) as (results & Hres & Hall).
  exists results. split; [|split; assumption].
  destruct (map_result_two_passes _ _ _ _ Hres) as (picks & Hpicks & Hentries).
  unfold infer_batch.
  rewrite outcome_bind, outcome_timm_preprocess, Ht.
  rewrite outcome_bind. unfold forward at 1. rewrite outcome_extern, Hfwd.
  rewrite outcome_bind, outcome_lift_result, (torch_topk_rows _ _ _ Hpicks).
  rewrite outcome_row_loop; [exact Hentries|].
  rewrite <- Hrows. symmetry. eapply map_result_length, Hpicks.
Qed.

(** The loop when there are at least as many pick lists as rounds. *)
Lemma outcome_row_loop_firstn (picks : list (list (Q * nat))) (n : nat)
    (s : machine) :
  (n <= length picks)%nat ->
  outcome
    (for_each
       (fun i =>
          idxs <- lift_result (py_index (map (map snd) picks) i) ;;
          class_names <- lift_result (map_result (py_index (im_classes W)) idxs) ;;
          probs <- lift_result (py_index (map (map fst) picks) i) ;;
          ret (map (fun '(n, i, p) => entry n i p) (zip3 class_names idxs probs)))
       (seq 0 n)) s
  = map_result (timm_entries W) (firstn n picks).
Proof.
  intros Hn. rewrite outcome_rows_loop.
  rewrite <- (firstn_length_le picks Hn) at 1.
  apply map_result_range. intros i p Hp.
  assert (nth_error picks i = Some p) as Hi.
  { rewrite nth_error_firstn in Hp.
    destruct (i <? n)%nat; [exact Hp | discriminate]. }
  unfold timm_row, py_index at 1 3. rewrite !nth_error_map, Hi. reflexivity.
Qed.

(** When the libraries answer and the network gives at least one row of
    scores per row of the batch, [infer_batch] returns, with the reports
    of the first rows of scores, one per row of the batch. *)
Lemma timm_infer_batch_returns (images : pyval) (top_k : Z) (t : tensor)
    (output : list (list Q)) (s : machine) :
  timm_answers W self images top_k t output ->
  (length (rows t) <= length output)%nat ->
  exists results,
    outcome (infer_batch W self images top_k) s = Ok results /\
    map_result (timm_report W top_k) (firstn (length (rows t)) output)
      = Ok results.
Proof.
  intros (Ht & Hfwd & Hrange) Hrows.
  destruct (timm_reports_ok W top_k output Hrange) as (every & Hevery & _).
  destruct (map_result_two_passes _ _ _ _ Hevery) as (picks & Hpicks & Hentries).
  exists (firstn (length (rows t)) every).
  split; [|apply map_result_firstn, Hevery].
  unfold infer_batch.
  rewrite outcome_bind, outcome_timm_preprocess, Ht.
  rewrite outcome_bind. unfold forward at 1. rewrite outcome_extern, Hfwd.
  rewrite outcome_bind, outcome_lift_result, (torch_topk_rows _ _ _ Hpicks).
  rewrite outcome_row_loop_firstn; [apply map_result_firstn, Hentries|].
  apply map_result_length in Hpicks. lia.
Qed.

Lemma timm_infer_ok (image : pyval) (top_k : Z) (t : tensor)
    (scores : list Q) (others : list (list Q)) (s : machine) :
  timm_answers W self image top_k t (scores :: others) ->
  exists ds,
    outcome (infer W self image top_k) s = Ok ds /\
    timm_report W top_k scores = Ok ds /\
    is_report W top_k scores ds.
Proof.
  intros (Ht & Hfwd & Hrange).
  destruct (timm_reports_ok W top_k _ Hrange) as (results & Hres & Hall).
  destruct (map_result_two_passes _ _ _ _ Hres) as (picks & Hpicks & Hentries).
  inversion Hall as [|? ds ? results' Hds _]; subst.
  exists ds.
  assert (timm_report W top_k scores = Ok ds) as Hreport.
  { simpl in Hres. destruct (timm_report W top_k scores); [|discriminate].
    destruct (map_result (timm_report W top_k) others); [|discriminate].
    congruence. }
  split; [|split; assumption].
  destruct picks as [|picked picks].
  { apply map_result_length in Hpicks. discriminate. }
  assert (timm_entries W picked = Ok ds) as Hpicked.
  { simpl in Hentries. destruct (timm_entries W picked); [|discriminate].
    destruct (map_result (timm_entries W) picks); [|discriminate].
    congruence. }
  unfold infer.
  rewrite outcome_bind. cbn [outcome emit fst after snd].
  rewrite outcome_bind, outcome_timm_preprocess, Ht.
  rewrite outcome_bind. unfold forward at 1. rewrite outcome_extern, Hfwd.
  rewrite outcome_bind, outcome_lift_result, (torch_topk_rows _ _ _ Hpicks).
  cbn [map py_index nth_error].
  rewrite outcome_bind, outcome_lift_result.
  rewrite outcome_bind, outcome_lift_result.
  unfold timm_entries in Hpicked.
  destruct (map_result (py_index (im_classes W)) (map snd picked));
    [|discriminate].
  rewrite outcome_bind, outcome_lift_result.
  rewrite outcome_ret. exact Hpicked.
Qed.
End TimmRuns.

Lemma outcome_moondream_preprocess (W : World) (images : pyval) (s : machine) :
  outcome (Moondream.preprocess W images) s
  = map_result (rgb_picture W) (as_list images).
Proof.
  unfold Moondream.preprocess.
  apply (outcome_for_each _ _ (outcome_open_image_rgb W)).
Qed.

Lemma outcome_moondream_batch (W : World) (self : Moondream.obj)
    (images prompts : pyval) (verbose : bool) (kw : kwargs) (s : machine) :
  outcome (Moondream.infer_batch W self images prompts verbose kw) s =
  match map_result (rgb_picture W) (as_list images) with
  | Raise e => Raise e
  | Ok ims =>
      match Moondream.iterate prompts with
      | Raise e => Raise e
      | Ok ps =>
          batch_answer W (Moondream.model self) ims ps (Moondream.tokenizer self) kw
      end
  end.
Proof.
  unfold Moondream.infer_batch.
  rewrite outcome_bind. cbn [outcome time_perf_counter fst].
  rewrite outcome_bind, outcome_moondream_preprocess.
  destruct (map_result (rgb_picture W) (as_list images)) as [ims|]; [|reflexivity].
  rewrite outcome_bind, outcome_lift_result.
  destruct (Moondream.iterate prompts) as [ps|]; [|reflexivity].
  rewrite outcome_bind, outcome_extern.
  destruct (batch_answer W _ ims ps _ kw); [|reflexivity].
  rewrite outcome_bind. cbn [outcome time_perf_counter fst].
  rewrite outcome_bind. destruct verbose; reflexivity.
Qed.

Lemma vision2seq_pipeline_inv (W : World) (self : Vision2SeqModel.obj)
    (images prompts : list pyval) (kw : kwargs) (results : list string) :
  vision2seq_pipeline W self (PyList images) (PyList prompts) kw = Ok results ->
  exists outputs,
    vision2seq_answers W self images prompts kw outputs /\
    results = map Vision2SeqModel.clean outputs.
Proof.
  unfold vision2seq_pipeline, vision2seq_answers. cbn [as_list].
  destruct (Nat.eqb_spec (length images) (length prompts)) as [Hlen|];
    [|discriminate].
  cbn [negb].
  destruct (map_result (rgb_picture W) images) as [ims|] eqn:Hims;
    [|discriminate].
  destruct (processor_call W _ ims prompts _ _) as [feats|] eqn:Hproc;
    [|discriminate].
  destruct (generate W _ _ _ feats kw) as [preds|] eqn:Hgen; [|discriminate].
  destruct (batch_decode W _ preds) as [outputs|] eqn:Hdec; [|discriminate].
  intros [= <-]. exists outputs. split; [|reflexivity].
  split; [exact Hlen|]. exists ims, feats, preds. repeat split; assumption.
Qed.

Lemma vision2seq_pipeline_ok (W : World) (self : Vision2SeqModel.obj)
    (images prompts : list pyval) (kw : kwargs) (outputs : list string) :
  vision2seq_answers W self images prompts kw outputs ->
  vision2seq_pipeline W self (PyList images) (PyList prompts) kw
  = Ok (map Vision2SeqModel.clean outputs).
Proof.
  intros (Hlen & ims & feats & preds & Hims & Hproc & Hgen & Hdec).
  unfold vision2seq_pipeline. cbn [as_list].
  rewrite Hlen, Nat.eqb_refl. cbn [negb].
  rewrite Hims, Hproc, Hgen, Hdec. reflexivity.
Qed.

(** *** Whatever a classification call returns *)

Lemma for_each_length {S A B} (f : A -> M S B) (xs : list A) (s : S) (ys : list B) :
  outcome (for_each f xs) s = Ok ys -> length ys = length xs.
Proof.
  revert s ys. induction xs as [|x xs IH]; intros s ys; simpl.
  - intros [= <-]. reflexivity.
  - rewrite outcome_bind. destruct (outcome (f x) s); [|discriminate].
    rewrite outcome_bind.
    destruct (outcome (for_each f xs) _) as [ys'|] eqn:E; [|discriminate].
    intros [= <-]. simpl. f_equal. eapply IH, E.
Qed.

Lemma Forall2_nth_error_r {A B} (R : A -> B -> Prop) (xs : list A) (ys : list B)
    (i : nat) (y : B) :
  Forall2 R xs ys -> nth_error ys i = Some y ->
  exists x, nth_error xs i = Some x /\ R x y.
Proof.
  intros H. revert i. induction H as [|x0 y0 xs ys Hxy _ IH]; intros i.
  - destruct i; discriminate.
  - destruct i as [|i]; simpl.
    + intros [= <-]. exists x0. split; [reflexivity | exact Hxy].
    + apply IH.
Qed.

Lemma Forall2_Forall_r {A B} (R : A -> B -> Prop) (P : B -> Prop)
    (xs : list A) (ys : list B) :
  Forall2 R xs ys -> (forall x y, In x xs -> R x y -> P y) -> Forall P ys.
Proof.
  induction 1 as [|x y xs ys Hxy _ IH]; intros HP; constructor.
  - apply (HP x y); [left; reflexivity | exact Hxy].
  - apply IH. intros x' y' Hin. apply HP. right. exact Hin.
Qed.

Lemma topk_row_inv (k : Z) (xs : list Q) (picked : list (Q * nat)) :
  topk_row k xs = Ok picked ->
  Z.of_nat (length picked) = k /\
  Forall (fun vi => nth_error xs (snd vi) = Some (fst vi)) picked.
Proof.
  intros H.
  assert (0 <= k <= Z.of_nat (length xs)) as Hk.
  { unfold topk_row in H.
    destruct (Z.ltb_spec k 0); [discriminate|].
    destruct (Z.ltb_spec (Z.of_nat (length xs)) k); [discriminate|]. lia. }
  destruct (topk_row_ok k xs Hk) as (picked' & Hp & Hlen & Hall).
  rewrite H in Hp. injection Hp as <-. split; assumption.
Qed.

Lemma timm_entries_inv (W : World) (scores : list Q) (picked : list (Q * nat))
    (ds : list pydict) :
  Forall (fun vi => nth_error (times100 (softmax W scores)) (snd vi)
                    = Some (fst vi)) picked ->
  timm_entries W picked = Ok ds ->
  length ds = length picked /\ Forall (describes W scores) ds.
Proof.
  intros Hpicked. revert ds. unfold timm_entries.
  induction Hpicked as [|[v i] picked Hvi _ IH]; intros ds.
  - intros [= <-]. split; [reflexivity | constructor].
  - cbn [map snd fst map_result].
    unfold py_index at 1.
    destruct (nth_error (TimmModel.im_classes W) i) as [name|] eqn:Hname;
      [|discriminate].
    destruct (map_result (py_index (TimmModel.im_classes W)) (map snd picked))
      as [names|]; [|discriminate].
    intros [= <-]. destruct (IH _ eq_refl) as [Hlen Hall].
    cbn [zip3 map length]. split; [rewrite Hlen; reflexivity|].
    constructor; [|exact Hall].
    cbn [snd fst] in Hvi. unfold times100 in Hvi. rewrite nth_error_map in Hvi.
    destruct (nth_error (softmax W scores) i) as [p|] eqn:Hp; [|discriminate].
    injection Hvi as <-.
    split; [reflexivity|]. exists i, name, p. repeat split; assumption.
Qed.

Lemma timm_report_inv (W : World) (top_k : Z) (scores : list Q) (ds : list pydict) :
  timm_report W top_k scores = Ok ds -> is_report W top_k scores ds.
Proof.
  unfold timm_report.
  destruct (topk_row top_k (times100 (softmax W scores))) as [picked|] eqn:Hp;
    [|discriminate].
  intros Hds. apply topk_row_inv in Hp as [Hlen Hpicked].
  destruct (timm_entries_inv W scores picked ds Hpicked Hds) as [Hlen' Hall].
  split; [rewrite Hlen'; exact Hlen | exact Hall].
Qed.

Lemma timm_row_report (W : World) (top_k : Z) (output : list (list Q))
    (picks : list (list (Q * nat))) (i : nat) (ds : list pydict) :
  map_result (fun scores => topk_row top_k (times100 (softmax W scores))) output
    = Ok picks ->
  timm_row W (map (map fst) picks) (map (map snd) picks) i = Ok ds ->
  exists scores, nth_error output i = Some scores /\
                 timm_report W top_k scores = Ok ds.
Proof.
  intros Hpicks. unfold timm_row, py_index. rewrite !nth_error_map.
  destruct (nth_error picks i) as [picked|] eqn:Hi; [|discriminate].
  cbn [option_map]. intros Hds.
  apply map_result_Forall2 in Hpicks.
  destruct (Forall2_nth_error_r _ _ _ _ _ Hpicks Hi) as (scores & Hscores & Htop).
  exists scores. split; [exact Hscores|].
  unfold timm_report. rewrite Htop. exact Hds.
Qed.

Section TimmReturns.
Import TimmModel.
Variable W : World.
Variable self : obj.

(** Whenever [infer_batch] returns, it returns one report per image, each
    computed from the row of scores at the same position. *)
Lemma timm_infer_batch_inv (images : pyval) (top_k : Z) (results : list (list pydict))
    (s : machine) :
  outcome (infer_batch W self images top_k) s = Ok results ->
  exists t output,
    timm_tensor W self images = Ok t /\
    timm_forward W (model self) (device (base self)) (dtype (base self)) t
      = Ok output /\
    length results = length (as_list images) /\
    forall i ds, nth_error results i = Some ds ->
                 exists scores, nth_error output i = Some scores /\
                                is_report W top_k scores ds.
Proof.
  unfold infer_batch.
  rewrite outcome_bind, outcome_timm_preprocess.
  destruct (timm_tensor W self images) as [t|] eqn:Ht; [|discriminate].
  rewrite outcome_bind. unfold forward at 1. rewrite outcome_extern.
  destruct (timm_forward W (model self) (device (base self)) (dtype (base self)) t)
    as [output|] eqn:Hfwd; [|discriminate].
  rewrite outcome_bind, outcome_lift_result.
  unfold torch_topk. rewrite map_result_map.
  destruct (map_result (fun x => topk_row top_k (times100 (softmax W x))) output)
    as [picks|] eqn:Hpicks; [|discriminate].
  rewrite outcome_rows_loop. intros Hloop.
  exists t, output. split; [reflexivity|]. split; [exact Hfwd|]. split.
  - apply map_result_length in Hloop. rewrite length_seq in Hloop.
    rewrite Hloop. exact (timm_tensor_length W self _ _ Ht).
  - intros i ds Hi. apply map_result_Forall2 in Hloop.
    destruct (Forall2_nth_error_r _ _ _ _ _ Hloop Hi) as (j & Hj & Hrow).
    assert (j = i) as ->.
    { rewrite nth_error_seq in Hj.
      destruct (Nat.ltb i (length (rows t))); [|discriminate].
      injection Hj as <-. reflexivity. }
    destruct (timm_row_report W top_k output picks i ds Hpicks Hrow)
      as (scores & Hscores & Hrep).
    exists scores. split; [exact Hscores|]. apply timm_report_inv, Hrep.
Qed.

(** Whenever [infer] returns, it returns the report of the first row. *)
Lemma timm_infer_inv (image : pyval) (top_k : Z) (ds : list pydict) (s : machine) :
  outcome (infer W self image top_k) s = Ok ds ->
  exists t scores others,
    timm_tensor W self image = Ok t /\
    timm_forward W (model self) (device (base self)) (dtype (base self)) t
      = Ok (scores :: others) /\
    is_report W top_k scores ds.
Proof.
  unfold infer.
  rewrite outcome_bind. cbn [outcome emit fst after snd].
  rewrite outcome_bind, outcome_timm_preprocess.
  destruct (timm_tensor W self image) as [t|] eqn:Ht; [|discriminate].
  rewrite outcome_bind. unfold forward at 1. rewrite outcome_extern.
  destruct (timm_forward W (model self) (device (base self)) (dtype (base self)) t)
    as [output|] eqn:Hfwd; [|discriminate].
  rewrite outcome_bind, outcome_lift_result.
  unfold torch_topk. rewrite map_result_map.
  destruct (map_result (fun x => topk_row top_k (times100 (softmax W x))) output)
    as [picks|] eqn:Hpicks; [|discriminate].
  intros Hrest.
  assert (timm_row W (map (map fst) picks) (map (map snd) picks) 0 = Ok ds)
    as Hrow.
  { unfold timm_row. revert Hrest.
    rewrite outcome_bind, outcome_lift_result.
    destruct (py_index (map (map snd) picks) 0) as [ids|]; [|discriminate].
    rewrite outcome_bind, outcome_lift_result.
    destruct (map_result (py_index (im_classes W)) ids); [|discriminate].
    rewrite outcome_bind, outcome_lift_result.
    destruct (py_index (map (map fst) picks) 0); [|discriminate].
    rewrite outcome_ret. trivial. }
  destruct (timm_row_report W top_k output picks 0 ds Hpicks Hrow)
    as (scores & Hscores & Hrep).
  destruct output as [|scores' others]; [discriminate|].
  injection Hscores as ->.
  exists t, scores, others. split; [reflexivity|]. split; [exact Hfwd|].
  apply timm_report_inv, Hrep.
Qed.
End TimmReturns.

(** C5 as stated fails. In a world whose models honour the keyword
    [num_return_sequences], which the two transformers wrappers hand
    through with the rest of [**generate_kwargs], [infer_batch] of
    [Vision2SeqModel] and of [Moondream] on two images and two prompts
    returns four results; and on an empty batch [TimmModel.infer_batch]
    returns no list at all, since [torch.stack] refuses an empty list. *)
Lemma infer_batch_can_return_more_results_than_images :
  outcome (Vision2SeqModel.infer_batch world_of_many_sequences
             (PyList two_pictures) (PyList [PyStr "one"; PyStr "two"])
             [("num_return_sequences", PyInt 2)]) demo_state
  = Ok ["a cat"; "a cat"; "a cat"; "a cat"] /\
  outcome (Moondream.infer_batch world_of_many_sequences demo_moondream
             (PyList two_pictures) (PyList [PyStr "one"; PyStr "two"]) false
             [("num_return_sequences", PyInt 2)]) boot
  = Ok ["a cat"; "a cat"; "a cat"; "a cat"] /\
  outcome (TimmModel.infer_batch demo_world demo_timm (PyList []) default_top_k)
    boot
  = Raise (RuntimeError "stack expects a non-empty TensorList").
Proof. repeat split. Qed.

(** C5, amended. Whenever [TimmModel.infer_batch] returns, its list has
    exactly one result per image: the batch handed to the network has the
    transformed i-th picture as its i-th row, and the i-th result is the
    report of the i-th row of scores that the network returned for it; the
    call does return when the libraries answer with at least one row of
    scores per image. [Vision2SeqModel.infer_batch] and
    [Moondream.infer_batch] return exactly when the libraries answer, and
    then one result per text that the library produced, in the library's
    order: the clean-up of the i-th decoded text, and the i-th answer of
    [batch_answer]. The wrappers do not compare that number with the
    number of images. *)
Theorem infer_batch_results_follow_the_library
    (W : World) (images prompts : list pyval) (kw : kwargs) :
  (forall (self : TimmModel.obj) top_k s results,
      outcome (TimmModel.infer_batch W self (PyList images) top_k) s = Ok results ->
      length results = length images /\
      exists t output,
        timm_tensor W self (PyList images) = Ok t /\
        Forall2 (fun v smp =>
                   exists im, timm_picture W v = Ok im /\
                              timm_transform W (TimmModel.model self) im = Ok smp)
                images (rows t) /\
        timm_forward W (TimmModel.model self) (device (TimmModel.base self))
          (dtype (TimmModel.base self)) t = Ok output /\
        forall i ds,
          nth_error results i = Some ds ->
          exists scores,
            nth_error output i = Some scores /\ is_report W top_k scores ds) /\
  (forall (self : TimmModel.obj) top_k t output s,
      timm_answers W self (PyList images) top_k t output ->
      (length images <= length output)%nat ->
      exists results,
        outcome (TimmModel.infer_batch W self (PyList images) top_k) s = Ok results /\
        map_result (timm_report W top_k) (firstn (length images) output)
          = Ok results) /\
  (forall s results,
      outcome (Vision2SeqModel.infer_batch W (PyList images) (PyList prompts) kw) s
        = Ok results <->
      exists outputs,
        vision2seq_answers W (Vision2SeqModel.self s) images prompts kw outputs /\
        results = map Vision2SeqModel.clean outputs) /\
  (forall (self : Moondream.obj) verbose s results,
      outcome (Moondream.infer_batch W self (PyList images) (PyList prompts)
                 verbose kw) s = Ok results <->
      moondream_answers W self images prompts kw results).
Proof.
  split; [|split; [|split]].
  - intros self top_k s results Hrun.
    destruct (timm_infer_batch_inv W self _ _ _ _ Hrun)
      as (t & output & Ht & Hfwd & Hlen & Hrows).
    split; [exact Hlen|].
    exists t, output. split; [exact Ht|]. split; [|split; assumption].
    exact (timm_tensor_rows W self _ _ Ht).
  - intros self top_k t output s Hans Hlen.
    pose proof Hans as (Ht & _ & _).
    pose proof (timm_tensor_length W self _ _ Ht) as Hrows.
    cbn [as_list] in Hrows. rewrite <- Hrows in *.
    exact (timm_infer_batch_returns W self (PyList images) top_k t output s
             Hans Hlen).
  - intros s results. rewrite outcome_infer_batch. cbn [py_len]. split.
    + destruct (vision2seq_pipeline W _ (PyList images) (PyList prompts) kw)
        as [rs|] eqn:Hrun; [|discriminate].
      intros [= <-]. exact (vision2seq_pipeline_inv _ _ _ _ _ _ Hrun).
    + intros (outputs & Hans & ->).
      rewrite (vision2seq_pipeline_ok _ _ _ _ _ _ Hans). reflexivity.
  - intros self verbose s results. rewrite outcome_moondream_batch.
    unfold moondream_answers. cbn [as_list Moondream.iterate]. split.
    + destruct (map_result (rgb_picture W) images) as [ims|]; [|discriminate].
      intros Hans. exists ims. split; [reflexivity | exact Hans].
    + intros (ims & -> & Hans). exact Hans.
Qed.

Lemma infer_batch_results_follow_the_library_witness :
  (exists results,
      outcome (TimmModel.infer_batch demo_world demo_timm (PyList two_pictures)
                 default_top_k) boot = Ok results /\
      length results = 2%nat) /\
  outcome (Vision2SeqModel.infer_batch demo_world (PyList two_pictures)
             (PyList [PyStr "one"; PyStr "two"]) []) demo_state
    = Ok ["a cat"; "a cat"] /\
  outcome (Moondream.infer_batch demo_world demo_moondream (PyList two_pictures)
             (PyList [PyStr "one"; PyStr "two"]) false []) boot
    = Ok ["a cat"; "a cat"].
Proof.
  destruct (infer_batch_results_follow_the_library demo_world two_pictures
              [PyStr "one"; PyStr "two"] []) as (Hinv & Htimm & Hv2s & Hmoon).
  split; [|split].
  - destruct (Htimm demo_timm default_top_k (demo_tensor 2)
                (repeat demo_scores 2) boot)
      as (results & Hrun & _).
    + split; [reflexivity|]. split; [reflexivity|].
      repeat (apply List.Forall_cons; [unfold in_range, default_top_k; cbn; lia|]).
      apply List.Forall_nil.
    + cbn. lia.
    + exists results. split; [exact Hrun|].
      exact (proj1 (Hinv demo_timm default_top_k boot results Hrun)).
  - apply Hv2s.
    exists [String Str.newline "  a cat " +:+ String Str.newline " ";
            String Str.newline "  a cat " +:+ String Str.newline " "].
    split; [|reflexivity].
    split; [reflexivity|].
    exists [ConvertRGB (Picture "cat"); ConvertRGB (Picture "cat-bytes")],
      [[0]; [0]], [[1; 2]; [1; 2]].
    repeat split.
  - apply Hmoon.
    exists [ConvertRGB (Picture "cat"); ConvertRGB (Picture "cat-bytes")].
    split; reflexivity.
Defined.

(** C8. Whatever [infer] returns for [top_k = k] is a list of exactly [k]
    dictionaries with the keys class, id and confidence, in which the
    class is the name of the index and the confidence is a hundred times
    the softmax probability of that index in the first row of scores of
    the network; whatever [infer_batch] returns holds such a list for the
    row of each image. When the libraries answer and [k] is in range, both
    calls do return. *)
Theorem timm_infer_returns_top_k_dictionaries
    (W : World) (self : TimmModel.obj) (top_k : Z) (s : machine) :
  (forall image ds,
      outcome (TimmModel.infer W self image top_k) s = Ok ds ->
      exists t scores others,
        timm_tensor W self image = Ok t /\
        timm_forward W (TimmModel.model self) (device (TimmModel.base self))
          (dtype (TimmModel.base self)) t = Ok (scores :: others) /\
        Z.of_nat (length ds) = top_k /\
        Forall (describes W scores) ds) /\
  (forall images results,
      outcome (TimmModel.infer_batch W self images top_k) s = Ok results ->
      exists t output,
        timm_tensor W self images = Ok t /\
        timm_forward W (TimmModel.model self) (device (TimmModel.base self))
          (dtype (TimmModel.base self)) t = Ok output /\
        length results = length (as_list images) /\
        forall i ds,
          nth_error results i = Some ds ->
          exists scores,
            nth_error output i = Some scores /\
            Z.of_nat (length ds) = top_k /\
            Forall (describes W scores) ds) /\
  (forall image t scores others,
      timm_answers W self image top_k t (scores :: others) ->
      exists ds,
        outcome (TimmModel.infer W self image top_k) s = Ok ds /\
        Z.of_nat (length ds) = top_k /\
        Forall (describes W scores) ds) /\
  (forall images t output,
      timm_answers W self images top_k t output ->
      length output = length (as_list images) ->
      exists results,
        outcome (TimmModel.infer_batch W self images top_k) s = Ok results /\
        length results = length (as_list images) /\
        Forall2 (fun scores ds =>
                   Z.of_nat (length ds) = top_k /\ Forall (describes W scores) ds)
                output results).
Proof.
  split; [|split; [|split]].
  - intros image ds Hrun.
    destruct (timm_infer_inv W self image top_k ds s Hrun)
      as (t & scores & others & Ht & Hfwd & Hlen & Hall).
    exists t, scores, others. repeat split; assumption.
  - intros images results Hrun.
    destruct (timm_infer_batch_inv W self images top_k results s Hrun)
      as (t & output & Ht & Hfwd & Hlen & Hrows).
    exists t, output. split; [exact Ht|]. split; [exact Hfwd|].
    split; [exact Hlen|]. exact Hrows.
  - intros image t scores others Hans.
    destruct (timm_infer_ok W self image top_k t scores others s Hans)
      as (ds & Hrun & _ & Hlen & Hall).
    exists ds. repeat split; assumption.
  - intros images t output Hans Hlen.
    pose proof Hans as (Ht & _ & _).
    pose proof (timm_tensor_length W self _ _ Ht) as Hrows.
    destruct (timm_infer_batch_ok W self images top_k t output s Hans)
      as (results & Hrun & Hmap & Hall); [congruence|].
    exists results. split; [exact Hrun|]. split; [|exact Hall].
    apply map_result_length in Hmap. congruence.
Qed.

Lemma timm_infer_returns_top_k_dictionaries_witness :
  exists ds,
    outcome (TimmModel.infer demo_world demo_timm (PyStr "cat.jpg") default_top_k)
      boot = Ok ds /\
    Z.of_nat (length ds) = default_top_k /\
    Forall (describes demo_world demo_scores) ds.
Proof.
  destruct (timm_infer_returns_top_k_dictionaries demo_world demo_timm
              default_top_k boot) as (_ & _ & Hinfer & _).
  apply (Hinfer (PyStr "cat.jpg") (demo_tensor 1) demo_scores []).
  split; [reflexivity|]. split; [reflexivity|].
  apply List.Forall_cons; [unfold in_range, default_top_k; cbn; lia|].
  apply List.Forall_nil.
Defined.

Example timm_infer_demo :
  outcome (TimmModel.infer demo_world demo_timm (PyStr "cat.jpg") 2) boot
  = Ok [[("class", PyStr "goldfish"); ("id", PyInt 1);
         ("confidence", PyFloat (Qmult (Qmake 100 1) (Qmake 60 100)))];
        [("class", PyStr "hammerhead"); ("id", PyInt 4);
         ("confidence", PyFloat (Qmult (Qmake 100 1) (Qmake 20 100)))]].
Proof. reflexivity. Qed.

(** * Further properties of the code *)

(** ** What a run adds to the trace *)

Section AddsOnly.
Variable P : event -> Prop.

Lemma adds_only_ret {A} (a : A) : adds_only P (ret a).
Proof. intros s. exists []. rewrite app_nil_r. split; [reflexivity | constructor]. Qed.

Lemma adds_only_raise {A} (e : exn) : adds_only P (@raise machine A e).
Proof. intros s. exists []. rewrite app_nil_r. split; [reflexivity | constructor]. Qed.

Lemma adds_only_lift_result {A} (r : result A) : adds_only P (lift_result r).
Proof. intros s. exists []. rewrite app_nil_r. split; [reflexivity | constructor]. Qed.

Lemma adds_only_emit (e : event) : P e -> adds_only P (emit e).
Proof.
  intros He s. exists [e]. split; [reflexivity|]. constructor; [exact He | constructor].
Qed.

Lemma adds_only_bind {A B} (m : M machine A) (k : A -> M machine B) :
  adds_only P m -> (forall a, adds_only P (k a)) -> adds_only P (bind m k).
Proof.
  intros Hm Hk s. destruct (Hm s) as (evs & Hevs & HP).
  rewrite after_bind. destruct (outcome m s) as [a|e].
  - destruct (Hk a (after m s)) as (evs' & Hevs' & HP').
    exists (evs ++ evs'). rewrite Hevs', Hevs, app_assoc.
    split; [reflexivity|]. apply List.Forall_app. split; assumption.
  - exists evs. split; assumption.
Qed.

Lemma adds_only_extern {A} (e : event) (r : result A) :
  P e -> adds_only P (extern e r).
Proof.
  intros He. unfold extern.
  apply adds_only_bind; [apply adds_only_emit, He|].
  intros _. apply adds_only_lift_result.
Qed.

Lemma adds_only_perf_counter (W : World) :
  P PerfCounter -> adds_only P (time_perf_counter W).
Proof.
  intros He s. exists [PerfCounter]. split; [reflexivity|].
  constructor; [exact He | constructor].
Qed.

Lemma adds_only_for_each {A B} (f : A -> M machine B) (xs : list A) :
  (forall x, In x xs -> adds_only P (f x)) -> adds_only P (for_each f xs).
Proof.
  induction xs as [|x xs IH]; intros Hf; simpl.
  - apply adds_only_ret.
  - apply adds_only_bind; [apply Hf; left; reflexivity|]. intros y.
    apply adds_only_bind; [|intros ys; apply adds_only_ret].
    apply IH. intros x' Hx'. apply Hf. right. exact Hx'.
Qed.

Lemma adds_only_except {A} (body handler : M machine A) :
  adds_only P body -> adds_only P handler ->
  adds_only P (except_FileNotFoundError body handler).
Proof.
  intros Hb Hh s. destruct (Hb s) as (evs & Hevs & HP).
  unfold after, except_FileNotFoundError in *.
  destruct (body s) as [[a|e] s'] eqn:E; simpl in *.
  - exists evs. split; assumption.
  - destruct e; try (exists evs; split; assumption).
    destruct (Hh s') as (evs' & Hevs' & HP'). unfold after in Hevs'.
    exists (evs ++ evs'). rewrite Hevs', Hevs, app_assoc.
    split; [reflexivity|]. apply List.Forall_app. split; assumption.
Qed.
End AddsOnly.

Lemma adds_only_weaken {A} (P Q : event -> Prop) (m : M machine A) :
  (forall e, P e -> Q e) -> adds_only P m -> adds_only Q m.
Proof.
  intros HPQ Hm s. destruct (Hm s) as (evs & Hevs & HP).
  exists evs. split; [exact Hevs|].
  eapply List.Forall_impl; [exact HPQ | exact HP].
Qed.

Lemma open_image_io (W : World) (images : list pyval) (v : pyval) :
  In v images -> adds_only (image_io images) (TimmModel.open_image W v).
Proof.
  intros Hin. destruct v as [| path | | |]; try apply adds_only_raise.
  unfold TimmModel.open_image. destruct (is_url path) eqn:Hurl.
  - apply adds_only_bind; [apply adds_only_extern; split; assumption|].
    intros resp. apply adds_only_extern. exact I.
  - apply adds_only_extern. split; assumption.
Qed.

Lemma open_image_rgb_io (W : World) (images : list pyval) (v : pyval) :
  In v images -> adds_only (image_io images) (open_image_rgb W v).
Proof.
  intros Hin. destruct v as [| path | | |]; try apply adds_only_raise.
  unfold open_image_rgb. destruct (is_url path) eqn:Hurl.
  - apply adds_only_bind; [apply adds_only_extern; split; assumption|].
    intros resp.
    apply adds_only_bind; [apply adds_only_extern; exact I|].
    intros im. apply adds_only_ret.
  - apply adds_only_except; [|apply adds_only_raise].
    apply adds_only_bind; [apply adds_only_extern; split; assumption|].
    intros im. apply adds_only_ret.
Qed.

Lemma timm_preprocess_io (W : World) (timm : TimmModel.obj) (images : pyval) :
  adds_only (fun e => image_io (as_list images) e \/ e = TimmTransform)
    (TimmModel.preprocess W timm images).
Proof.
  unfold TimmModel.preprocess.
  apply adds_only_bind.
  - apply adds_only_weaken with (P := image_io (as_list images)); [tauto|].
    apply adds_only_for_each. intros v Hv. apply open_image_io, Hv.
  - intros ims. apply adds_only_bind.
    + apply adds_only_for_each. intros im _. apply adds_only_extern.
      right. reflexivity.
    + intros smps. apply adds_only_bind; [apply adds_only_lift_result|].
      intros stacked. apply adds_only_ret.
Qed.

Lemma vision2seq_preprocess_io (W : World) (v2s : Vision2SeqModel.obj)
    (images prompts : pyval) :
  adds_only (fun e => image_io (as_list images) e \/ e = ProcessorCall)
    (Vision2SeqModel.preprocess W v2s images prompts).
Proof.
  unfold Vision2SeqModel.preprocess.
  destruct (negb (length (as_list images) =? length (as_list prompts))%nat);
    [apply adds_only_raise|].
  apply adds_only_bind.
  - apply adds_only_weaken with (P := image_io (as_list images)); [tauto|].
    apply adds_only_for_each. intros v Hv. apply open_image_rgb_io, Hv.
  - intros ims. apply adds_only_extern. right. reflexivity.
Qed.

Lemma moondream_preprocess_io (W : World) (images : pyval) :
  adds_only (image_io (as_list images)) (Moondream.preprocess W images).
Proof.
  unfold Moondream.preprocess.
  apply adds_only_for_each. intros v Hv. apply open_image_rgb_io, Hv.
Qed.

(** X1. Resolving the image arguments is all that [preprocess] does with
    the outside: a request is sent only to an argument that is a URL, a
    file is opened only for an argument that is not, and besides decoding
    the responses the classifier wrapper only applies its transform and
    the vision-to-sequence wrapper only calls its processor. *)
Theorem preprocess_touches_only_its_arguments
    (W : World) (timm : TimmModel.obj) (v2s : Vision2SeqModel.obj)
    (images prompts : pyval) :
  adds_only (fun e => image_io (as_list images) e \/ e = TimmTransform)
    (TimmModel.preprocess W timm images) /\
  adds_only (fun e => image_io (as_list images) e \/ e = ProcessorCall)
    (Vision2SeqModel.preprocess W v2s images prompts) /\
  adds_only (image_io (as_list images)) (Moondream.preprocess W images).
Proof.
  split; [apply timm_preprocess_io|].
  split; [apply vision2seq_preprocess_io | apply moondream_preprocess_io].
Qed.

(** A loop that fails adds what its rounds added. *)
Lemma failed_loop_then {A B} (P : event -> Prop) (loop : M machine A)
    (k : A -> M machine B) (s : machine) (e : exn) :
  adds_only P loop -> outcome loop s = Raise e ->
  outcome (bind loop k) s = Raise e /\
  exists evs, trace (after (bind loop k) s) = trace s ++ evs /\ Forall P evs.
Proof.
  intros Hloop Hfail. rewrite outcome_bind, after_bind, Hfail.
  split; [reflexivity|]. apply Hloop.
Qed.

(** X2. When one of the images cannot be opened, [preprocess] of the
    classifier wrapper ends in the exception of that image without having
    applied its transform, and [preprocess] of the vision-to-sequence
    wrapper without having called its processor: all images are resolved
    before anything is computed from them. *)
Theorem unresolved_image_stops_preprocess
    (W : World) (timm : TimmModel.obj) (v2s : Vision2SeqModel.obj)
    (images prompts : pyval) (e : exn) (s : machine) :
  length (as_list images) = length (as_list prompts) ->
  map_result (timm_picture W) (as_list images) = Raise e ->
  (outcome (TimmModel.preprocess W timm images) s = Raise e /\
   exists evs, adds (TimmModel.preprocess W timm images) s evs /\
               Forall (image_io (as_list images)) evs) /\
  (forall e', map_result (rgb_picture W) (as_list images) = Raise e' ->
     outcome (Vision2SeqModel.preprocess W v2s images prompts) s = Raise e' /\
     exists evs, adds (Vision2SeqModel.preprocess W v2s images prompts) s evs /\
                 Forall (image_io (as_list images)) evs).
Proof.
  intros Hlen Htimm. split.
  - unfold adds, TimmModel.preprocess. apply failed_loop_then.
    + apply adds_only_for_each. intros v Hv. apply open_image_io, Hv.
    + rewrite (outcome_for_each _ _ (outcome_open_image W)). exact Htimm.
  - intros e' Hrgb. unfold adds, Vision2SeqModel.preprocess.
    rewrite Hlen, Nat.eqb_refl. cbn [negb]. apply failed_loop_then.
    + apply adds_only_for_each. intros v Hv. apply open_image_rgb_io, Hv.
    + rewrite (outcome_for_each _ _ (outcome_open_image_rgb W)). exact Hrgb.
Qed.

Lemma unresolved_image_stops_preprocess_witness :
  outcome (TimmModel.preprocess demo_world demo_timm
             (PyList [PyStr "cat.jpg"; PyStr "missing.jpg"])) boot
    = Raise (FileNotFoundError "missing.jpg") /\
  trace (after (TimmModel.preprocess demo_world demo_timm
                  (PyList [PyStr "cat.jpg"; PyStr "missing.jpg"])) boot)
    = [ImageOpen "cat.jpg"; ImageOpen "missing.jpg"].
Proof.
  destruct (unresolved_image_stops_preprocess demo_world demo_timm
              demo_vision2seq (PyList [PyStr "cat.jpg"; PyStr "missing.jpg"])
              (PyList [PyStr "one"; PyStr "two"])
              (FileNotFoundError "missing.jpg") boot) as [[Hout _] _];
    [reflexivity | reflexivity |].
  split; [exact Hout | reflexivity].
Defined.

(** ** Inference leaves the loaded model alone *)

Section StateAddsOnly.
Import Vision2SeqModel.
Variable P : event -> Prop.

Lemma state_adds_only_lift_sys {A} (m : M machine A) :
  adds_only P m -> state_adds_only P (lift_sys m).
Proof.
  intros Hm s. destruct (Hm (sys s)) as (evs & Hevs & HP).
  exists evs. rewrite after_lift_sys. split; assumption.
Qed.

Lemma state_adds_only_quiet {A} (m : M state A) :
  (forall s, sys (after m s) = sys s) -> state_adds_only P m.
Proof.
  intros Hm s. exists []. rewrite Hm, app_nil_r. split; [reflexivity | constructor].
Qed.

Lemma state_adds_only_bind {A B} (m : M state A) (k : A -> M state B) :
  state_adds_only P m -> (forall a, state_adds_only P (k a)) ->
  state_adds_only P (bind m k).
Proof.
  intros Hm Hk s. destruct (Hm s) as (evs & Hevs & HP).
  rewrite after_bind. destruct (outcome m s) as [a|e].
  - destruct (Hk a (after m s)) as (evs' & Hevs' & HP').
    exists (evs ++ evs'). rewrite Hevs', Hevs, app_assoc.
    split; [reflexivity|]. apply List.Forall_app. split; assumption.
  - exists evs. split; assumption.
Qed.

Lemma state_adds_only_track {A} (W : World) (body : M state A) :
  state_adds_only P body -> state_adds_only P (track_inference_time W body).
Proof.
  intros Hbody s. destruct (Hbody s) as (evs & Hevs & HP).
  exists evs. rewrite sys_after_track. split; assumption.
Qed.
End StateAddsOnly.

Lemma image_io_not_a_load (images : list pyval) (e : event) :
  image_io images e -> not_a_load e.
Proof. destruct e; try contradiction; reflexivity. Qed.

Lemma timm_preprocess_never_loads (W : World) (timm : TimmModel.obj)
    (images : pyval) :
  adds_only not_a_load (TimmModel.preprocess W timm images).
Proof.
  eapply adds_only_weaken; [|apply timm_preprocess_io].
  intros e [He| ->]; [eapply image_io_not_a_load, He | reflexivity].
Qed.

Lemma vision2seq_preprocess_never_loads (W : World) (v2s : Vision2SeqModel.obj)
    (images prompts : pyval) :
  adds_only not_a_load (Vision2SeqModel.preprocess W v2s images prompts).
Proof.
  eapply adds_only_weaken; [|apply vision2seq_preprocess_io].
  intros e [He| ->]; [eapply image_io_not_a_load, He | reflexivity].
Qed.

Lemma moondream_preprocess_never_loads (W : World) (images : pyval) :
  adds_only not_a_load (Moondream.preprocess W images).
Proof.
  eapply adds_only_weaken; [|apply moondream_preprocess_io].
  intros e He. eapply image_io_not_a_load, He.
Qed.

Lemma timm_infer_never_loads (W : World) (self : TimmModel.obj)
    (image : pyval) (top_k : Z) :
  adds_only not_a_load (TimmModel.infer W self image top_k).
Proof.
  unfold TimmModel.infer, TimmModel.forward.
  apply adds_only_bind; [apply adds_only_emit; reflexivity|]. intros _.
  apply adds_only_bind; [apply timm_preprocess_never_loads|]. intros t.
  apply adds_only_bind; [apply adds_only_extern; reflexivity|]. intros output.
  apply adds_only_bind; [apply adds_only_lift_result|]. intros [vals idxs].
  apply adds_only_bind; [apply adds_only_lift_result|]. intros idxs0.
  apply adds_only_bind; [apply adds_only_lift_result|]. intros names.
  apply adds_only_bind; [apply adds_only_lift_result|]. intros probs.
  apply adds_only_ret.
Qed.

Lemma timm_infer_batch_never_loads (W : World) (self : TimmModel.obj)
    (images : pyval) (top_k : Z) :
  adds_only not_a_load (TimmModel.infer_batch W self images top_k).
Proof.
  unfold TimmModel.infer_batch, TimmModel.forward.
  apply adds_only_bind; [apply timm_preprocess_never_loads|]. intros t.
  apply adds_only_bind; [apply adds_only_extern; reflexivity|]. intros output.
  apply adds_only_bind; [apply adds_only_lift_result|]. intros [vals idxs].
  apply adds_only_for_each. intros i _.
  apply adds_only_bind; [apply adds_only_lift_result|]. intros idxs0.
  apply adds_only_bind; [apply adds_only_lift_result|]. intros names.
  apply adds_only_bind; [apply adds_only_lift_result|]. intros probs.
  apply adds_only_ret.
Qed.

Lemma moondream_report_never_loads (self : Moondream.obj) (verbose : bool)
    (t0 t1 : Q) :
  adds_only not_a_load (Moondream.report self verbose t0 t1).
Proof.
  unfold Moondream.report, logger_info. destruct verbose; [|apply adds_only_ret].
  apply adds_only_bind; [apply adds_only_emit; reflexivity|]. intros _.
  apply adds_only_bind; [apply adds_only_emit; reflexivity|]. intros _.
  apply adds_only_emit. reflexivity.
Qed.

Lemma moondream_infer_never_loads (W : World) (self : Moondream.obj)
    (image prompt : pyval) (verbose : bool) (kw : kwargs) :
  adds_only not_a_load (Moondream.infer W self image prompt verbose kw).
Proof.
  unfold Moondream.infer.
  apply adds_only_bind; [apply adds_only_perf_counter; reflexivity|]. intros t0.
  apply adds_only_bind.
  { apply moondream_preprocess_never_loads. }
  intros ims.
  apply adds_only_bind; [apply adds_only_extern; reflexivity|]. intros enc.
  apply adds_only_bind; [apply adds_only_extern; reflexivity|]. intros out.
  apply adds_only_bind; [apply adds_only_perf_counter; reflexivity|]. intros t1.
  apply adds_only_bind; [apply moondream_report_never_loads|]. intros _.
  apply adds_only_ret.
Qed.

Lemma moondream_infer_batch_never_loads (W : World) (self : Moondream.obj)
    (images prompts : pyval) (verbose : bool) (kw : kwargs) :
  adds_only not_a_load (Moondream.infer_batch W self images prompts verbose kw).
Proof.
  unfold Moondream.infer_batch.
  apply adds_only_bind; [apply adds_only_perf_counter; reflexivity|]. intros t0.
  apply adds_only_bind.
  { apply moondream_preprocess_never_loads. }
  intros ims.
  apply adds_only_bind; [apply adds_only_lift_result|]. intros ps.
  apply adds_only_bind; [apply adds_only_extern; reflexivity|]. intros out.
  apply adds_only_bind; [apply adds_only_perf_counter; reflexivity|]. intros t1.
  apply adds_only_bind; [apply moondream_report_never_loads|]. intros _.
  apply adds_only_ret.
Qed.

Section Vision2SeqNeverLoads.
Import Vision2SeqModel.
Variable W : World.

Lemma vision2seq_block_never_loads (images prompts : pyval) (kw : kwargs) :
  state_adds_only not_a_load
    (o <- get_self ;;
     preprocessed_input <- lift_sys (preprocess W o images prompts) ;;
     predictions <- lift_sys (predict W o preprocessed_input kw) ;;
     lift_sys (postprocess W o predictions)).
Proof.
  apply state_adds_only_bind; [apply state_adds_only_quiet; reflexivity|].
  intros o. apply state_adds_only_bind.
  { apply state_adds_only_lift_sys.
    apply vision2seq_preprocess_never_loads. }
  intros feats. apply state_adds_only_bind.
  { apply state_adds_only_lift_sys. unfold predict.
    apply adds_only_extern. reflexivity. }
  intros preds. apply state_adds_only_lift_sys. unfold postprocess.
  apply adds_only_bind; [apply adds_only_extern; reflexivity|].
  intros outs. apply adds_only_ret.
Qed.

Lemma vision2seq_infer_batch_never_loads (images prompts : pyval) (kw : kwargs) :
  state_adds_only not_a_load (infer_batch W images prompts kw).
Proof.
  unfold infer_batch.
  apply state_adds_only_bind.
  { apply state_adds_only_track.
    apply vision2seq_block_never_loads. }
  intros rs. apply state_adds_only_bind;
    [apply state_adds_only_quiet; reflexivity|].
  intros n. apply state_adds_only_bind;
    [apply state_adds_only_quiet; reflexivity|].
  intros _. apply state_adds_only_quiet. reflexivity.
Qed.

Lemma vision2seq_infer_never_loads (image prompt : pyval) (kw : kwargs) :
  state_adds_only not_a_load (infer W image prompt kw).
Proof.
  unfold infer.
  apply state_adds_only_bind.
  { apply state_adds_only_track.
    apply state_adds_only_bind; [apply state_adds_only_quiet; reflexivity|].
    intros o. apply state_adds_only_bind.
    { apply state_adds_only_lift_sys.
      apply vision2seq_preprocess_never_loads. }
    intros feats. apply state_adds_only_bind.
    { apply state_adds_only_lift_sys. unfold predict.
      apply adds_only_extern. reflexivity. }
    intros preds. apply state_adds_only_bind.
    { apply state_adds_only_lift_sys. unfold postprocess.
      apply adds_only_bind; [apply adds_only_extern; reflexivity|].
      intros outs. apply adds_only_ret. }
    intros decoded. apply state_adds_only_quiet. reflexivity. }
  intros r. apply state_adds_only_bind;
    [apply state_adds_only_quiet; reflexivity|].
  intros _. apply state_adds_only_quiet. reflexivity.
Qed.
End Vision2SeqNeverLoads.

(** X3. No call to [infer] or [infer_batch], of any of the three wrappers
    and whether it returns or raises, loads, moves or compiles a model:
    the model loaded by the constructor is the one that is used. *)
Theorem inference_never_loads
    (W : World) (timm : TimmModel.obj) (moon : Moondream.obj)
    (images prompts : pyval) (top_k : Z) (verbose : bool) (kw : kwargs) :
  adds_only not_a_load (TimmModel.infer W timm images top_k) /\
  adds_only not_a_load (TimmModel.infer_batch W timm images top_k) /\
  state_adds_only not_a_load (Vision2SeqModel.infer W images prompts kw) /\
  state_adds_only not_a_load (Vision2SeqModel.infer_batch W images prompts kw) /\
  adds_only not_a_load (Moondream.infer W moon images prompts verbose kw) /\
  adds_only not_a_load (Moondream.infer_batch W moon images prompts verbose kw).
Proof.
  repeat split.
  - apply timm_infer_never_loads.
  - apply timm_infer_batch_never_loads.
  - apply vision2seq_infer_never_loads.
  - apply vision2seq_infer_batch_never_loads.
  - apply moondream_infer_never_loads.
  - apply moondream_infer_batch_never_loads.
Qed.

(** ** Construction *)

(** X4. [Moondream.__init__] runs on [cuda] only when the caller asked
    for [auto] and CUDA is available; every other device string, [cuda]
    included, ends on [cpu], and the availability of CUDA is queried for
    [auto] alone. *)
Theorem moondream_device_is_auto_or_cpu
    (W : World) (mid rev dev dt : string) (kw : kwargs)
    (s : machine) :
  (forall o,
      outcome (Moondream.__init__ W mid rev dev dt kw) s = Ok o ->
      device (Moondream.base o) = moondream_device W dev) /\
  (dev <> "auto" ->
   moondream_device W dev = "cpu" /\
   adds_only (fun e => e <> CudaIsAvailable)
     (Moondream.__init__ W mid rev dev dt kw)).
Proof.
  split.
  - intros o. unfold outcome, Moondream.__init__, Moondream.pick_device,
      Moondream.load_model, moondream_device, check_dtype, extern, logger_info,
      emit, bind, raise, ret, lift_result.
    destruct (String.eqb dev "auto"); destruct (cuda_is_available W);
      simpl; destruct (dtype_map !! dt); simpl; try discriminate;
      split_oracles; try discriminate; intros [= <-]; reflexivity.
  - intros Hne. apply String.eqb_neq in Hne.
    unfold moondream_device. rewrite Hne. split; [reflexivity|].
    unfold Moondream.__init__, Moondream.pick_device, Moondream.load_model,
      check_dtype, logger_info.
    rewrite Hne.
    repeat first
      [ apply adds_only_ret | apply adds_only_raise
      | apply adds_only_extern; discriminate
      | apply adds_only_emit; discriminate
      | apply adds_only_bind; [|intro] ].
    destruct (dtype_map !! dt); [apply adds_only_ret | apply adds_only_raise].
Qed.

Lemma moondream_device_is_auto_or_cpu_witness :
  moondream_device demo_world "cuda" = "cpu" /\
  (forall o,
      outcome (Moondream.__init__ demo_world "vikhyatk/moondream2" "2024-08-26"
                 "cuda" "float16" []) boot = Ok o ->
      device (Moondream.base o) = "cpu").
Proof.
  destruct (moondream_device_is_auto_or_cpu demo_world "vikhyatk/moondream2"
              "2024-08-26" "cuda" "float16" [] boot) as [Hdev Hquiet].
  destruct Hquiet as [Hcpu _]; [discriminate|].
  split; [exact Hcpu|]. intros o Ho. rewrite (Hdev o Ho). exact Hcpu.
Defined.

Lemma dtype_map_lookup (dt : string) (d : torch_dtype) :
  dtype_map !! dt = Some d <->
  dt = "float32" /\ d = torch_float32 \/
  dt = "float16" /\ d = torch_float16 \/
  dt = "bfloat16" /\ d = torch_bfloat16.
Proof.
  unfold dtype_map. split.
  - destruct (decide (dt = "float32")) as [->|N1].
    { rewrite lookup_insert_eq. intros [= <-]. auto. }
    rewrite lookup_insert_ne by congruence.
    destruct (decide (dt = "float16")) as [->|N2].
    { rewrite lookup_insert_eq. intros [= <-]. auto. }
    rewrite lookup_insert_ne by congruence.
    destruct (decide (dt = "bfloat16")) as [->|N3].
    { rewrite lookup_insert_eq. intros [= <-]. auto. }
    rewrite lookup_insert_ne by congruence.
    rewrite lookup_empty. discriminate.
  - intros [[-> ->]|[[-> ->]|[-> ->]]]; reflexivity.
Qed.

(** X5. The dtype table has the three entries [float32], [float16] and
    [bfloat16] and no other. Construction of the classifier wrapper and of
    the vision-to-sequence wrapper succeeds exactly when the dtype string
    is in the table and every loading step answers; the instance then holds
    the model id and the device string as they were passed, the torch
    dtype of the table, fresh statistics, and the module that was created
    with the keyword arguments, moved to that device and dtype and
    compiled. *)
Theorem construction_succeeds_exactly_when
    (W : World) (mid dev dt : string) (kw : kwargs) (s : machine) :
  (forall d,
      dtype_map !! dt = Some d <->
      dt = "float32" /\ d = torch_float32 \/
      dt = "float16" /\ d = torch_float16 \/
      dt = "bfloat16" /\ d = torch_bfloat16) /\
  (forall o,
      outcome (TimmModel.__init__ W mid dev dt kw) s = Ok o <->
      exists d created placed,
        dtype_map !! dt = Some d /\
        timm_create_model W mid kw = Ok created /\
        module_to W created dev d = Ok placed /\
        torch_compile W placed = Ok (TimmModel.model o) /\
        TimmModel.base o = BaseModel_init mid dev d) /\
  (forall o,
      outcome (Vision2SeqModel.__init__ W mid dev dt kw) s = Ok o <->
      exists d loaded placed,
        dtype_map !! dt = Some d /\
        processor_from_pretrained W mid kw = Ok (Vision2SeqModel.processor_ o) /\
        vision2seq_from_pretrained W mid kw = Ok loaded /\
        module_to W loaded dev d = Ok placed /\
        torch_compile W placed = Ok (Vision2SeqModel.model o) /\
        Vision2SeqModel.base o = BaseModel_init mid dev d).
Proof.
  split; [apply dtype_map_lookup|].
  split; intros o; split.
  - unfold outcome, TimmModel.__init__, TimmModel.load_model, check_dtype,
      extern, logger_info, emit, bind, raise, ret, lift_result.
    destruct (dtype_map !! dt) as [d|]; simpl; [|discriminate].
    cbn [BaseModel_init model_id device dtype].
    split_oracles; try discriminate. intros [= <-].
    eexists _, _, _. repeat split; eassumption.
  - intros (d & created & placed & Hd & Hc & Hp & Ht & Hb).
    unfold outcome, TimmModel.__init__, TimmModel.load_model, check_dtype,
      extern, logger_info, emit, bind, raise, ret, lift_result.
    rewrite Hd. cbn [BaseModel_init model_id device dtype]. simpl.
    rewrite Hc. simpl. rewrite Hp. simpl. rewrite Ht. simpl.
    destruct o as [b m]. simpl in *. subst b. reflexivity.
  - unfold outcome, Vision2SeqModel.__init__, Vision2SeqModel.load_model,
      check_dtype, extern, logger_info, emit, bind, raise, ret, lift_result.
    destruct (dtype_map !! dt) as [d|]; simpl; [|discriminate].
    cbn [BaseModel_init model_id device dtype].
    split_oracles; try discriminate. intros [= <-].
    eexists _, _, _. repeat split; eassumption.
  - intros (d & loaded & placed & Hd & Hpr & Hl & Hp & Ht & Hb).
    unfold outcome, Vision2SeqModel.__init__, Vision2SeqModel.load_model,
      check_dtype, extern, logger_info, emit, bind, raise, ret, lift_result.
    rewrite Hd. cbn [BaseModel_init model_id device dtype]. simpl.
    rewrite Hpr. simpl. rewrite Hl. simpl. rewrite Hp. simpl. rewrite Ht. simpl.
    destruct o as [b p m]. simpl in *. subst b. reflexivity.
Qed.

Lemma construction_succeeds_exactly_when_witness :
  exists o,
    outcome (TimmModel.__init__ demo_world "resnet18" "cuda" "bfloat16" []) boot
      = Ok o /\
    device (TimmModel.base o) = "cuda" /\
    dtype (TimmModel.base o) = torch_bfloat16.
Proof.
  destruct (construction_succeeds_exactly_when demo_world "resnet18" "cuda"
              "bfloat16" [] boot) as (_ & Htimm & _).
  exists {| TimmModel.base := BaseModel_init "resnet18" "cuda" torch_bfloat16;
            TimmModel.model := 1%nat |}.
  split; [|split; reflexivity].
  apply Htimm. exists torch_bfloat16, 1%nat, 1%nat.
  repeat split.
Defined.

(** X6. A loading step that raises ends the construction with that very
    exception, and the steps after it are not attempted: when
    [timm.create_model] fails nothing is moved or compiled, when the
    processor of the vision-to-sequence wrapper cannot be loaded its model
    is never requested, and when the Moondream model cannot be loaded its
    tokenizer is never requested, whatever the device asked for, the
    default [auto] included. *)
Theorem failed_load_ends_construction
    (W : World) (mid rev dev dt : string) (d : torch_dtype) (kw : kwargs)
    (e : exn) (s : machine) :
  dtype_map !! dt = Some d ->
  (timm_create_model W mid kw = Raise e ->
   outcome (TimmModel.__init__ W mid dev dt kw) s = Raise e /\
   adds (TimmModel.__init__ W mid dev dt kw) s
     [LogInfo ("Model: " +:+ mid); LogInfo ("Device: " +:+ dev);
      LogInfo ("Dtype: " +:+ dt); LogInfo ("Loading model: " +:+ mid);
      TimmCreateModel mid]) /\
  (processor_from_pretrained W mid kw = Raise e ->
   outcome (Vision2SeqModel.__init__ W mid dev dt kw) s = Raise e /\
   adds (Vision2SeqModel.__init__ W mid dev dt kw) s
     [LogInfo ("Model: " +:+ mid); LogInfo ("Device: " +:+ dev);
      LogInfo ("Dtype: " +:+ dt); ProcessorFromPretrained mid]) /\
  (causal_lm_from_pretrained W mid rev = Raise e ->
   outcome (Moondream.__init__ W mid rev dev dt kw) s = Raise e /\
   adds (Moondream.__init__ W mid rev dev dt kw) s
     ((if String.eqb dev "auto" then [CudaIsAvailable] else []) ++
      [LogInfo ("Model: " +:+ mid); LogInfo ("Revision: " +:+ rev);
       LogInfo ("Device: " +:+ moondream_device W dev);
       LogInfo ("Dtype: " +:+ dt); CausalLMFromPretrained mid])).
Proof.
  intros Hd. split; [|split].
  - intros Hfail.
    unfold outcome, adds, after, TimmModel.__init__, TimmModel.load_model,
      check_dtype, extern, logger_info, emit, bind, raise, ret, lift_result.
    rewrite Hd. cbn [BaseModel_init model_id device dtype]. simpl.
    rewrite Hfail. simpl. rewrite <- !app_assoc. split; reflexivity.
  - intros Hfail.
    unfold outcome, adds, after, Vision2SeqModel.__init__,
      Vision2SeqModel.load_model,
      check_dtype, extern, logger_info, emit, bind, raise, ret, lift_result.
    rewrite Hd. cbn [BaseModel_init model_id device dtype]. simpl.
    rewrite Hfail. simpl. rewrite <- !app_assoc. split; reflexivity.
  - intros Hfail.
    unfold outcome, adds, after, Moondream.__init__, Moondream.pick_device,
      Moondream.load_model, moondream_device,
      check_dtype, extern, logger_info, emit, bind, raise, ret, lift_result.
    destruct (String.eqb dev "auto"); [destruct (cuda_is_available W)|];
      rewrite Hd; cbn [BaseModel_init model_id device dtype]; simpl;
      rewrite Hfail; simpl; rewrite <- !app_assoc; split; reflexivity.
Qed.

Lemma failed_load_ends_construction_witness :
  outcome (TimmModel.__init__ world_without_models "resnet1800" "cpu"
             "float32" []) boot
  = Raise (RuntimeError "Unknown model") /\
  outcome (Moondream.__init__ world_without_models "vikhyatk/moondream3"
             "2024-08-26" "auto" "float32" []) boot
  = Raise (RuntimeError "Unknown model") /\
  trace (after (Moondream.__init__ world_without_models "vikhyatk/moondream3"
                  "2024-08-26" "auto" "float32" []) boot)
  = [CudaIsAvailable; LogInfo "Model: vikhyatk/moondream3";
     LogInfo "Revision: 2024-08-26"; LogInfo "Device: cpu";
     LogInfo "Dtype: float32"; CausalLMFromPretrained "vikhyatk/moondream3"].
Proof.
  destruct (failed_load_ends_construction world_without_models
              "resnet1800" "2024-08-26" "cpu" "float32" torch_float32 []
              (RuntimeError "Unknown model") boot)
    as [Htimm _]; [reflexivity|].
  destruct (failed_load_ends_construction world_without_models
              "vikhyatk/moondream3" "2024-08-26" "auto" "float32"
              torch_float32 [] (RuntimeError "Unknown model") boot)
    as (_ & _ & Hmoon); [reflexivity|].
  destruct Htimm as [Hout _]; [reflexivity|].
  destruct Hmoon as [Hout' Htrace]; [reflexivity|].
  split; [exact Hout|]. split; [exact Hout'|]. exact Htrace.
Defined.

(** ** Arguments that are not as expected *)

(** X7. An image argument that is not a string (a number, [None], a
    nested list) makes [preprocess] of each wrapper raise the value error
    about the input type, provided the images before it were resolved and,
    where prompts are taken, the two counts agree. *)
Theorem non_string_image_is_rejected
    (W : World) (timm : TimmModel.obj) (v2s : Vision2SeqModel.obj)
    (before later : list pyval) (v prompts : pyval) (s : machine) :
  is_str v = false ->
  forallb (fun x => is_ok (timm_picture W x)) before = true ->
  forallb (fun x => is_ok (rgb_picture W x)) before = true ->
  length (before ++ v :: later) = length (as_list prompts) ->
  raises_value_error (@Raise unit not_a_string) = true /\
  outcome (TimmModel.preprocess W timm (PyList (before ++ v :: later))) s
    = Raise not_a_string /\
  outcome (Vision2SeqModel.preprocess W v2s (PyList (before ++ v :: later))
             prompts) s = Raise not_a_string /\
  outcome (Moondream.preprocess W (PyList (before ++ v :: later))) s
    = Raise not_a_string.
Proof.
  intros Hv Htimm Hrgb Hlen.
  assert (timm_picture W v = Raise not_a_string) as Ht
    by (destruct v; try discriminate; reflexivity).
  assert (rgb_picture W v = Raise not_a_string) as Hr
    by (destruct v; try discriminate; reflexivity).
  pose proof (map_result_app_raise _ before v later _ Htimm Ht) as Hmt.
  pose proof (map_result_app_raise _ before v later _ Hrgb Hr) as Hmr.
  split; [reflexivity|]. split; [|split].
  - unfold TimmModel.preprocess. cbn [as_list].
    rewrite outcome_bind, (outcome_for_each _ _ (outcome_open_image W)), Hmt.
    reflexivity.
  - unfold Vision2SeqModel.preprocess. cbn [as_list].
    rewrite Hlen, Nat.eqb_refl. cbn [negb].
    rewrite outcome_bind, (outcome_for_each _ _ (outcome_open_image_rgb W)), Hmr.
    reflexivity.
  - unfold Moondream.preprocess. cbn [as_list].
    rewrite (outcome_for_each _ _ (outcome_open_image_rgb W)), Hmr.
    reflexivity.
Qed.

Lemma non_string_image_is_rejected_witness :
  outcome (Moondream.preprocess demo_world
             (PyList [PyStr "cat.jpg"; PyInt 7; PyStr "missing.jpg"])) boot
  = Raise not_a_string.
Proof.
  destruct (non_string_image_is_rejected demo_world demo_timm demo_vision2seq
              [PyStr "cat.jpg"] [PyStr "missing.jpg"] (PyInt 7)
              (PyList [PyNone; PyNone; PyNone]) boot)
    as (_ & _ & _ & Hmoon); [reflexivity..|].
  exact Hmoon.
Defined.

(** A loop stops at the first round that raises: the elements after it
    play no part in the run. *)
Lemma for_each_stops {S A B} (f : A -> M S B) (before later : list A) (bad : A) :
  (forall s, exists e, outcome (f bad) s = Raise e) ->
  forall s, for_each f (before ++ bad :: later) s = for_each f (before ++ [bad]) s.
Proof.
  intros Hbad. induction before as [|x before IH]; intros s; simpl.
  - destruct (Hbad s) as [e He]. unfold outcome in He. unfold bind.
    destruct (f bad s) as [[y|e'] s']; simpl in He; [discriminate | reflexivity].
  - unfold bind. destruct (f x s) as [[y|e'] s']; [|reflexivity].
    rewrite IH. reflexivity.
Qed.

(** X8. [preprocess] resolves the images in order and stops at the first
    one that cannot be resolved: the run, its result and its trace, is the
    run on the list cut after that image, so no image after it is fetched
    or opened. *)
Theorem images_after_a_failure_are_not_opened
    (W : World) (timm : TimmModel.obj) (v2s : Vision2SeqModel.obj)
    (before later : list pyval) (bad prompts shorter : pyval) (s : machine) :
  is_ok (timm_picture W bad) = false ->
  is_ok (rgb_picture W bad) = false ->
  length (before ++ bad :: later) = length (as_list prompts) ->
  length (before ++ [bad]) = length (as_list shorter) ->
  TimmModel.preprocess W timm (PyList (before ++ bad :: later)) s
    = TimmModel.preprocess W timm (PyList (before ++ [bad])) s /\
  Vision2SeqModel.preprocess W v2s (PyList (before ++ bad :: later)) prompts s
    = Vision2SeqModel.preprocess W v2s (PyList (before ++ [bad])) shorter s /\
  Moondream.preprocess W (PyList (before ++ bad :: later)) s
    = Moondream.preprocess W (PyList (before ++ [bad])) s.
Proof.
  intros Htimm Hrgb Hlen Hshort.
  assert (forall s0, exists e, outcome (TimmModel.open_image W bad) s0 = Raise e)
    as Ht.
  { intros s0. rewrite outcome_open_image.
    destruct (timm_picture W bad) as [|e]; [discriminate | exists e; reflexivity]. }
  assert (forall s0, exists e, outcome (open_image_rgb W bad) s0 = Raise e) as Hr.
  { intros s0. rewrite outcome_open_image_rgb.
    destruct (rgb_picture W bad) as [|e]; [discriminate | exists e; reflexivity]. }
  assert (forall xs, map_result (rgb_picture W) (xs ++ [bad]) = Raise
            match map_result (rgb_picture W) (xs ++ [bad]) with
            | Raise e => e | Ok _ => not_a_string end) as Hfails.
  { intros xs. induction xs as [|x xs IH]; simpl.
    - destruct (rgb_picture W bad); [discriminate | reflexivity].
    - destruct (rgb_picture W x); [|reflexivity].
      rewrite IH. destruct (map_result (rgb_picture W) (xs ++ [bad])); reflexivity. }
  split; [|split].
  - unfold TimmModel.preprocess. cbn [as_list]. unfold bind at 1 4.
    rewrite (for_each_stops _ before later bad Ht). reflexivity.
  - unfold Vision2SeqModel.preprocess. cbn [as_list].
    rewrite Hlen, Hshort, !Nat.eqb_refl. cbn [negb]. unfold bind.
    rewrite (for_each_stops _ before later bad Hr).
    pose proof (outcome_for_each _ _ (outcome_open_image_rgb W) (before ++ [bad]) s)
      as Hout.
    unfold outcome in Hout.
    destruct (for_each (open_image_rgb W) (before ++ [bad]) s) as [[ims|e] s'];
      [|reflexivity].
    simpl in Hout. rewrite Hfails in Hout. discriminate.
  - unfold Moondream.preprocess. cbn [as_list].
    apply (for_each_stops _ before later bad Hr).
Qed.

Lemma images_after_a_failure_are_not_opened_witness :
  trace (after (Moondream.preprocess demo_world
                  (PyList [PyStr "cat.jpg"; PyStr "missing.jpg";
                           PyStr "http://example.com/cat.jpg"])) boot)
  = [ImageOpen "cat.jpg"; ImageOpen "missing.jpg"].
Proof.
  destruct (images_after_a_failure_are_not_opened demo_world demo_timm
              demo_vision2seq [PyStr "cat.jpg"]
              [PyStr "http://example.com/cat.jpg"] (PyStr "missing.jpg")
              (PyList [PyNone; PyNone; PyNone]) (PyList [PyNone; PyNone]) boot)
    as (_ & _ & Hmoon); [reflexivity..|].
  cbn [app] in Hmoon. unfold after. rewrite Hmoon. reflexivity.
Defined.

(** ** One item and a batch *)

Section TimmOneAndMany.
Import TimmModel.
Variable W : World.
Variable self : obj.

Lemma outcome_timm_infer_batch (images : pyval) (top_k : Z) (s : machine) :
  outcome (infer_batch W self images top_k) s =
  match timm_picked W self images top_k with
  | Raise e => Raise e
  | Ok (t, picks) =>
      map_result (timm_row W (map (map fst) picks) (map (map snd) picks))
        (seq 0 (length (rows t)))
  end.
Proof.
  unfold infer_batch, timm_picked.
  rewrite outcome_bind, outcome_timm_preprocess.
  destruct (timm_tensor W self images) as [t|]; [|reflexivity].
  rewrite outcome_bind. unfold forward at 1. rewrite outcome_extern.
  destruct (timm_forward W (model self) (device (base self)) (dtype (base self)) t)
    as [output|]; [|reflexivity].
  rewrite outcome_bind, outcome_lift_result.
  unfold torch_topk. rewrite map_result_map.
  destruct (map_result (fun x => topk_row top_k (times100 (softmax W x))) output)
    as [picks|]; [|reflexivity].
  apply outcome_rows_loop.
Qed.

Lemma outcome_timm_infer (image : pyval) (top_k : Z) (s : machine) :
  outcome (infer W self image top_k) s =
  match timm_picked W self image top_k with
  | Raise e => Raise e
  | Ok (t, picks) => timm_row W (map (map fst) picks) (map (map snd) picks) 0
  end.
Proof.
  unfold infer, timm_picked.
  rewrite outcome_bind. cbn [outcome emit fst after snd].
  rewrite outcome_bind, outcome_timm_preprocess.
  destruct (timm_tensor W self image) as [t|]; [|reflexivity].
  rewrite outcome_bind. unfold forward at 1. rewrite outcome_extern.
  destruct (timm_forward W (model self) (device (base self)) (dtype (base self)) t)
    as [output|]; [|reflexivity].
  rewrite outcome_bind, outcome_lift_result.
  unfold torch_topk. rewrite map_result_map.
  destruct (map_result (fun x => topk_row top_k (times100 (softmax W x))) output)
    as [picks|]; [|reflexivity].
  unfold timm_row.
  rewrite outcome_bind, outcome_lift_result.
  destruct (py_index (map (map snd) picks) 0) as [ids|]; [|reflexivity].
  rewrite outcome_bind, outcome_lift_result.
  destruct (map_result (py_index (im_classes W)) ids); [|reflexivity].
  rewrite outcome_bind, outcome_lift_result.
  destruct (py_index (map (map fst) picks) 0); reflexivity.
Qed.

Lemma timm_picked_rows (images : pyval) (top_k : Z) (t : tensor)
    (picks : list (list (Q * nat))) :
  timm_picked W self images top_k = Ok (t, picks) ->
  length (rows t) = length (as_list images) /\ rows t <> [].
Proof.
  unfold timm_picked.
  destruct (timm_tensor W self images) as [t'|] eqn:Ht; [|discriminate].
  destruct (timm_forward _ _ _ _ t'); [|discriminate].
  destruct (map_result _ _); [|discriminate].
  intros [= -> _]. split; [exact (timm_tensor_length W self _ _ Ht)|].
  unfold timm_tensor in Ht.
  destruct (map_result (timm_picture W) (as_list images)); [|discriminate].
  destruct (map_result (timm_transform W (model self)) _) as [[|smp smps]|];
    try discriminate.
  injection Ht as <-. discriminate.
Qed.
End TimmOneAndMany.

(** X9. For the classifier wrapper a single call is the batch call cut
    to its first row: whenever [infer_batch] returns a list, the list is
    not empty and [infer] on the same argument returns its first element;
    and on one image [infer_batch] returns the singleton of what [infer]
    returns and raises what [infer] raises. *)
Theorem timm_infer_is_first_of_batch
    (W : World) (self : TimmModel.obj) (images : pyval) (top_k : Z)
    (s : machine) :
  (forall results,
      outcome (TimmModel.infer_batch W self images top_k) s = Ok results ->
      exists ds rest,
        results = ds :: rest /\
        outcome (TimmModel.infer W self images top_k) s = Ok ds) /\
  (length (as_list images) = 1%nat ->
   outcome (TimmModel.infer_batch W self images top_k) s =
   match outcome (TimmModel.infer W self images top_k) s with
   | Ok ds => Ok [ds]
   | Raise e => Raise e
   end).
Proof.
  rewrite outcome_timm_infer_batch, outcome_timm_infer.
  destruct (timm_picked W self images top_k) as [[t picks]|e] eqn:Hp.
  - destruct (timm_picked_rows W self _ _ _ _ Hp) as [Hlen Hne].
    split.
    + intros results. destruct (rows t) as [|r rs]; [contradiction|].
      cbn [length seq map_result].
      destruct (timm_row W _ _ 0) as [ds|]; [|discriminate].
      destruct (map_result _ _) as [rest|]; [|discriminate].
      intros [= <-]. exists ds, rest. split; reflexivity.
    + intros Hone. rewrite Hlen, Hone. cbn [seq map_result].
      destruct (timm_row W _ _ 0); reflexivity.
  - split; [discriminate | reflexivity].
Qed.

Lemma timm_infer_is_first_of_batch_witness :
  outcome (TimmModel.infer_batch demo_world demo_timm (PyStr "cat.jpg") 2) boot =
  match outcome (TimmModel.infer demo_world demo_timm (PyStr "cat.jpg") 2) boot with
  | Ok ds => Ok [ds]
  | Raise e => Raise e
  end.
Proof.
  destruct (timm_infer_is_first_of_batch demo_world demo_timm (PyStr "cat.jpg")
              2 boot) as [_ Hone].
  apply Hone. reflexivity.
Defined.

(** X10. For the vision-to-sequence wrapper, whenever [infer_batch]
    returns a list, [infer] on the same arguments ends as taking element 0
    of that list does; and an image and a prompt that are not lists are
    treated as the one-element lists holding them. *)
Theorem vision2seq_infer_is_first_of_batch
    (W : World) (images prompts : pyval) (kw : kwargs)
    (s : Vision2SeqModel.state) :
  (forall rs,
      outcome (Vision2SeqModel.infer_batch W images prompts kw) s = Ok rs ->
      outcome (Vision2SeqModel.infer W images prompts kw) s = py_index rs 0) /\
  (is_list images = false -> is_list prompts = false ->
   outcome (Vision2SeqModel.infer W images prompts kw) s
   = outcome (Vision2SeqModel.infer W (PyList [images]) (PyList [prompts]) kw) s /\
   forall rs,
     outcome (Vision2SeqModel.infer_batch W (PyList [images]) (PyList [prompts]) kw) s
       = Ok rs ->
     outcome (Vision2SeqModel.infer W images prompts kw) s = py_index rs 0).
Proof.
  split.
  - intros rs. rewrite outcome_infer_batch, outcome_infer.
    destruct (vision2seq_pipeline W _ images prompts kw); [|discriminate].
    destruct (py_len images); [|discriminate].
    intros [= <-]. reflexivity.
  - intros Hi Hp.
    assert (vision2seq_pipeline W (Vision2SeqModel.self s) images prompts kw
            = vision2seq_pipeline W (Vision2SeqModel.self s) (PyList [images])
                (PyList [prompts]) kw) as Hsame.
    { unfold vision2seq_pipeline.
      destruct images; try discriminate; destruct prompts; try discriminate;
        reflexivity. }
    split.
    + rewrite !outcome_infer, Hsame. reflexivity.
    + intros rs. rewrite outcome_infer_batch, outcome_infer, Hsame.
      destruct (vision2seq_pipeline W _ (PyList [images]) (PyList [prompts]) kw);
        [|discriminate].
      cbn [py_len]. intros [= <-]. reflexivity.
Qed.

Lemma vision2seq_infer_is_first_of_batch_witness :
  outcome (Vision2SeqModel.infer demo_world (PyStr "cat.jpg") (PyStr "What?") [])
    demo_state
  = outcome (Vision2SeqModel.infer demo_world (PyList [PyStr "cat.jpg"])
               (PyList [PyStr "What?"]) []) demo_state.
Proof.
  destruct (vision2seq_infer_is_first_of_batch demo_world (PyStr "cat.jpg")
              (PyStr "What?") [] demo_state) as [_ Hsingle].
  destruct Hsingle as [Hsame _]; [reflexivity..|]. exact Hsame.
Defined.

(** ** A call that raises *)

Section Vision2SeqFailures.
Import Vision2SeqModel.
Variable W : World.

Lemma count_after_track {A} (body : M state A) (s : state) :
  (forall s0, self (after body s0) = self s0) ->
  count (after (track_inference_time W body) s) = count s.
Proof.
  intros Hframe.
  destruct (self_after_track W body s Hframe) as (time & Htime).
  unfold count at 1. rewrite Htime. reflexivity.
Qed.

Lemma failed_infer_keeps_count (image prompt : pyval) (kw : kwargs) (s : state)
    (e : exn) :
  outcome (infer W image prompt kw) s = Raise e ->
  count (after (infer W image prompt kw) s) = count s.
Proof.
  unfold infer. rewrite outcome_bind, after_bind.
  destruct (outcome (track_inference_time W _) s) as [a|e'] eqn:E;
    [discriminate|].
  intros _. apply count_after_track.
  intros s0. rewrite after_infer_block. apply self_after_steps.
Qed.

Lemma failed_infer_batch_keeps_count (images prompts : pyval) (kw : kwargs)
    (s : state) (e : exn) :
  outcome (infer_batch W images prompts kw) s = Raise e ->
  count (after (infer_batch W images prompts kw) s) = count s.
Proof.
  unfold infer_batch. rewrite outcome_bind, after_bind.
  change (track_inference_time W _)
    with (track_inference_time W (vision2seq_steps W images prompts kw)).
  pose proof (count_after_track (vision2seq_steps W images prompts kw) s
                (self_after_steps W images prompts kw)) as Hcount.
  destruct (outcome (track_inference_time W _) s) as [a|e'] eqn:E;
    [|intros _; exact Hcount].
  rewrite outcome_bind, after_bind, outcome_lift_result.
  destruct (py_len images) as [n|]; [discriminate|].
  intros _. exact Hcount.
Qed.
End Vision2SeqFailures.

(** X11. A call to [infer] or [infer_batch] of the vision-to-sequence
    wrapper that raises leaves the inference count as it was: the count
    is advanced after the block, so only by calls that got through it. *)
Theorem failed_inference_is_not_counted
    (W : World) (images prompts : pyval) (kw : kwargs)
    (s : Vision2SeqModel.state) (e : exn) :
  (outcome (Vision2SeqModel.infer W images prompts kw) s = Raise e ->
   count (after (Vision2SeqModel.infer W images prompts kw) s) = count s) /\
  (outcome (Vision2SeqModel.infer_batch W images prompts kw) s = Raise e ->
   count (after (Vision2SeqModel.infer_batch W images prompts kw) s) = count s).
Proof.
  split.
  - apply failed_infer_keeps_count.
  - apply failed_infer_batch_keeps_count.
Qed.

Lemma failed_inference_is_not_counted_witness :
  count (after (Vision2SeqModel.infer_batch demo_world
                  (PyList [PyStr "cat.jpg"; PyStr "missing.jpg"])
                  (PyList [PyStr "one"; PyStr "two"]) []) demo_state)
  = count demo_state.
Proof.
  destruct (failed_inference_is_not_counted demo_world
              (PyList [PyStr "cat.jpg"; PyStr "missing.jpg"])
              (PyList [PyStr "one"; PyStr "two"]) [] demo_state
              (local_file_not_found "missing.jpg")) as [_ Hbatch].
  apply Hbatch. reflexivity.
Defined.

(** ** What the clean-up of a decoded text keeps *)

Section Clean.
Import Str.

Lemma remove_char_absent (c : ascii) (s : string) :
  has_char c s = false -> remove_char c s = s.
Proof.
  induction s as [|d s IH]; simpl; [reflexivity|].
  intros H. apply orb_false_elim in H as [Hd Hs].
  rewrite Hd, (IH Hs). reflexivity.
Qed.

Lemma lstrip_id (s : string) :
  match first_char s with Some c => is_space c = false | None => True end ->
  lstrip s = s.
Proof. destruct s as [|c s]; simpl; [reflexivity|]. intros ->. reflexivity. Qed.

Lemma rstrip_id (s : string) :
  match last_char s with Some c => is_space c = false | None => True end ->
  rstrip s = s.
Proof.
  induction s as [|c s IH]; [reflexivity|].
  destruct s as [|d s].
  - simpl. intros ->. reflexivity.
  - intros H. change (last_char (String c (String d s)))
      with (last_char (String d s)) in H.
    change (rstrip (String c (String d s)))
      with (match rstrip (String d s) with
            | EmptyString => if is_space c then EmptyString else String c EmptyString
            | r => String c r
            end).
    rewrite (IH H). reflexivity.
Qed.

Lemma visible_remove_newline (s : string) :
  visible (remove_char newline s) = visible s.
Proof.
  induction s as [|d s IH]; simpl; [reflexivity|].
  destruct (Ascii.eqb_spec d newline) as [->|Hne].
  - rewrite IH. reflexivity.
  - simpl. rewrite IH. reflexivity.
Qed.

Lemma visible_lstrip (s : string) : visible (lstrip s) = visible s.
Proof.
  induction s as [|d s IH]; simpl; [reflexivity|].
  destruct (is_space d) eqn:E; [exact IH|]. simpl. rewrite E. reflexivity.
Qed.

Lemma visible_rstrip (s : string) : visible (rstrip s) = visible s.
Proof.
  induction s as [|d s IH]; simpl; [reflexivity|].
  destruct (rstrip s) as [|r0 r] eqn:E.
  - simpl in IH. rewrite <- IH.
    destruct (is_space d) eqn:Ed; simpl; [reflexivity|]. rewrite Ed. reflexivity.
  - change (visible (String d (String r0 r)))
      with (if is_space d then visible (String r0 r)
            else String d (visible (String r0 r))).
    rewrite IH. reflexivity.
Qed.

Lemma length_remove_char (c : ascii) (s : string) :
  (String.length (remove_char c s) <= String.length s)%nat.
Proof.
  induction s as [|d s IH]; simpl; [lia|].
  destruct (Ascii.eqb d c); simpl; lia.
Qed.

Lemma length_lstrip (s : string) : (String.length (lstrip s) <= String.length s)%nat.
Proof.
  induction s as [|d s IH]; simpl; [lia|].
  destruct (is_space d); simpl; lia.
Qed.

Lemma length_rstrip (s : string) : (String.length (rstrip s) <= String.length s)%nat.
Proof.
  induction s as [|d s IH]; simpl; [lia|].
  destruct (rstrip s); [destruct (is_space d)|]; simpl in *; lia.
Qed.
End Clean.

(** X12. The clean-up applied to every decoded output leaves a text
    unchanged exactly when the text has no newline and neither starts nor
    ends with whitespace; applying it twice therefore changes nothing
    more. *)
Theorem clean_fixes_exactly_the_tidy_texts (output : string) :
  (Vision2SeqModel.clean output = output <-> tidy output = true) /\
  Vision2SeqModel.clean (Vision2SeqModel.clean output)
  = Vision2SeqModel.clean output.
Proof.
  assert (forall s, tidy s = true -> Vision2SeqModel.clean s = s) as Hfix.
  { intros s Ht. unfold tidy in Ht.
    apply andb_prop in Ht as [Ht Hlast]. apply andb_prop in Ht as [Hnl Hfirst].
    apply negb_true_iff in Hnl.
    unfold Vision2SeqModel.clean, Str.strip.
    rewrite (remove_char_absent _ _ Hnl).
    rewrite lstrip_id.
    - apply rstrip_id. destruct (Str.last_char s); [|exact I].
      apply negb_true_iff, Hlast.
    - destruct (Str.first_char s); [|exact I]. apply negb_true_iff, Hfirst. }
  split; [split|].
  - intros H. rewrite <- H. apply tidy_strip_remove_newline.
  - apply Hfix.
  - apply Hfix. apply tidy_strip_remove_newline.
Qed.

(** X13. The clean-up only takes whitespace away: the characters of the
    decoded output that are not whitespace come out unchanged and in the
    same order, and the result is never longer than the output. *)
Theorem clean_keeps_the_visible_characters (output : string) :
  visible (Vision2SeqModel.clean output) = visible output /\
  (String.length (Vision2SeqModel.clean output) <= String.length output)%nat.
Proof.
  unfold Vision2SeqModel.clean, Str.strip. split.
  - rewrite visible_rstrip, visible_lstrip. apply visible_remove_newline.
  - eapply Nat.le_trans; [apply length_rstrip|].
    eapply Nat.le_trans; [apply length_lstrip|]. apply length_remove_char.
Qed.

(** ** More on the listing *)

Lemma selected_empty_wildcard (mi : ModelInfo) :
  selected (Some EmptyString) mi = true.
Proof.
  unfold selected. cbn [Str.lower]. rewrite contains_unfold.
  destruct (Str.lower (id mi)); reflexivity.
Qed.

(** X14. An empty wildcard filters nothing: the table is the one printed
    without a wildcard, and without a wildcard every entry the registry
    lists is shown, in the order of that listing, as long as their number
    does not exceed the limit. *)
Theorem empty_wildcard_lists_everything (reg : ModelRegistry) (limit : Z) :
  list_models reg (Some EmptyString) limit = list_models reg None limit /\
  (Z.of_nat (length (model_registry.list_models reg)) <= limit ->
   table_rows (list_models reg None limit)
   = map row_of (model_registry.list_models reg)).
Proof.
  assert (forall l, List.filter (selected (Some EmptyString)) l = l) as Hall.
  { induction l as [|mi l IH]; cbn [List.filter]; [reflexivity|].
    rewrite selected_empty_wildcard, IH. reflexivity. }
  assert (forall l, List.filter (selected None) l = l) as Hnone.
  { induction l as [|mi l IH]; simpl; [reflexivity|]. rewrite IH. reflexivity. }
  split.
  - unfold list_models. rewrite Hall, Hnone. reflexivity.
  - intros Hle. unfold list_models. cbn [table_rows]. rewrite Hnone.
    rewrite length_map.
    destruct (Z.gtb_spec (Z.of_nat (length (model_registry.list_models reg))) limit);
      [lia | reflexivity].
Qed.

Lemma empty_wildcard_lists_everything_witness :
  table_rows (list_models two_models None 20)
  = map row_of (model_registry.list_models two_models).
Proof.
  destruct (empty_wildcard_lists_everything two_models 20) as [_ Hall].
  apply Hall. vm_compute. discriminate.
Defined.

(** X15. Whatever the wildcard and the limit, the table shows a first
    part of the selected rows, in their order, and either nothing more or
    exactly two ellipsis rows; for a limit that is not negative it never
    has more than [limit + 2] rows. *)
Theorem table_is_a_prefix_of_the_selection
    (reg : ModelRegistry) (wildcard : option string) (limit : Z) :
  let found := map row_of (matches reg wildcard) in
  let shown := table_rows (list_models reg wildcard limit) in
  (shown = found \/
   exists n, shown = firstn n found ++ [ellipsis_row; ellipsis_row]) /\
  (0 <= limit -> Z.of_nat (length shown) <= limit + 2).
Proof.
  intros found shown.
  assert (shown = if Z.of_nat (length found) >? limit
                  then slice_to found limit ++ [ellipsis_row; ellipsis_row]
                  else found) as Hshown by reflexivity.
  split.
  - rewrite Hshown. destruct (Z.of_nat (length found) >? limit); [|left; reflexivity].
    right. unfold slice_to. destruct (limit <? 0); eexists; reflexivity.
  - intros H0. rewrite Hshown.
    destruct (Z.gtb_spec (Z.of_nat (length found)) limit); [|lia].
    rewrite slice_to_nonneg by exact H0.
    rewrite length_app, firstn_length_le by lia. simpl. lia.
Qed.

Lemma table_is_a_prefix_of_the_selection_witness :
  Z.of_nat (length (table_rows (list_models two_models None 0))) <= 2.
Proof.
  destruct (table_is_a_prefix_of_the_selection two_models None 0) as [_ Hbound].
  apply Hbound. lia.
Defined.

(** ** The captioning wrapper *)

Ltac unfold_moondream :=
  unfold outcome, adds, after, Moondream.infer, Moondream.infer_batch,
    Moondream.preprocess, Moondream.report, time_perf_counter, extern,
    logger_info, emit, bind, raise, ret, lift_result.

(** X16. The flag [verbose] of the captioning wrapper changes the log
    and nothing else: [infer] and [infer_batch] end the same way with and
    without it, and a call that returns with the flag set has added, after
    everything the call without the flag adds, the three records for the
    time, the device and the dtype. *)
Theorem verbose_only_adds_log_records
    (W : World) (self : Moondream.obj) (image prompt : pyval) (kw : kwargs)
    (s : machine) :
  outcome (Moondream.infer W self image prompt true kw) s
    = outcome (Moondream.infer W self image prompt false kw) s /\
  outcome (Moondream.infer_batch W self image prompt true kw) s
    = outcome (Moondream.infer_batch W self image prompt false kw) s /\
  (forall output,
      outcome (Moondream.infer W self image prompt true kw) s = Ok output ->
      exists ms,
        trace (after (Moondream.infer W self image prompt true kw) s)
        = trace (after (Moondream.infer W self image prompt false kw) s)
          ++ [LogInferenceTime ms;
              LogInfo ("Device: " +:+ device (Moondream.base self));
              LogInfo ("Dtype: " +:+ dtype_repr (dtype (Moondream.base self)))]).
Proof.
  split; [|split].
  - unfold_moondream. simpl.
    destruct (for_each (open_image_rgb W) (as_list image) _) as [[ims|e] s1];
      [|reflexivity].
    simpl. split_oracles; reflexivity.
  - unfold_moondream. simpl.
    destruct (for_each (open_image_rgb W) (as_list image) _) as [[ims|e] s1];
      [|reflexivity].
    simpl. destruct (Moondream.iterate prompt); [|reflexivity].
    simpl. split_oracles; reflexivity.
  - intros output. unfold_moondream. simpl.
    destruct (for_each (open_image_rgb W) (as_list image) _) as [[ims|e] s1];
      [|discriminate].
    simpl. split_oracles; try discriminate.
    intros _. eexists. rewrite <- !app_assoc. reflexivity.
Qed.

Lemma verbose_only_adds_log_records_witness :
  exists ms,
    trace (after (Moondream.infer demo_world demo_moondream (PyStr "cat.jpg")
                    PyNone true []) boot)
    = trace (after (Moondream.infer demo_world demo_moondream (PyStr "cat.jpg")
                      PyNone false []) boot)
      ++ [LogInferenceTime ms; LogInfo "Device: cpu";
          LogInfo "Dtype: torch.float32"].
Proof.
  destruct (verbose_only_adds_log_records demo_world demo_moondream
              (PyStr "cat.jpg") PyNone [] boot) as (_ & _ & Hlog).
  exact (Hlog "a cat" eq_refl).
Defined.

Lemma outcome_moondream_infer (W : World) (self : Moondream.obj)
    (image prompt : pyval) (verbose : bool) (kw : kwargs) (s : machine) :
  outcome (Moondream.infer W self image prompt verbose kw) s =
  match map_result (rgb_picture W) (as_list image) with
  | Raise e => Raise e
  | Ok ims =>
      match encode_image W (Moondream.model self) ims with
      | Raise e => Raise e
      | Ok encoded =>
          answer_question W (Moondream.model self) prompt encoded
            (Moondream.tokenizer self) kw
      end
  end.
Proof.
  unfold Moondream.infer.
  rewrite outcome_bind. cbn [outcome time_perf_counter fst].
  rewrite outcome_bind, outcome_moondream_preprocess.
  destruct (map_result (rgb_picture W) (as_list image)) as [ims|]; [|reflexivity].
  rewrite outcome_bind, outcome_extern.
  destruct (encode_image W (Moondream.model self) ims) as [enc|]; [|reflexivity].
  rewrite outcome_bind, outcome_extern.
  destruct (answer_question W _ prompt enc _ kw); [|reflexivity].
  rewrite outcome_bind. cbn [outcome time_perf_counter fst].
  rewrite outcome_bind. destruct verbose; reflexivity.
Qed.



(** ** Failures inside the libraries *)

(** X18. None of the wrappers intercepts a failure of the model it
    delegates to: once the inputs are prepared, an exception raised by the
    forward pass of the classifier, by [generate], by [encode_image] or
    by [batch_answer] is the exception the call ends with. *)
Theorem model_failures_propagate_unchanged
    (W : World) (images prompts : pyval) (kw : kwargs) (e : exn) :
  (forall (self : TimmModel.obj) t top_k s,
      timm_tensor W self images = Ok t ->
      timm_forward W (TimmModel.model self) (device (TimmModel.base self))
        (dtype (TimmModel.base self)) t = Raise e ->
      outcome (TimmModel.infer W self images top_k) s = Raise e /\
      outcome (TimmModel.infer_batch W self images top_k) s = Raise e) /\
  (forall s ims preprocessed_input,
      length (as_list images) = length (as_list prompts) ->
      map_result (rgb_picture W) (as_list images) = Ok ims ->
      processor_call W (Vision2SeqModel.processor_ (Vision2SeqModel.self s)) ims
        (as_list prompts)
        (device (Vision2SeqModel.base (Vision2SeqModel.self s)))
        (dtype (Vision2SeqModel.base (Vision2SeqModel.self s)))
        = Ok preprocessed_input ->
      generate W (Vision2SeqModel.model (Vision2SeqModel.self s))
        (device (Vision2SeqModel.base (Vision2SeqModel.self s)))
        (dtype (Vision2SeqModel.base (Vision2SeqModel.self s)))
        preprocessed_input kw = Raise e ->
      outcome (Vision2SeqModel.infer W images prompts kw) s = Raise e /\
      outcome (Vision2SeqModel.infer_batch W images prompts kw) s = Raise e) /\
  (forall (self : Moondream.obj) verbose s ims,
      map_result (rgb_picture W) (as_list images) = Ok ims ->
      (encode_image W (Moondream.model self) ims = Raise e ->
       outcome (Moondream.infer W self images prompts verbose kw) s = Raise e) /\
      (forall ps,
          Moondream.iterate prompts = Ok ps ->
          batch_answer W (Moondream.model self) ims ps (Moondream.tokenizer self) kw
            = Raise e ->
          outcome (Moondream.infer_batch W self images prompts verbose kw) s
            = Raise e)).
Proof.
  split; [|split].
  - intros self t top_k s Ht Hfwd.
    rewrite outcome_timm_infer, outcome_timm_infer_batch.
    unfold timm_picked. rewrite Ht, Hfwd. split; reflexivity.
  - intros s ims feats Hlen Hims Hproc Hgen.
    rewrite outcome_infer, outcome_infer_batch.
    unfold vision2seq_pipeline.
    rewrite Hlen, Nat.eqb_refl. cbn [negb]. rewrite Hims, Hproc, Hgen.
    split; reflexivity.
  - intros self verbose s ims Hims. split.
    + intros Henc. rewrite outcome_moondream_infer, Hims, Henc. reflexivity.
    + intros ps Hps Hans.
      rewrite outcome_moondream_batch, Hims, Hps, Hans. reflexivity.
Qed.

Lemma model_failures_propagate_unchanged_witness :
  outcome (Moondream.infer_batch world_without_memory demo_moondream
             (PyList [PyStr "cat.jpg"]) (PyList [PyStr "What?"]) false []) boot
  = Raise (RuntimeError "out of memory").
Proof.
  destruct (model_failures_propagate_unchanged world_without_memory
              (PyList [PyStr "cat.jpg"]) (PyList [PyStr "What?"]) []
              (RuntimeError "out of memory")) as (_ & _ & Hmoon).
  destruct (Hmoon demo_moondream false boot [ConvertRGB (Picture "cat")])
    as [_ Hbatch]; [reflexivity|].
  apply (Hbatch [PyStr "What?"]); reflexivity.
Defined.
